(** * ViaCargo ERP: order lifecycle and derived financial state

    A shallow embedding of the money and progress rules ([types.ts]), of the
    dashboard aggregations and the criticality alert ([App.tsx]) and of the
    order form ([components/OrderForm.tsx]).

    JavaScript numbers are IEEE-754 binary64 values: money, quantities and
    unit costs are Rocq's primitive floats, whose operations are the same
    correctly rounded ones.  Epoch milliseconds and day counts are integers
    far below 2^53 and are kept in [Z]. *)

From Stdlib Require Import ZArith Lia Floats String Ascii.
From Stdlib Require Import Decimal DecimalString DecimalZ DecimalN.
From mathcomp Require Import ssreflect ssrfun ssrbool eqtype ssrnat seq path.

Set Implicit Arguments.
Unset Strict Implicit.
Unset Printing Implicit Defensive.
Set Warnings "-inexact-float,-rewrite-rw".

(** A JavaScript [number]. *)
Definition number := float.

(** [Array.prototype.reduce] and [forEach] with an accumulator visit the
    elements from left to right: [foldl]. *)
Definition sumNumbers (xs : seq number) : number :=
  foldl (fun acc x => (acc + x)%float) 0%float xs.

(** ** types.ts *)
Module Types.

Inductive ServiceType := helper | assembler | packer | other.

Definition ServiceType_eqb (a b : ServiceType) : bool :=
  match a, b with
  | helper, helper | assembler, assembler | packer, packer | other, other => true
  | _, _ => false
  end.

Record ExtraService := {
  extra_id : string;
  extra_type : ServiceType;
  extra_name : string;
  qty : number;
  cost : number
}.

Record Financials := {
  totalValue : number;
  driverCost : number;
  extras : seq ExtraService
}.

Record PaymentStatus := {
  deposit : bool;
  pickup : bool;
  delivery : bool
}.

(** [ProgressStage = 20 | 60 | 100]; the form also stores [0 as any] for a
    lead without any payment, hence the fourth value. *)
Inductive ProgressStage := Stage0 | Stage20 | Stage60 | Stage100.

Definition stageValue (p : ProgressStage) : Z :=
  match p with
  | Stage0 => 0
  | Stage20 => 20
  | Stage60 => 60
  | Stage100 => 100
  end.

Record OrderNote := {
  note_id : string;
  content : string;
  color : string;
  note_createdAt : string
}.

Record ServiceOrder := {
  id : string;
  clientName : string;
  whatsapp : string;
  origin : string;
  destination : string;
  isContractSigned : bool;
  isPostedFretebras : bool;
  paymentStatus : PaymentStatus;
  isCostsPaid : bool;
  progress : ProgressStage;
  financials : Financials;
  pickupDate : string;
  deliveryForecast : string;
  notes : seq OrderNote;
  noteTags : string;
  createdAt : string
}.

Inductive TransactionType := income | expense.

Record Transaction := {
  tx_id : string;
  description : string;
  amount : number;
  tx_type : TransactionType;
  date : string;
  category : option string
}.

Definition calculateCosts (financials : Financials) : number :=
  let extrasTotal :=
    foldl (fun acc curr => (acc + cost curr * qty curr)%float) 0%float
          (extras financials) in
  (driverCost financials + extrasTotal)%float.

Definition calculateProfit (financials : Financials) : number :=
  (totalValue financials - calculateCosts financials)%float.

Definition calculateReceivedAmount (order : ServiceOrder) : number :=
  let received := 0%float in
  let total := totalValue (financials order) in
  let received :=
    if deposit (paymentStatus order) then (received + total * 0.20)%float
    else received in
  let received :=
    if pickup (paymentStatus order) then (received + total * 0.40)%float
    else received in
  let received :=
    if delivery (paymentStatus order) then (received + total * 0.40)%float
    else received in
  received.

End Types.
Import Types.

(** ** The JavaScript runtime the code calls into

    Only the library functions the modelled code uses, each on the inputs
    the application gives it. *)
Module Js.

(** [s.startsWith(key)] *)
Definition startsWith (s key : string) : bool := String.prefix key s.

(** [s.split(sep)] for a one-character separator; [''.split('-')] is
    [['']]. *)
Fixpoint split (sep : ascii) (s : string) : seq string :=
  match s with
  | EmptyString => [:: EmptyString]
  | String c r =>
      if Ascii.eqb c sep then EmptyString :: split sep r
      else match split sep r with
           | h :: t => String c h :: t
           | [::] => [:: String c EmptyString]
           end
  end.

Definition isDigit (c : ascii) : bool :=
  let n := nat_of_ascii c in (48 <= n) && (n <= 57).

Definition isWhiteSpace (c : ascii) : bool :=
  let n := nat_of_ascii c in (n == 32) || ((9 <= n) && (n <= 13)).

(** [Number(s)] on texts of decimal digits; [None] is [NaN].  The empty
    text converts to 0.  Signs, blanks, fractions, exponents and radix
    prefixes are not modelled (they come out as [NaN] here): the date
    fields the application converts hold digits only. *)
Definition Number (s : string) : option Z :=
  omap Z.of_uint (NilEmpty.uint_of_string s).

Fixpoint trimStart (s : string) : string :=
  match s with
  | String c r => if isWhiteSpace c then trimStart r else s
  | EmptyString => EmptyString
  end.

Fixpoint digitPrefix (s : string) : string :=
  match s with
  | String c r => if isDigit c then String c (digitPrefix r) else EmptyString
  | EmptyString => EmptyString
  end.

(** [parseInt(s)]: leading blanks, an optional sign, then the longest run of
    decimal digits; [None] is [NaN].  The hexadecimal prefix is not
    modelled: the text parsed is one [toString] wrote. *)
Definition parseInt (s : string) : option Z :=
  let s := trimStart s in
  let signed :=
    match s with
    | String "-"%char r => (true, r)
    | String "+"%char r => (false, r)
    | _ => (false, s)
    end in
  match NilZero.uint_of_string (digitPrefix signed.2) with
  | Some d => Some (if signed.1 then (- Z.of_uint d)%Z else Z.of_uint d)
  | None => None
  end.

(** [n.toString()] and [String(n)] of an integer-valued number. *)
Definition toString (n : Z) : string := NilZero.string_of_int (Z.to_int n).

(** [s.padStart(2, '0')] *)
Definition padStart2 (s : string) : string :=
  match s with
  | EmptyString => "00"%string
  | String c EmptyString => String "0"%char s
  | _ => s
  end.

(** [Math.max(a, b)]: [NaN] if either argument is, and [+0] above [-0]. *)
Definition Math_max (a b : number) : number :=
  if is_nan a || is_nan b then nan
  else if (a <? b)%float then b
  else if (b <? a)%float then a
  else match classify a with PZero => a | _ => b end.

(** [Math.ceil(x / d)] for integers [x] and [d > 0]: the quotient of two
    integers below 2^53 lies, unless it is an integer itself, at least
    [1/d] away from the nearest one, so rounding the division does not
    move its ceiling. *)
Definition ceilDiv (x d : Z) : Z := (- ((- x) / d))%Z.

(** *** Dates *)

Definition msPerDay : Z := 86400000.

(** Days from 1970-01-01 to the first day of month [m] (1..12) of year [y]
    in the proleptic Gregorian calendar, plus [d - 1]. *)
Definition daysFromCivil (y m d : Z) : Z :=
  let y' := if (m <=? 2)%Z then (y - 1)%Z else y in
  let era := (y' / 400)%Z in
  let yoe := (y' - era * 400)%Z in
  let mp := ((m + 9) mod 12)%Z in
  let doy := ((153 * mp + 2) / 5 + d - 1)%Z in
  let doe := (yoe * 365 + yoe / 4 - yoe / 100 + doy)%Z in
  (era * 146097 + doe - 719468)%Z.

(** [MakeDay(year, month, date)] with a 0-based [month] that may lie
    outside 0..11 and a [date] that may lie outside the month. *)
Definition MakeDay (year month date : Z) : Z :=
  let ym := (year + month / 12)%Z in
  let mn := (month mod 12)%Z in
  (daysFromCivil ym (mn + 1) 1 + date - 1)%Z.

(** [TimeClip]: a time value beyond 8.64e15 ms is [NaN]. *)
Definition TimeClip (t : Z) : option Z :=
  if (Z.abs t <=? 8640000000000000)%Z then Some t else None.

(** The time zone of the host: [LocalTZA t] is the offset, in ms, of local
    time from UTC at the local time value [t]. *)
Record TimeZone := { LocalTZA : Z -> Z }.

(** The day number of [new Date(year, monthIndex, day)] in local time.  A
    year in 0..99 means 1900 + year. *)
Definition localDay (year monthIndex day : Z) : Z :=
  let yr := if (0 <=? year)%Z && (year <=? 99)%Z then (1900 + year)%Z else year in
  MakeDay yr monthIndex day.

(** [new Date(year, monthIndex, day).getTime()]: local midnight of that
    day, as a UTC time value. *)
Definition Date_local (tz : TimeZone) (year monthIndex day : Z) : option Z :=
  let t := (localDay year monthIndex day * msPerDay)%Z in
  TimeClip (t - LocalTZA tz t).

(** A zone that keeps one offset all year. *)
Definition fixedZone (offset : Z) : TimeZone := {| LocalTZA := fun _ => offset |}.

Definition isLeapYear (y : Z) : bool :=
  ((y mod 4 =? 0)%Z && negb (y mod 100 =? 0)%Z) || (y mod 400 =? 0)%Z.

Definition daysInMonth (y m : Z) : Z :=
  if (m =? 2)%Z then (if isLeapYear y then 29 else 28)%Z
  else if (m =? 4)%Z || (m =? 6)%Z || (m =? 9)%Z || (m =? 11)%Z then 30%Z
  else 31%Z.

(** [new Date(s).getTime()] for the date-only form [YYYY-MM-DD], which is
    read as UTC midnight; [None] is [NaN] (an invalid date).  Other date
    texts are not modelled and come out as [NaN]; so does a day past the
    end of its month, which the engines answer differently. *)
Definition Date_parse (s : string) : option Z :=
  match split "-"%char s with
  | [:: ys; ms; ds] =>
      if (String.length ys == 4) && (String.length ms == 2) && (String.length ds == 2)
      then
        match Number ys, Number ms, Number ds with
        | Some y, Some m, Some d =>
            if (1 <=? m)%Z && (m <=? 12)%Z && (1 <=? d)%Z && (d <=? daysInMonth y m)%Z
            then Some (daysFromCivil y m d * msPerDay)%Z
            else None
        | _, _, _ => None
        end
      else None
  | _ => None
  end.

(** [arr.sort(compareFn)]: the standard requires a stable sort; a
    comparator result of [NaN] counts as [+0].  [a] may stay before [b]
    when [compareFn(a, b) <= 0]. *)
Definition sortBy (T : Type) (compareFn : T -> T -> option Z) (s : seq T) : seq T :=
  sort (fun a b => if compareFn a b is Some v then (v <=? 0)%Z else true) s.

End Js.

(** ** App.tsx *)
Module App.

(** What the host answers when the code asks for the time: the calendar
    fields of [new Date()] in local time, [Date.now()], and the time zone
    that [new Date(y, m, d)] is read in. *)
Record Host := {
  zone : Js.TimeZone;
  getFullYear : Z;
  getMonth : Z;
  getDate : Z;
  Date_now : Z
}.

(** [diffDays <= 5], where a [NaN] on either side compares false. *)
Definition isOrderCritical (h : Host) (order : ServiceOrder) : bool :=
  if (stageValue (progress order) =? 100)%Z then false
  else
    let nowMidnight :=
      Js.Date_local (zone h) (getFullYear h) (getMonth h) (getDate h) in
    let parts := map Js.Number (Js.split "-"%char (pickupDate order)) in
    let year := nth None parts 0 in
    let month := nth None parts 1 in
    let day := nth None parts 2 in
    let targetDate :=
      match year, month, day with
      | Some y, Some m, Some d => Js.Date_local (zone h) y (m - 1) d
      | _, _, _ => None
      end in
    let diffDays :=
      match targetDate, nowMidnight with
      | Some t, Some n => Some (Js.ceilDiv (t - n) (1000 * 60 * 60 * 24))
      | _, _ => None
      end in
    if diffDays is Some d then (d <=? 5)%Z else false.

Record UrgentAlert := {
  count : nat;
  names : seq string;
  show : bool
}.

(** The part of the application state the alert touches: the
    [lastExpirationAlertTime] item of [localStorage] ([None] when
    [getItem] gives [null]) and the [urgentAlert] state. *)
Record AlertState := {
  lastExpirationAlertTime : option string;
  urgentAlert : UrgentAlert
}.

Definition FIVE_HOURS : Z := 5 * 60 * 60 * 1000.

(** One pass of [checkCriticalOrders].  The second component lists the
    alerts this pass raised (the calls of [setUrgentAlert]). *)
Definition checkCriticalOrders (h : Host) (orders : seq ServiceOrder)
    (st : AlertState) : AlertState * seq UrgentAlert :=
  let criticalOrders := filter (isOrderCritical h) orders in
  if 0 < size criticalOrders then
    let lastAlertTime := lastExpirationAlertTime st in
    let now := Date_now h in
    let shouldShow :=
      match lastAlertTime with
      | None | Some EmptyString => true
      | Some s =>
          if Js.parseInt s is Some t then (FIVE_HOURS <? now - t)%Z else false
      end in
    if shouldShow then
      let clientNames := map clientName criticalOrders in
      let alert :=
        {| count := size criticalOrders; names := clientNames; show := true |} in
      ({| lastExpirationAlertTime := Some (Js.toString now);
          urgentAlert := alert |}, [:: alert])
    else (st, [::])
  else (st, [::]).

(** Successive passes (one per change of the orders and one per tick of the
    60-second interval), each with the host's answers and the orders at
    that moment; the alerts raised are collected in order. *)
Fixpoint runPasses (passes : seq (Host * seq ServiceOrder)) (st : AlertState)
    : AlertState * seq UrgentAlert :=
  match passes with
  | [::] => (st, [::])
  | (h, orders) :: rest =>
      let r := checkCriticalOrders h orders st in
      let r' := runPasses rest r.1 in
      (r'.1, r.2 ++ r'.2)
  end.

(** The key of the month shown: [`${year}-${String(month + 1).padStart(2, '0')}`]. *)
Definition monthKey (year month : Z) : string :=
  (Js.toString year ++ "-" ++ Js.padStart2 (Js.toString (month + 1)))%string.

(** The body shared by [monthlyRevenue] and [revenueViewValue], from its
    key on. *)
Definition monthlyNet (orders : seq ServiceOrder) (transactions : seq Transaction)
    (key : string) : number :=
  let monthOrders := [seq order <- orders | Js.startsWith (pickupDate order) key] in
  let acc :=
    foldl (fun acc order =>
             let received := calculateReceivedAmount order in
             let cashIn := (acc.1 + received)%float in
             let cashOut :=
               if isCostsPaid order
               then (acc.2 + calculateCosts (financials order))%float
               else acc.2 in
             (cashIn, cashOut))
          (0%float, 0%float) monthOrders in
  let monthTransactions := [seq t <- transactions | Js.startsWith (date t) key] in
  let acc :=
    foldl (fun acc t =>
             let cashIn :=
               if tx_type t is income then (acc.1 + amount t)%float else acc.1 in
             let cashOut :=
               if tx_type t is expense then (acc.2 + amount t)%float else acc.2 in
             (cashIn, cashOut))
          acc monthTransactions in
  (acc.1 - acc.2)%float.

(** [viewYear] and [viewMonth] are [viewDate.getFullYear()] and
    [viewDate.getMonth()]. *)
Definition monthlyRevenue (orders : seq ServiceOrder)
    (transactions : seq Transaction) (viewYear viewMonth : Z) : number :=
  monthlyNet orders transactions (monthKey viewYear viewMonth).

Definition globalPending (orders : seq ServiceOrder) : number :=
  foldl (fun pendingReceivables order =>
           let received := calculateReceivedAmount order in
           (pendingReceivables + (totalValue (financials order) - received))%float)
        0%float orders.

Record Counts := {
  counts_all : nat;
  counts_active : nat;
  counts_completed : nat;
  counts_critical : nat
}.

Definition counts (h : Host) (orders : seq ServiceOrder) : Counts :=
  {| counts_all := size orders;
     counts_active := size [seq o <- orders | (stageValue (progress o) <? 100)%Z];
     counts_completed := size [seq o <- orders | (stageValue (progress o) =? 100)%Z];
     counts_critical := size (filter (isOrderCritical h) orders) |}.

Inductive Filter := FilterAll | FilterActive | FilterCompleted | FilterCritical.

Definition matchesFilter (h : Host) (selected : Filter) (order : ServiceOrder) : bool :=
  match selected with
  | FilterAll => true
  | FilterActive => (stageValue (progress order) <? 100)%Z
  | FilterCompleted => (stageValue (progress order) =? 100)%Z
  | FilterCritical => isOrderCritical h order
  end.

(** The comparator of the list view:
    [new Date(a.pickupDate).getTime() - new Date(b.pickupDate).getTime()]. *)
Definition comparePickup (a b : ServiceOrder) : option Z :=
  match Js.Date_parse (pickupDate a), Js.Date_parse (pickupDate b) with
  | Some x, Some y => Some (x - y)%Z
  | _, _ => None
  end.

Definition filteredOrders (h : Host) (orders : seq ServiceOrder)
    (selected : Filter) : seq ServiceOrder :=
  let filtered := filter (matchesFilter h selected) orders in
  Js.sortBy comparePickup filtered.

(** The calls that reach the persistence gateway. *)
Inductive GatewayCall :=
  | createServiceOrder (order : ServiceOrder)
  | updateServiceOrder (order : ServiceOrder)
  | deleteServiceOrder (orderId : string).

(** [onSubmit={editingOrder ? handleUpdate : handleCreate}]: both handlers
    start by handing the order to the gateway. *)
Definition onSubmit (editingOrder : option ServiceOrder) (order : ServiceOrder)
    : seq GatewayCall :=
  if editingOrder is Some _ then [:: updateServiceOrder order]
  else [:: createServiceOrder order].

End App.

(** ** components/OrderForm.tsx *)
Module OrderForm.

(** [emptyOrder] has no [id] and no [createdAt]; an absent text field is
    the empty text here, which [||] treats alike. *)
Definition emptyOrder : ServiceOrder :=
  {| id := "";
     clientName := "";
     whatsapp := "";
     origin := "";
     destination := "";
     isContractSigned := false;
     isPostedFretebras := false;
     paymentStatus := {| deposit := false; pickup := false; delivery := false |};
     isCostsPaid := false;
     progress := Stage20;
     financials := {| totalValue := 0%float; driverCost := 0%float; extras := [::] |};
     pickupDate := "";
     deliveryForecast := "";
     notes := [::];
     noteTags := "#334155";
     createdAt := "" |}.

Record RoleConfig := {
  role_type : ServiceType;
  label : string;
  defaultCost : number
}.

Definition ROLE_CONFIGS : seq RoleConfig :=
  [:: {| role_type := helper; label := "Ajudantes"; defaultCost := 0%float |};
      {| role_type := assembler; label := "Montadores"; defaultCost := 0%float |};
      {| role_type := packer; label := "Embaladores"; defaultCost := 0%float |} ].

(** [ROLE_CONFIGS.find(c => c.type === type)] *)
Definition findRole (type : ServiceType) : option RoleConfig :=
  ohead [seq c <- ROLE_CONFIGS | ServiceType_eqb (role_type c) type].

(** The text of a [ServiceType] value. *)
Definition typeText (type : ServiceType) : string :=
  match type with
  | helper => "helper"
  | assembler => "assembler"
  | packer => "packer"
  | other => "other"
  end.

Definition calculateProgress (formData : ServiceOrder) : ProgressStage :=
  if delivery (paymentStatus formData) then Stage100
  else if pickup (paymentStatus formData) then Stage60
  else if deposit (paymentStatus formData) then Stage20
  else Stage0.

(** [x || 0] on a number that may be missing: 0, -0 and NaN are falsy. *)
Definition orZero (x : option number) : number :=
  match x with
  | Some v => if is_nan v || is_zero v then 0%float else v
  | None => 0%float
  end.

Record RoleData := { totalQty : number; unitCost : number }.

Definition getRoleData (extras : seq ExtraService) (type : ServiceType) : RoleData :=
  let items := [seq e <- extras | ServiceType_eqb (extra_type e) type] in
  let totalQty := foldl (fun acc curr => (acc + qty curr)%float) 0%float items in
  let unitCost :=
    match items with
    | first :: _ => cost first
    | [::] => orZero (omap defaultCost (findRole type))
    end in
  {| totalQty := totalQty; unitCost := unitCost |}.

Inductive RoleField := field_qty | field_cost.

(** [updateRole]; [now] is [Date.now()].  The result is the array handed
    to [setExtras]. *)
Definition updateRole (now : Z) (extras : seq ExtraService)
    (type : ServiceType) (field : RoleField) (value : number) : seq ExtraService :=
  let safeValue := Js.Math_max 0%float value in
  let config := findRole type in
  let otherExtras := [seq e <- extras | ~~ ServiceType_eqb (extra_type e) type] in
  let currentData := getRoleData extras type in
  let newQty := if field is field_qty then safeValue else totalQty currentData in
  let newCost := if field is field_cost then safeValue else unitCost currentData in
  if (0 <? newQty)%float || (0 <? newCost)%float then
    let newEntry :=
      {| extra_id := ("auto-" ++ typeText type ++ "-" ++ Js.toString now)%string;
         extra_type := type;
         extra_name :=
           match config with
           | Some c => if label c is EmptyString then typeText type else label c
           | None => typeText type
           end;
         qty := newQty;
         cost := newCost |} in
    otherExtras ++ [:: newEntry]
  else otherExtras.

(** *** The component's state and its two effects

    React runs an effect after a render when one of its dependencies is
    not the very same value ([Object.is]) as at the previous render.  The
    dependency of the progress effect is the object
    [formData.paymentStatus], so the identity of that object is part of
    the state: it is [emptyOrder]'s, or the one of the order passed as
    [initialData], or an object literal built by a checkbox handler. *)
Inductive ObjRef :=
  | RefEmptyOrder
  | RefInitialData (k : nat)
  | RefLiteral (k : nat).

Definition ObjRef_eqb (a b : ObjRef) : bool :=
  match a, b with
  | RefEmptyOrder, RefEmptyOrder => true
  | RefInitialData j, RefInitialData k => j == k
  | RefLiteral j, RefLiteral k => j == k
  | _, _ => false
  end.

(** The props [isOpen] and [initialData]; an order object comes with its
    identity. *)
Record Props := {
  isOpen : bool;
  initialData : option (nat * ServiceOrder)
}.

Record State := {
  props : Props;
  formData : ServiceOrder;
  paymentStatusRef : ObjRef;
  extras : seq ExtraService;
  (** [[initialData, isOpen]] and [[formData.paymentStatus]] as of the
      previous render; [None] before the first one. *)
  initDeps : option (option nat * bool);
  syncDeps : option ObjRef;
  (** How many object literals the handlers have built. *)
  literals : nat
}.

Definition withProgress (o : ServiceOrder) (p : ProgressStage) : ServiceOrder :=
  {| id := id o; clientName := clientName o; whatsapp := whatsapp o;
     origin := origin o; destination := destination o;
     isContractSigned := isContractSigned o;
     isPostedFretebras := isPostedFretebras o;
     paymentStatus := paymentStatus o; isCostsPaid := isCostsPaid o;
     progress := p; financials := financials o; pickupDate := pickupDate o;
     deliveryForecast := deliveryForecast o; notes := notes o;
     noteTags := noteTags o; createdAt := createdAt o |}.

Definition withPaymentStatus (o : ServiceOrder) (ps : PaymentStatus) : ServiceOrder :=
  {| id := id o; clientName := clientName o; whatsapp := whatsapp o;
     origin := origin o; destination := destination o;
     isContractSigned := isContractSigned o;
     isPostedFretebras := isPostedFretebras o;
     paymentStatus := ps; isCostsPaid := isCostsPaid o;
     progress := progress o; financials := financials o;
     pickupDate := pickupDate o; deliveryForecast := deliveryForecast o;
     notes := notes o; noteTags := noteTags o; createdAt := createdAt o |}.

Definition withClientName (o : ServiceOrder) (v : string) : ServiceOrder :=
  {| id := id o; clientName := v; whatsapp := whatsapp o;
     origin := origin o; destination := destination o;
     isContractSigned := isContractSigned o;
     isPostedFretebras := isPostedFretebras o;
     paymentStatus := paymentStatus o; isCostsPaid := isCostsPaid o;
     progress := progress o; financials := financials o;
     pickupDate := pickupDate o; deliveryForecast := deliveryForecast o;
     notes := notes o; noteTags := noteTags o; createdAt := createdAt o |}.

(** [setFormData(o)], where [r] is the identity of [o.paymentStatus]. *)
Definition setFormData (o : ServiceOrder) (r : ObjRef) (s : State) : State :=
  {| props := props s; formData := o; paymentStatusRef := r;
     extras := extras s; initDeps := initDeps s; syncDeps := syncDeps s;
     literals := literals s |}.

Definition setExtras (e : seq ExtraService) (s : State) : State :=
  {| props := props s; formData := formData s;
     paymentStatusRef := paymentStatusRef s;
     extras := e; initDeps := initDeps s; syncDeps := syncDeps s;
     literals := literals s |}.

(** The first effect ("Initialize form state"). *)
Definition initEffect (p : Props) (s : State) : State :=
  match initialData p with
  | Some (k, order) =>
      setExtras (Types.extras (financials order))
                (setFormData order (RefInitialData k) s)
  | None => setExtras [::] (setFormData emptyOrder RefEmptyOrder s)
  end.

(** The second effect ("Automatic Progress Sync Logic").  It reads the
    [formData] of the render it belongs to and queues
    [prev => ({ ...prev, progress: newProgress })], which applies to the
    state [s] the updates queued before it have produced. *)
Definition syncEffect (rendered : ServiceOrder) (s : State) : State :=
  let newProgress := calculateProgress rendered in
  if (stageValue (progress rendered) =? stageValue newProgress)%Z then s
  else setFormData (withProgress (formData s) newProgress) (paymentStatusRef s) s.

Definition initDepsOf (p : Props) : option nat * bool :=
  (omap fst (initialData p), isOpen p).

(** After a render: the effects whose dependencies changed run in source
    order, their state updates apply in that order, and the dependencies
    of this render are remembered. *)
Definition commitEffects (s : State) : State :=
  let runInit := initDeps s != Some (initDepsOf (props s)) in
  let runSync :=
    if syncDeps s is Some r then ~~ ObjRef_eqb r (paymentStatusRef s) else true in
  let s1 := if runInit then initEffect (props s) s else s in
  let s2 := if runSync then syncEffect (formData s) s1 else s1 in
  {| props := props s2; formData := formData s2;
     paymentStatusRef := paymentStatusRef s2; extras := extras s2;
     initDeps := Some (initDepsOf (props s));
     syncDeps := Some (paymentStatusRef s);
     literals := literals s2 |}.

(** A state update makes React render again, and so on until no effect
    changes the state any more: two rounds, see [commitEffects_settle]. *)
Definition settle (s : State) : State := commitEffects (commitEffects s).

(** The component is mounted with [useState(emptyOrder)] and [useState([])]. *)
Definition mount (p : Props) : State :=
  settle {| props := p; formData := emptyOrder; paymentStatusRef := RefEmptyOrder;
            extras := [::]; initDeps := None; syncDeps := None; literals := 0 |}.

(** The parent renders the form with new props. *)
Definition setProps (p : Props) (s : State) : State :=
  settle {| props := p; formData := formData s;
            paymentStatusRef := paymentStatusRef s; extras := extras s;
            initDeps := initDeps s; syncDeps := syncDeps s;
            literals := literals s |}.

Inductive PaymentKey := key_deposit | key_pickup | key_delivery.

(** The checkbox handler:
    [setFormData({ ...formData, paymentStatus: { ...formData.paymentStatus, [key]: checked } })]. *)
Definition onPaymentChange (key : PaymentKey) (checked : bool) (s : State) : State :=
  let ps := paymentStatus (formData s) in
  let ps' :=
    match key with
    | key_deposit => {| deposit := checked; pickup := pickup ps; delivery := delivery ps |}
    | key_pickup => {| deposit := deposit ps; pickup := checked; delivery := delivery ps |}
    | key_delivery => {| deposit := deposit ps; pickup := pickup ps; delivery := checked |}
    end in
  let s' := setFormData (withPaymentStatus (formData s) ps') (RefLiteral (literals s)) s in
  settle {| props := props s'; formData := formData s';
            paymentStatusRef := paymentStatusRef s'; extras := extras s';
            initDeps := initDeps s'; syncDeps := syncDeps s';
            literals := (literals s).+1 |}.

(** The name input: [setFormData({ ...formData, clientName: v })] keeps the
    [paymentStatus] object. *)
Definition onClientNameChange (v : string) (s : State) : State :=
  settle (setFormData (withClientName (formData s) v) (paymentStatusRef s) s).

(** The role inputs call [updateRole] on the [extras] of the render. *)
Definition onRoleChange (now : Z) (type : ServiceType) (field : RoleField)
    (value : number) (s : State) : State :=
  settle (setExtras (updateRole now (extras s) type field value) s).

(** What [handleSubmit] draws from the host: the year of [new Date()],
    [Math.floor(Math.random() * 1000)] and [new Date().toISOString()]. *)
Record SubmitHost := {
  submitYear : Z;
  random1000 : Z;
  toISOString : string
}.

(** [handleSubmit]: the order handed to [onSubmit]. *)
Definition handleSubmit (h : SubmitHost) (s : State) : ServiceOrder :=
  let formData := formData s in
  {| id :=
       if id formData is EmptyString
       then ("OS-" ++ Js.toString (submitYear h) ++ "-" ++ Js.toString (random1000 h))%string
       else id formData;
     clientName := clientName formData; whatsapp := whatsapp formData;
     origin := origin formData; destination := destination formData;
     isContractSigned := isContractSigned formData;
     isPostedFretebras := isPostedFretebras formData;
     paymentStatus := paymentStatus formData;
     isCostsPaid := isCostsPaid formData;
     progress := progress formData;
     financials :=
       {| totalValue := totalValue (financials formData);
          driverCost := driverCost (financials formData);
          Types.extras := extras s |};
     pickupDate := pickupDate formData;
     deliveryForecast := deliveryForecast formData;
     notes := notes formData; noteTags := noteTags formData;
     createdAt :=
       if createdAt formData is EmptyString then toISOString h
       else createdAt formData |}.

(** The save button, [onClick={handleSubmit}], with the form wired as
    [App] renders it: [initialData={editingOrder}] and
    [onSubmit={editingOrder ? handleUpdate : handleCreate}]. *)
Definition clickSave (h : SubmitHost) (s : State) : seq App.GatewayCall :=
  App.onSubmit (omap snd (initialData (props s))) (handleSubmit h s).

End OrderForm.

(** * Vocabulary and scenarios of the properties *)

Import App OrderForm.

(** An order that carries only what the aggregations read. *)
Definition sampleOrder (name pickupDay : string) (total driver : number)
    (ps : PaymentStatus) (costsPaid : bool) (stage : ProgressStage) : ServiceOrder :=
  {| id := "OS-2024-1"; clientName := name; whatsapp := ""; origin := "";
     destination := ""; isContractSigned := false; isPostedFretebras := false;
     paymentStatus := ps; isCostsPaid := costsPaid; progress := stage;
     financials := {| totalValue := total; driverCost := driver; Types.extras := [::] |};
     pickupDate := pickupDay; deliveryForecast := ""; notes := [::];
     noteTags := "#334155"; createdAt := "" |}.

Definition juneOrder : ServiceOrder :=
  sampleOrder "Ana" "2024-06-05" 1000%float 200%float
    {| deposit := true; pickup := true; delivery := false |} true Stage60.

Definition juneExpense : Transaction :=
  {| tx_id := "t1"; description := "combustivel"; amount := 50%float;
     tx_type := expense; date := "2024-06-20"; category := None |}.

Definition isIncome (t : Transaction) : bool :=
  if tx_type t is income then true else false.

Definition isExpense (t : Transaction) : bool :=
  if tx_type t is expense then true else false.

(** The share of each paid milestone, in the order the code adds them. *)
Definition milestoneShares (order : ServiceOrder) : seq number :=
  let total := totalValue (financials order) in
  let ps := paymentStatus order in
  [seq (total * share.2)%float
     | share <- [:: (deposit ps, 0.20%float); (pickup ps, 0.40%float);
                    (delivery ps, 0.40%float)] & share.1].

Definition allPaid (order : ServiceOrder) : bool :=
  [&& deposit (paymentStatus order), pickup (paymentStatus order)
    & delivery (paymentStatus order)].

(** The number with the integer value [z], for [0 <= z < 2^53]. *)
Definition numberOfZ (z : Z) : number := of_uint63 (Uint63.of_Z z).

Definition paidInFull (total : number) : ServiceOrder :=
  sampleOrder "Ana" "2024-06-05" total 0%float
    {| deposit := true; pickup := true; delivery := true |} false Stage100.

(** Checks that the three shares add up to the total for the [n] totals
    [t], [t + 5], [t + 10], ... *)
Fixpoint sharesExactFrom (n : nat) (t : Z) : bool :=
  if n is n'.+1 then
    PrimFloat.Leibniz.eqb
      (calculateReceivedAmount (paidInFull (numberOfZ t))) (numberOfZ t)
    && sharesExactFrom n' (t + 5)
  else true.

(** A host whose local date is [year], [monthIndex], [day], in a zone that
    keeps the offset [offset] all year. *)
Definition hostOn (offset : Z) (year monthIndex day now : Z) : Host :=
  {| zone := Js.fixedZone offset; getFullYear := year; getMonth := monthIndex;
     getDate := day; Date_now := now |}.

Definition pickupOn (pickupDay : string) (stage : ProgressStage) : ServiceOrder :=
  sampleOrder "Ana" pickupDay 1000%float 200%float
    {| deposit := true; pickup := false; delivery := false |} false stage.

Definition hasCritical (h : Host) (orders : seq ServiceOrder) : bool :=
  0 < size (filter (isOrderCritical h) orders).

(** The alert a pass raises when it raises one. *)
Definition alertFor (h : Host) (orders : seq ServiceOrder) : UrgentAlert :=
  let criticalOrders := filter (isOrderCritical h) orders in
  {| App.count := size criticalOrders;
     names := map clientName criticalOrders;
     show := true |}.

(** The state a raising pass leaves. *)
Definition alertedAt (h : Host) (orders : seq ServiceOrder) : AlertState :=
  {| lastExpirationAlertTime := Some (Js.toString (Date_now h));
     urgentAlert := alertFor h orders |}.

Definition withinPause (t : Z) (pass : Host * seq ServiceOrder) : bool :=
  (Date_now pass.1 - t <=? FIVE_HOURS)%Z.

Definition pickupTime (o : ServiceOrder) : option Z := Js.Date_parse (pickupDate o).

(** The pickupDate is a calendar date in the form [YYYY-MM-DD]. *)
Definition wellDated (o : ServiceOrder) : bool := isSome (pickupTime o).

(** Both dates are valid and the first is not after the second. *)
Definition pickupNotAfter (a b : ServiceOrder) : bool :=
  match pickupTime a, pickupTime b with
  | Some x, Some y => (x <=? y)%Z
  | _, _ => false
  end.

(** The order the sort works with: [comparePickup a b <= 0], and [NaN]
    taken as 0. *)
Definition mayPrecede (a b : ServiceOrder) : bool :=
  if comparePickup a b is Some v then (v <=? 0)%Z else true.

Definition isRole (type : ServiceType) (e : ExtraService) : bool :=
  ServiceType_eqb (extra_type e) type.

Definition roleCount (type : ServiceType) (extras : seq ExtraService) : nat :=
  seq.count (isRole type) extras.

(** One write of a role input. *)
Record RoleWrite := {
  write_now : Z;
  write_type : ServiceType;
  write_field : RoleField;
  write_value : number
}.

Definition applyWrite (extras : seq ExtraService) (w : RoleWrite) : seq ExtraService :=
  updateRole (write_now w) extras (write_type w) (write_field w) (write_value w).

(** The quantity and the unit cost a write leaves for its role. *)
Definition nextQty (extras : seq ExtraService) (type : ServiceType)
    (field : RoleField) (value : number) : number :=
  if field is field_qty then Js.Math_max 0%float value
  else totalQty (getRoleData extras type).

Definition nextCost (extras : seq ExtraService) (type : ServiceType)
    (field : RoleField) (value : number) : number :=
  if field is field_cost then Js.Math_max 0%float value
  else unitCost (getRoleData extras type).

Definition closedProps : Props := {| isOpen := false; initialData := None |}.

(** [openNew] in [App]: [setEditingOrder(null); setIsFormOpen(true)]. *)
Definition newOrderProps : Props := {| isOpen := true; initialData := None |}.

(** [openEdit(order)] and, with [isOpen] false, the form closed by its
    close button while [editingOrder] stays. *)
Definition editProps (open : bool) (k : nat) (order : ServiceOrder) : Props :=
  {| isOpen := open; initialData := Some (k, order) |}.

(** A state between two events: the effects have seen the current props
    and the current [paymentStatus] object, and the object literals built
    so far are numbered below [literals]. *)
Definition atRest (s : State) : bool :=
  [&& initDeps s == Some (initDepsOf (props s)),
      (if syncDeps s is Some r then ObjRef_eqb r (paymentStatusRef s) else false)
    & (if paymentStatusRef s is RefLiteral k then k < literals s else true)].

Definition flagsOf (s : State) : PaymentStatus := paymentStatus (formData s).

Definition writeFlag (key : PaymentKey) (checked : bool) (ps : PaymentStatus)
    : PaymentStatus :=
  match key with
  | key_deposit => {| deposit := checked; pickup := pickup ps; delivery := delivery ps |}
  | key_pickup => {| deposit := deposit ps; pickup := checked; delivery := delivery ps |}
  | key_delivery => {| deposit := deposit ps; pickup := pickup ps; delivery := checked |}
  end.

(** What can happen to the mounted form, and the state after a history of
    such events. *)
Inductive FormEvent :=
  | PropsChanged (p : Props)
  | PaymentTicked (key : PaymentKey) (checked : bool)
  | ClientNameTyped (v : string)
  | RoleTyped (now : Z) (type : ServiceType) (field : RoleField) (value : number).

Definition formStep (s : State) (e : FormEvent) : State :=
  match e with
  | PropsChanged p => setProps p s
  | PaymentTicked key checked => onPaymentChange key checked s
  | ClientNameTyped v => onClientNameChange v s
  | RoleTyped now type field value => onRoleChange now type field value s
  end.

Definition formAfter (p : Props) (events : seq FormEvent) : State :=
  foldl formStep (mount p) events.

Definition existingOrder : ServiceOrder :=
  sampleOrder "Bruno" "2024-06-12" 1000%float 200%float
    {| deposit := true; pickup := false; delivery := false |} false Stage20.

Definition literalsFresh (s : State) : bool :=
  if paymentStatusRef s is RefLiteral k then k < literals s else true.

Definition submitHost : SubmitHost :=
  {| submitYear := 2024; random1000 := 42;
     toISOString := "2024-06-10T12:00:00.000Z" |}.

Definition saoPaulo : Z := (-10800000)%Z.

Definition mondayNoon : Host := hostOn saoPaulo 2024 5 10 1718031600000.

Definition oneHourLater : Host := hostOn saoPaulo 2024 5 10 1718035200000.

Definition sixHoursLater : Host := hostOn saoPaulo 2024 5 10 1718053200000.

Definition noAlertYet : AlertState :=
  {| lastExpirationAlertTime := None;
     urgentAlert := {| App.count := 0; names := [::]; show := false |} |}.

Definition dueSoon : seq ServiceOrder := [:: pickupOn "2024-06-12" Stage20].

Definition listedOrders : seq ServiceOrder :=
  [:: sampleOrder "Dora" "2024-06-20" 900%float 100%float
        {| deposit := true; pickup := false; delivery := false |} false Stage20;
      sampleOrder "Ana" "2024-06-05" 1000%float 200%float
        {| deposit := true; pickup := false; delivery := false |} false Stage20;
      sampleOrder "Bruno" "2024-06-05" 500%float 50%float
        {| deposit := true; pickup := true; delivery := true |} true Stage100;
      sampleOrder "Caio" "2024-06-05" 700%float 70%float
        {| deposit := true; pickup := true; delivery := false |} false Stage60 ].

(** * The rest of the application *)

(** ** components/ServiceOrderCard.tsx *)
Module ServiceOrderCard.

Inductive Status := normal | warning | critical | late.

(** [calculate] of [CountdownTimer]: the status and the label of the
    countdown badge.  With a [NaN] difference every comparison is false and
    the template prints [NaN]. *)
Definition calculate (h : Host) (targetDate : string) : Status * string :=
  let nowMidnight :=
    Js.Date_local (zone h) (getFullYear h) (getMonth h) (getDate h) in
  let parts := map Js.Number (Js.split "-"%char targetDate) in
  let y := nth None parts 0 in
  let m := nth None parts 1 in
  let d := nth None parts 2 in
  let targetMidnight :=
    match y, m, d with
    | Some y, Some m, Some d => Js.Date_local (zone h) y (m - 1) d
    | _, _, _ => None
    end in
  let diff :=
    match targetMidnight, nowMidnight with
    | Some t, Some n => Some (Js.ceilDiv (t - n) (1000 * 60 * 60 * 24))
    | _, _ => None
    end in
  match diff with
  | Some diff =>
      if (diff <? 0)%Z then (late, (Js.toString (Z.abs diff) ++ "d Atraso")%string)
      else if (diff =? 0)%Z then (critical, "Hoje"%string)
      else if (diff <=? 5)%Z then (critical, (Js.toString diff ++ " dias")%string)
      else if (diff <=? 10)%Z then (warning, (Js.toString diff ++ " dias")%string)
      else (normal, (Js.toString diff ++ " dias")%string)
  | None => (normal, "NaN dias"%string)
  end.

End ServiceOrderCard.

(** ** App.tsx: the alert's buttons and the month navigation *)
Module AppView.

(** [dismissUrgentAlert]: [setUrgentAlert(prev => ({ ...prev, show: false }))]. *)
Definition dismissUrgentAlert (st : AlertState) : AlertState :=
  {| lastExpirationAlertTime := lastExpirationAlertTime st;
     urgentAlert :=
       {| App.count := App.count (urgentAlert st);
          names := names (urgentAlert st);
          show := false |} |}.

(** [handleUrgentAlertClick]: the filter becomes 'critical' and the alert
    is hidden. *)
Definition handleUrgentAlertClick (st : AlertState) : Filter * AlertState :=
  (FilterCritical, dismissUrgentAlert st).

(** The local year and month of a view date.  The navigation builds its
    dates as [new Date(year, month, 1)], whose month may lie outside 0..11:
    [MakeDay] carries the excess into the year, and a year in 0..99 means
    1900 + year.  The first day of a month at local midnight is read back
    with the year and month it was built for. *)
Record ViewDate := { viewYear : Z; viewMonth : Z }.

Definition newDateFirstOfMonth (year month : Z) : ViewDate :=
  let yr := if (0 <=? year)%Z && (year <=? 99)%Z then (1900 + year)%Z else year in
  {| viewYear := (yr + month / 12)%Z; viewMonth := (month mod 12)%Z |}.

(** [handlePrevMonth] and [handleNextMonth] (and their twins of the
    revenue card). *)
Definition handlePrevMonth (prev : ViewDate) : ViewDate :=
  newDateFirstOfMonth (viewYear prev) (viewMonth prev - 1).

Definition handleNextMonth (prev : ViewDate) : ViewDate :=
  newDateFirstOfMonth (viewYear prev) (viewMonth prev + 1).

(** [currentMonthKey] *)
Definition currentMonthKey (viewDate : ViewDate) : string :=
  monthKey (viewYear viewDate) (viewMonth viewDate).

End AppView.

(** ** components/OrderForm.tsx: the other edits of the draft *)
Module OrderFormEdits.

(** [cleanPhone]: [phone.replace(/\D/g, '')] keeps the decimal digits. *)
Fixpoint cleanPhone (phone : string) : string :=
  match phone with
  | String c r => if Js.isDigit c then String c (cleanPhone r) else cleanPhone r
  | EmptyString => EmptyString
  end.

(** [addGenericExtra]; [newId] is
    [Math.random().toString(36).substr(2, 9)]. *)
Definition addGenericExtra (newId : string) (extras : seq ExtraService)
    : seq ExtraService :=
  extras ++ [:: {| extra_id := newId; extra_type := other; extra_name := "";
                   qty := 1%float; cost := 0%float |}].

(** The field and value [updateGenericExtra] is called with: a text for
    [name], a number for [cost] and [qty]. *)
Inductive GenericWrite :=
  | write_name (value : string)
  | write_cost (value : number)
  | write_qty (value : number).

Definition writeGeneric (w : GenericWrite) (e : ExtraService) : ExtraService :=
  match w with
  | write_name value =>
      {| extra_id := extra_id e; extra_type := extra_type e; extra_name := value;
         qty := qty e; cost := cost e |}
  | write_cost value =>
      {| extra_id := extra_id e; extra_type := extra_type e;
         extra_name := extra_name e; qty := qty e;
         cost := Js.Math_max 0%float value |}
  | write_qty value =>
      {| extra_id := extra_id e; extra_type := extra_type e;
         extra_name := extra_name e; qty := Js.Math_max 0%float value;
         cost := cost e |}
  end.

Definition updateGenericExtra (id : string) (w : GenericWrite)
    (prev : seq ExtraService) : seq ExtraService :=
  [seq if String.eqb (extra_id e) id then writeGeneric w e else e | e <- prev].

Definition removeGenericExtra (id : string) (extras : seq ExtraService)
    : seq ExtraService :=
  [seq e <- extras | ~~ String.eqb (extra_id e) id].

(** The totals the form shows. *)
Definition currentTotal (s : State) : number :=
  orZero (Some (totalValue (financials (formData s)))).

Definition currentDriver (s : State) : number :=
  orZero (Some (driverCost (financials (formData s)))).

Definition currentExtrasCost (s : State) : number :=
  foldl (fun acc curr => (acc + cost curr * qty curr)%float) 0%float (extras s).

Definition currentCosts (s : State) : number :=
  (currentDriver s + currentExtrasCost s)%float.

Definition currentProfit (s : State) : number :=
  (currentTotal s - currentCosts s)%float.

Definition withFinancials (o : ServiceOrder) (f : Financials) : ServiceOrder :=
  {| id := id o; clientName := clientName o; whatsapp := whatsapp o;
     origin := origin o; destination := destination o;
     isContractSigned := isContractSigned o;
     isPostedFretebras := isPostedFretebras o;
     paymentStatus := paymentStatus o; isCostsPaid := isCostsPaid o;
     progress := progress o; financials := f; pickupDate := pickupDate o;
     deliveryForecast := deliveryForecast o; notes := notes o;
     noteTags := noteTags o; createdAt := createdAt o |}.

Definition withNotes (o : ServiceOrder) (ns : seq OrderNote) : ServiceOrder :=
  {| id := id o; clientName := clientName o; whatsapp := whatsapp o;
     origin := origin o; destination := destination o;
     isContractSigned := isContractSigned o;
     isPostedFretebras := isPostedFretebras o;
     paymentStatus := paymentStatus o; isCostsPaid := isCostsPaid o;
     progress := progress o; financials := financials o;
     pickupDate := pickupDate o; deliveryForecast := deliveryForecast o;
     notes := ns; noteTags := noteTags o; createdAt := createdAt o |}.

(** The driver cost input, [value] being [Number(e.target.value)]:
    [setFormData({ ...formData, financials: { ...formData.financials,
    driverCost: Math.max(0, value) } })]. *)
Definition onDriverCostChange (value : number) (s : State) : State :=
  let f := financials (formData s) in
  let f' := {| totalValue := totalValue f;
               driverCost := Js.Math_max 0%float value;
               Types.extras := Types.extras f |} in
  settle (setFormData (withFinancials (formData s) f') (paymentStatusRef s) s).

(** The total value input: [totalValue: Number(e.target.value)]. *)
Definition onTotalValueChange (value : number) (s : State) : State :=
  let f := financials (formData s) in
  let f' := {| totalValue := value; driverCost := driverCost f;
               Types.extras := Types.extras f |} in
  settle (setFormData (withFinancials (formData s) f') (paymentStatusRef s) s).

Section Notes.

(** [String.prototype.trim], which the runtime provides. *)
Variable trim : string -> string.

(** What adding a note draws from the host: [Date.now()] and
    [new Date().toISOString()]. *)
Record NoteHost := { noteNow : Z; noteISO : string }.

(** The add button and the Enter key of the note input; [raw] is the text
    typed. *)
Definition addNote (h : NoteHost) (raw : string) (formData : ServiceOrder)
    : ServiceOrder :=
  let content := trim raw in
  if content is EmptyString then formData
  else
    let newNote :=
      {| note_id := ("temp-" ++ Js.toString (noteNow h))%string;
         content := content;
         color := if noteTags formData is EmptyString then "#334155"%string
                  else noteTags formData;
         note_createdAt := noteISO h |} in
    withNotes formData (notes formData ++ [:: newNote]).

(** The delete button of the note at [index]:
    [formData.notes.filter((_, i) => i !== index)]. *)
Definition removeNote (index : nat) (formData : ServiceOrder) : ServiceOrder :=
  let indexed := zip (notes formData) (iota 0 (size (notes formData))) in
  withNotes formData [seq p.1 | p <- indexed & p.2 != index].

End Notes.

End OrderFormEdits.

(** ** utils/supabaseClient.ts, as the gateway uses it

    The store is outside the program.  What the program does with it is
    the series of requests it sends and what it makes of each answer. *)
Module SupabaseClient.

(** The columns of [service_orders] that [insert] and [update] both
    write and [select] reads back. *)
Record OrderColumns := {
  client_name : string;
  col_whatsapp : string;
  col_origin : string;
  col_destination : string;
  is_contract_signed : bool;
  is_posted_fretebras : bool;
  payment_deposit : bool;
  payment_pickup : bool;
  payment_delivery : bool;
  is_costs_paid : bool;
  col_progress : ProgressStage;
  total_value : number;
  driver_cost : number;
  pickup_date : string;
  delivery_forecast : string;
  note_tags : string
}.

Record InsertedOrder := {
  inserted_id : string;
  inserted_user_id : string;
  inserted_columns : OrderColumns
}.

Record UpdatedOrder := {
  updated_columns : OrderColumns;
  updated_at : string
}.

Record InsertedExtra := {
  inserted_extra_id : string;
  extra_service_order_id : string;
  inserted_extra_type : ServiceType;
  inserted_extra_name : string;
  inserted_extra_qty : number;
  inserted_extra_cost : number
}.

Record InsertedNote := {
  note_service_order_id : string;
  note_user_id : string;
  inserted_content : string;
  inserted_color : string
}.

Record InsertedTransaction := {
  inserted_tx_id : string;
  tx_user_id : string;
  inserted_description : string;
  inserted_amount : number;
  inserted_tx_type : TransactionType;
  inserted_date : string;
  inserted_category : option string
}.

(** The rows a [select] answers with. *)
Record SelectedExtra := {
  e_id : string;
  e_type : ServiceType;
  e_name : string;
  e_qty : number;
  e_cost : number
}.

Record SelectedNote := {
  n_id : string;
  n_content : string;
  n_color : string;
  n_created_at : string
}.

Record SelectedOrder := {
  o_id : string;
  o_columns : OrderColumns;
  o_extra_services : seq SelectedExtra;
  o_order_notes : seq SelectedNote;
  o_created_at : string
}.

Record SelectedTransaction := {
  t_id : string;
  t_description : string;
  t_amount : number;
  t_type : TransactionType;
  t_date : string;
  t_category : option string
}.

Record SelectedGoal := {
  g_month_key : string;
  g_goal_value : number
}.

Inductive Request :=
  | auth_getUser
  | select_service_orders
  | insert_service_orders (row : InsertedOrder)
  | update_service_orders (row : UpdatedOrder) (id : string)
  | delete_service_orders (id : string)
  | insert_extra_services (rows : seq InsertedExtra)
  | delete_extra_services (service_order_id : string)
  | insert_order_notes (rows : seq InsertedNote)
  | delete_order_notes (service_order_id : string)
  | select_transactions
  | insert_transactions (row : InsertedTransaction)
  | delete_transactions (id : string)
  | select_monthly_goals
  | upsert_monthly_goals (user_id month_key : string) (goal_value : number).

(** What the client and the host answer: the id of the user signed in,
    the error of a request if it fails, the rows of the three selects, and
    [new Date().toISOString()]. *)
Record Client := {
  user : option string;
  error : Request -> option string;
  service_orders : seq SelectedOrder;
  transactions_rows : seq SelectedTransaction;
  monthly_goals : seq SelectedGoal;
  nowISO : string
}.

End SupabaseClient.

(** ** Asynchronous code

    An [async] function runs against the client and a state [S]; it
    returns a value or throws.  [await] is [let*]; a rejected promise
    throws at its [await]. *)
Module Async.

Import SupabaseClient.

Definition M (S A : Type) : Type := Client -> S -> S * (string + A).

Definition ret {S A : Type} (a : A) : M S A := fun _ s => (s, inr a).

Definition throw {S A : Type} (e : string) : M S A := fun _ s => (s, inl e).

Definition bind {S A B : Type} (m : M S A) (k : A -> M S B) : M S B :=
  fun c s =>
    match m c s with
    | (s', inr a) => k a c s'
    | (s', inl e) => (s', inl e)
    end.

(** [try { body } catch (error) { handler }] *)
Definition tryCatch {S A : Type} (body : M S A) (handler : string -> M S A)
    : M S A :=
  fun c s =>
    match body c s with
    | (s', inl e) => handler e c s'
    | r => r
    end.

(** [try { body } finally { fin }] *)
Definition tryFinally {S A : Type} (body : M S A) (fin : M S unit) : M S A :=
  fun c s =>
    let r := body c s in
    match fin c r.1 with
    | (s', inl e) => (s', inl e)
    | (s', inr _) => (s', r.2)
    end.

(** [Promise.all([a, b, c])]: the three calls are made, one after the
    other, before any answer is awaited; the result is the three values, or
    a rejection when one of them rejects. *)
Definition PromiseAll3 {S A B C : Type} (a : M S A) (b : M S B) (c : M S C)
    : M S (A * B * C) :=
  fun cl s =>
    let ra := a cl s in
    let rb := b cl ra.1 in
    let rc := c cl rb.1 in
    (rc.1,
     match ra.2, rb.2, rc.2 with
     | inr x, inr y, inr z => inr (x, y, z)
     | inl e, _, _ => inl e
     | _, inl e, _ => inl e
     | _, _, inl e => inl e
     end).

Definition modify {S : Type} (f : S -> S) : M S unit :=
  fun _ s => (f s, inr tt).

Definition client {S : Type} : M S Client := fun c s => (s, inr c).

(** An [async] function of the gateway called from a handler. *)
Definition lift {S T A : Type} (get : T -> S) (set : S -> T -> T) (m : M S A)
    : M T A :=
  fun c t => let r := m c (get t) in (set r.1 t, r.2).

End Async.

Notation "'let*' x ':=' m 'in' k" := (Async.bind m (fun x => k))
  (at level 10, x name, m at level 100, k at level 200,
   format "'[v' 'let*'  x  ':='  m  'in' '/' k ']'").

Notation "m ';;;' k" := (Async.bind m (fun _ => k))
  (at level 100, k at level 200, right associativity).

(** ** utils/supabaseService.ts *)
Module SupabaseService.

Import SupabaseClient Async.

(** The requests sent so far. *)
Definition Gateway (A : Type) : Type := M (seq Request) A.

(** [await supabase.from(..)...]: the request goes out, the answer is
    its [error]. *)
Definition send (r : Request) : Gateway (option string) :=
  fun c sent => (rcons sent r, inr (error c r)).

(** [if (error) throw error] *)
Definition throwIf (error : option string) : Gateway unit :=
  if error is Some e then throw e else ret tt.

(** [await supabase.auth.getUser()] *)
Definition getUser : Gateway (option string) :=
  fun c sent => (rcons sent auth_getUser, inr (user c)).

Definition columnsOf (order : ServiceOrder) : OrderColumns :=
  {| client_name := clientName order;
     col_whatsapp := whatsapp order;
     col_origin := origin order;
     col_destination := destination order;
     is_contract_signed := isContractSigned order;
     is_posted_fretebras := isPostedFretebras order;
     payment_deposit := deposit (paymentStatus order);
     payment_pickup := pickup (paymentStatus order);
     payment_delivery := delivery (paymentStatus order);
     is_costs_paid := isCostsPaid order;
     col_progress := progress order;
     total_value := totalValue (financials order);
     driver_cost := driverCost (financials order);
     pickup_date := pickupDate order;
     delivery_forecast := deliveryForecast order;
     note_tags := noteTags order |}.

Definition extrasToInsert (order : ServiceOrder) : seq InsertedExtra :=
  [seq {| inserted_extra_id := extra_id e;
          extra_service_order_id := id order;
          inserted_extra_type := extra_type e;
          inserted_extra_name := extra_name e;
          inserted_extra_qty := qty e;
          inserted_extra_cost := cost e |}
  | e <- Types.extras (financials order)].

Definition notesToInsert (userId : string) (order : ServiceOrder)
    : seq InsertedNote :=
  [seq {| note_service_order_id := id order;
          note_user_id := userId;
          inserted_content := content n;
          inserted_color := color n |}
  | n <- notes order].

(** [fetchServiceOrders] *)
Definition orderOfRow (o : SelectedOrder) : ServiceOrder :=
  {| id := o_id o;
     clientName := client_name (o_columns o);
     whatsapp := col_whatsapp (o_columns o);
     origin := col_origin (o_columns o);
     destination := col_destination (o_columns o);
     isContractSigned := is_contract_signed (o_columns o);
     isPostedFretebras := is_posted_fretebras (o_columns o);
     paymentStatus :=
       {| deposit := payment_deposit (o_columns o);
          pickup := payment_pickup (o_columns o);
          delivery := payment_delivery (o_columns o) |};
     isCostsPaid := is_costs_paid (o_columns o);
     progress := col_progress (o_columns o);
     financials :=
       {| totalValue := total_value (o_columns o);
          driverCost := driver_cost (o_columns o);
          Types.extras :=
            [seq {| extra_id := e_id e; extra_type := e_type e;
                    extra_name := e_name e; qty := e_qty e; cost := e_cost e |}
            | e <- o_extra_services o] |};
     pickupDate := pickup_date (o_columns o);
     deliveryForecast := delivery_forecast (o_columns o);
     notes :=
       [seq {| note_id := n_id n; content := n_content n; color := n_color n;
               note_createdAt := n_created_at n |}
       | n <- o_order_notes o];
     noteTags := note_tags (o_columns o);
     createdAt := o_created_at o |}.

Definition fetchServiceOrders : Gateway (seq ServiceOrder) :=
  let* error := send select_service_orders in
  throwIf error ;;;
  let* c := client in
  ret (map orderOfRow (service_orders c)).

(** [createServiceOrder] *)
Definition createServiceOrder (order : ServiceOrder) : Gateway unit :=
  let* user := getUser in
  match user with
  | None => throw "User not authenticated"
  | Some userId =>
      let* orderError :=
        send (insert_service_orders
                {| inserted_id := id order; inserted_user_id := userId;
                   inserted_columns := columnsOf order |}) in
      throwIf orderError ;;;
      (if 0 < size (Types.extras (financials order)) then
         let* extrasError := send (insert_extra_services (extrasToInsert order)) in
         throwIf extrasError
       else ret tt) ;;;
      (if 0 < size (notes order) then
         let* notesError :=
           send (insert_order_notes (notesToInsert userId order)) in
         throwIf notesError
       else ret tt)
  end.

(** [updateServiceOrder] *)
Definition updateServiceOrder (order : ServiceOrder) : Gateway unit :=
  let* user := getUser in
  match user with
  | None => throw "User not authenticated"
  | Some userId =>
      let* c := client in
      let* orderError :=
        send (update_service_orders
                {| updated_columns := columnsOf order; updated_at := nowISO c |}
                (id order)) in
      throwIf orderError ;;;
      let* deleteError := send (delete_extra_services (id order)) in
      throwIf deleteError ;;;
      (if 0 < size (Types.extras (financials order)) then
         let* insertError := send (insert_extra_services (extrasToInsert order)) in
         throwIf insertError
       else ret tt) ;;;
      let* deleteNotesError := send (delete_order_notes (id order)) in
      throwIf deleteNotesError ;;;
      (if 0 < size (notes order) then
         let* insertNotesError :=
           send (insert_order_notes (notesToInsert userId order)) in
         throwIf insertNotesError
       else ret tt)
  end.

(** [deleteServiceOrder] *)
Definition deleteServiceOrder (id : string) : Gateway unit :=
  let* error := send (delete_service_orders id) in
  throwIf error.

(** [fetchTransactions] *)
Definition transactionOfRow (t : SelectedTransaction) : Transaction :=
  {| tx_id := t_id t; description := t_description t; amount := t_amount t;
     tx_type := t_type t; date := t_date t; category := t_category t |}.

Definition fetchTransactions : Gateway (seq Transaction) :=
  let* error := send select_transactions in
  throwIf error ;;;
  let* c := client in
  ret (map transactionOfRow (transactions_rows c)).

(** [createTransaction] *)
Definition createTransaction (transaction : Transaction) : Gateway unit :=
  let* user := getUser in
  match user with
  | None => throw "User not authenticated"
  | Some userId =>
      let* error :=
        send (insert_transactions
                {| inserted_tx_id := tx_id transaction; tx_user_id := userId;
                   inserted_description := description transaction;
                   inserted_amount := amount transaction;
                   inserted_tx_type := tx_type transaction;
                   inserted_date := date transaction;
                   inserted_category := category transaction |}) in
      throwIf error
  end.

(** [deleteTransaction] *)
Definition deleteTransaction (id : string) : Gateway unit :=
  let* error := send (delete_transactions id) in
  throwIf error.

(** A [Record<string, number>], read by its keys. *)
Definition Goals : Type := string -> option number.

Definition noGoals : Goals := fun _ => None.

(** [goals[key] = value] and [{ ...prev, [key]: value }] *)
Definition setGoal (key : string) (value : number) (goals : Goals) : Goals :=
  fun k => if String.eqb k key then Some value else goals k.

(** [fetchMonthlyGoals] *)
Definition fetchMonthlyGoals : Gateway Goals :=
  let* error := send select_monthly_goals in
  throwIf error ;;;
  let* c := client in
  ret (foldl (fun goals g => setGoal (g_month_key g) (g_goal_value g) goals)
             noGoals (monthly_goals c)).

(** [setMonthlyGoal] *)
Definition setMonthlyGoal (monthKey : string) (value : number) : Gateway unit :=
  let* user := getUser in
  match user with
  | None => throw "User not authenticated"
  | Some userId =>
      let* error := send (upsert_monthly_goals userId monthKey value) in
      throwIf error
  end.

End SupabaseService.

(** ** App.tsx: the data and the handlers that reach the gateway

    A handler runs from the state of the render that created it to the
    state after its last update; the timer that hides the toast is left
    out. *)
Module AppData.

Import SupabaseClient Async.

(** The state of [App] the handlers read and write, with the messages
    [alert] has shown and the requests sent. *)
Record State := {
  orders : seq ServiceOrder;
  transactions : seq Transaction;
  monthlyGoals : SupabaseService.Goals;
  isLoadingData : bool;
  isFormOpen : bool;
  isTransactionModalOpen : bool;
  editingOrder : option ServiceOrder;
  deleteId : option string;
  showSuccessToast : bool;
  viewDate : AppView.ViewDate;
  alerts : seq string;
  sent : seq Request
}.

(** The state after the first render, on a view date. *)
Definition initialState (view : AppView.ViewDate) : State :=
  {| orders := [::]; transactions := [::]; monthlyGoals := SupabaseService.noGoals;
     isLoadingData := true; isFormOpen := false; isTransactionModalOpen := false;
     editingOrder := None; deleteId := None; showSuccessToast := false;
     viewDate := view; alerts := [::]; sent := [::] |}.

Definition setOrders (v : seq ServiceOrder) (s : State) : State :=
  {| orders := v;
     transactions := transactions s;
     monthlyGoals := monthlyGoals s;
     isLoadingData := isLoadingData s;
     isFormOpen := isFormOpen s;
     isTransactionModalOpen := isTransactionModalOpen s;
     editingOrder := editingOrder s;
     deleteId := deleteId s;
     showSuccessToast := showSuccessToast s;
     viewDate := viewDate s;
     alerts := alerts s;
     sent := sent s |}.

Definition setTransactions (v : seq Transaction) (s : State) : State :=
  {| orders := orders s;
     transactions := v;
     monthlyGoals := monthlyGoals s;
     isLoadingData := isLoadingData s;
     isFormOpen := isFormOpen s;
     isTransactionModalOpen := isTransactionModalOpen s;
     editingOrder := editingOrder s;
     deleteId := deleteId s;
     showSuccessToast := showSuccessToast s;
     viewDate := viewDate s;
     alerts := alerts s;
     sent := sent s |}.

Definition setMonthlyGoals (v : SupabaseService.Goals) (s : State) : State :=
  {| orders := orders s;
     transactions := transactions s;
     monthlyGoals := v;
     isLoadingData := isLoadingData s;
     isFormOpen := isFormOpen s;
     isTransactionModalOpen := isTransactionModalOpen s;
     editingOrder := editingOrder s;
     deleteId := deleteId s;
     showSuccessToast := showSuccessToast s;
     viewDate := viewDate s;
     alerts := alerts s;
     sent := sent s |}.

Definition setIsLoadingData (v : bool) (s : State) : State :=
  {| orders := orders s;
     transactions := transactions s;
     monthlyGoals := monthlyGoals s;
     isLoadingData := v;
     isFormOpen := isFormOpen s;
     isTransactionModalOpen := isTransactionModalOpen s;
     editingOrder := editingOrder s;
     deleteId := deleteId s;
     showSuccessToast := showSuccessToast s;
     viewDate := viewDate s;
     alerts := alerts s;
     sent := sent s |}.

Definition setIsFormOpen (v : bool) (s : State) : State :=
  {| orders := orders s;
     transactions := transactions s;
     monthlyGoals := monthlyGoals s;
     isLoadingData := isLoadingData s;
     isFormOpen := v;
     isTransactionModalOpen := isTransactionModalOpen s;
     editingOrder := editingOrder s;
     deleteId := deleteId s;
     showSuccessToast := showSuccessToast s;
     viewDate := viewDate s;
     alerts := alerts s;
     sent := sent s |}.

Definition setIsTransactionModalOpen (v : bool) (s : State) : State :=
  {| orders := orders s;
     transactions := transactions s;
     monthlyGoals := monthlyGoals s;
     isLoadingData := isLoadingData s;
     isFormOpen := isFormOpen s;
     isTransactionModalOpen := v;
     editingOrder := editingOrder s;
     deleteId := deleteId s;
     showSuccessToast := showSuccessToast s;
     viewDate := viewDate s;
     alerts := alerts s;
     sent := sent s |}.

Definition setEditingOrder (v : option ServiceOrder) (s : State) : State :=
  {| orders := orders s;
     transactions := transactions s;
     monthlyGoals := monthlyGoals s;
     isLoadingData := isLoadingData s;
     isFormOpen := isFormOpen s;
     isTransactionModalOpen := isTransactionModalOpen s;
     editingOrder := v;
     deleteId := deleteId s;
     showSuccessToast := showSuccessToast s;
     viewDate := viewDate s;
     alerts := alerts s;
     sent := sent s |}.

Definition setDeleteId (v : option string) (s : State) : State :=
  {| orders := orders s;
     transactions := transactions s;
     monthlyGoals := monthlyGoals s;
     isLoadingData := isLoadingData s;
     isFormOpen := isFormOpen s;
     isTransactionModalOpen := isTransactionModalOpen s;
     editingOrder := editingOrder s;
     deleteId := v;
     showSuccessToast := showSuccessToast s;
     viewDate := viewDate s;
     alerts := alerts s;
     sent := sent s |}.

Definition setShowSuccessToast (v : bool) (s : State) : State :=
  {| orders := orders s;
     transactions := transactions s;
     monthlyGoals := monthlyGoals s;
     isLoadingData := isLoadingData s;
     isFormOpen := isFormOpen s;
     isTransactionModalOpen := isTransactionModalOpen s;
     editingOrder := editingOrder s;
     deleteId := deleteId s;
     showSuccessToast := v;
     viewDate := viewDate s;
     alerts := alerts s;
     sent := sent s |}.

Definition setSent (v : seq Request) (s : State) : State :=
  {| orders := orders s;
     transactions := transactions s;
     monthlyGoals := monthlyGoals s;
     isLoadingData := isLoadingData s;
     isFormOpen := isFormOpen s;
     isTransactionModalOpen := isTransactionModalOpen s;
     editingOrder := editingOrder s;
     deleteId := deleteId s;
     showSuccessToast := showSuccessToast s;
     viewDate := viewDate s;
     alerts := alerts s;
     sent := v |}.

(** [alert(message)] *)
Definition alert (message : string) (s : State) : State :=
  {| orders := orders s;
     transactions := transactions s;
     monthlyGoals := monthlyGoals s;
     isLoadingData := isLoadingData s;
     isFormOpen := isFormOpen s;
     isTransactionModalOpen := isTransactionModalOpen s;
     editingOrder := editingOrder s;
     deleteId := deleteId s;
     showSuccessToast := showSuccessToast s;
     viewDate := viewDate s;
     alerts := rcons (alerts s) message;
     sent := sent s |}.

Definition Handler (A : Type) : Type := M State A.

(** [await] of a gateway function. *)
Definition await {A : Type} (m : SupabaseService.Gateway A) : Handler A :=
  lift sent setSent m.

(** [fetchData] *)
Definition fetchData : Handler unit :=
  tryFinally
    (tryCatch
       (modify (setIsLoadingData true) ;;;
        let* fetched :=
          PromiseAll3 (await SupabaseService.fetchServiceOrders)
                      (await SupabaseService.fetchTransactions)
                      (await SupabaseService.fetchMonthlyGoals) in
        modify (setOrders fetched.1.1) ;;;
        modify (setTransactions fetched.1.2) ;;;
        modify (setMonthlyGoals fetched.2))
       (fun _ => modify (alert "Erro ao carregar dados. Verifique sua conexão.")))
    (modify (setIsLoadingData false)).

(** [triggerSaveSuccess] *)
Definition triggerSaveSuccess : Handler unit :=
  modify (setIsFormOpen false) ;;;
  modify (setEditingOrder None) ;;;
  modify (setShowSuccessToast true).

(** [handleCreate] *)
Definition handleCreate (newOrder : ServiceOrder) : Handler unit :=
  tryCatch
    (await (SupabaseService.createServiceOrder newOrder) ;;;
     fetchData ;;;
     triggerSaveSuccess)
    (fun _ => modify (alert "Erro ao criar ordem.")).

(** [handleUpdate] *)
Definition handleUpdate (updatedOrder : ServiceOrder) : Handler unit :=
  tryCatch
    (await (SupabaseService.updateServiceOrder updatedOrder) ;;;
     fetchData ;;;
     triggerSaveSuccess)
    (fun _ => modify (alert "Erro ao atualizar ordem.")).

(** [handleAddTransaction] *)
Definition handleAddTransaction (newTransaction : Transaction) : Handler unit :=
  tryCatch
    (await (SupabaseService.createTransaction newTransaction) ;;;
     fetchData ;;;
     modify (setShowSuccessToast true))
    (fun _ => modify (alert "Erro ao adicionar transação.")).

(** [onRequestDelete] *)
Definition onRequestDelete (id : string) : Handler unit :=
  modify (setDeleteId (Some id)).

(** [confirmDelete]; [if (deleteId)] is false for [null] and for the empty
    text. *)
Definition confirmDelete : Handler unit :=
  fun c s =>
    match deleteId s with
    | Some (String _ _ as id) =>
        tryCatch
          (await (SupabaseService.deleteServiceOrder id) ;;;
           fetchData ;;;
           modify (setDeleteId None) ;;;
           modify (setIsFormOpen false) ;;;
           modify (setEditingOrder None))
          (fun _ => modify (alert "Erro ao excluir ordem.")) c s
    | _ => ret tt c s
    end.

(** [openEdit] and [openNew] *)
Definition openEdit (order : ServiceOrder) : Handler unit :=
  modify (setEditingOrder (Some order)) ;;;
  modify (setIsFormOpen true).

Definition openNew : Handler unit :=
  modify (setEditingOrder None) ;;;
  modify (setIsFormOpen true).

(** [handleSetGoal]; [currentMonthKey] is the key of the render. *)
Definition handleSetGoal (val : number) : Handler unit :=
  fun c s =>
    let currentMonthKey := AppView.currentMonthKey (viewDate s) in
    tryCatch
      (await (SupabaseService.setMonthlyGoal currentMonthKey val) ;;;
       modify (fun s => setMonthlyGoals
                          (SupabaseService.setGoal currentMonthKey val (monthlyGoals s))
                          s))
      (fun _ => modify (alert "Erro ao definir meta.")) c s.

(** [goalValue={monthlyGoals[currentMonthKey] || 0}] *)
Definition goalValue (s : State) : number :=
  orZero (monthlyGoals s (AppView.currentMonthKey (viewDate s))).

End AppData.

(** ** components/TransactionModal.tsx *)
Module TransactionModal.

Record State := {
  form_type : TransactionType;
  form_description : string;
  form_amount : string;
  form_date : string
}.

(** [Date.now()] and [new Date().toISOString().split('T')[0]] *)
Record ModalHost := { modalNow : Z; modalToday : string }.

Section HandleSubmit.

(** [parseFloat], which the runtime provides. *)
Variable parseFloat : string -> number.

(** [handleSubmit]: the state of the form, the transaction handed to
    [onSubmit] if any, and whether [onClose] was called. *)
Definition handleSubmit (h : ModalHost) (s : State)
    : State * option Transaction * bool :=
  if (if form_description s is EmptyString then true else false)
     || (if form_amount s is EmptyString then true else false)
  then (s, None, false)
  else
    let newTransaction :=
      {| tx_id := ("TX-" ++ Js.toString (modalNow h))%string;
         description := form_description s;
         amount := PrimFloat.abs (parseFloat (form_amount s));
         tx_type := form_type s;
         date := form_date s;
         category := None |} in
    ({| form_type := form_type s; form_description := "";
        form_amount := ""; form_date := modalToday h |},
     Some newTransaction, true).

End HandleSubmit.

End TransactionModal.

(** ** components/MonthlyGoalWidget.tsx *)
Module MonthlyGoalWidget.

(** [Math.min(a, b)]: [NaN] if either argument is, and [-0] below [+0]. *)
Definition Math_min (a b : number) : number :=
  if is_nan a || is_nan b then nan
  else if (a <? b)%float then a
  else if (b <? a)%float then b
  else match classify a with NZero => a | _ => b end.

(** [goalValue || 1] *)
Definition orOne (x : number) : number :=
  if is_nan x || is_zero x then 1%float else x.

Definition percentage (currentRevenue goalValue : number) : number :=
  Js.Math_max 0%float ((currentRevenue / orOne goalValue) * 100)%float.

(** [percentage >= 100] *)
Definition isTargetMet (currentRevenue goalValue : number) : bool :=
  (100 <=? percentage currentRevenue goalValue)%float.

(** The width of the bar, in percent: [Math.min(100, percentage)]. *)
Definition barWidth (currentRevenue goalValue : number) : number :=
  Math_min 100%float (percentage currentRevenue goalValue).

Section HandleSave.

Variable parseFloat : string -> number.

(** [handleSave]: the value handed to [onSetGoal], if any, and the new
    [isEditing]. *)
Definition handleSave (tempGoal : string) : option number * bool :=
  let val := parseFloat tempGoal in
  (if ~~ is_nan val && (0 <? val)%float then Some val else None, false).

End HandleSave.

End MonthlyGoalWidget.

(** ** components/ServiceOrderCard.tsx: the timeline *)
Module OrderTimeline.

Definition steps : seq (Z * string) :=
  [:: (20%Z, "Reserva"%string); (60%Z, "Coleta"%string);
      (100%Z, "Entrega"%string)].

(** For each step its label, [isCompleted] and [isCurrent]. *)
Definition render (progress : Z) : seq (string * bool * bool) :=
  [seq (step.2, (step.1 <=? progress)%Z, (progress =? step.1)%Z) | step <- steps].

End OrderTimeline.

(** ** utils/pdfGenerator.ts: the formatting helpers *)
Module PdfGenerator.

(** [cleanPhone], the same [replace(/\D/g, '')] as in the form. *)
Definition cleanPhone (phone : string) : string := OrderFormEdits.cleanPhone phone.

Fixpoint stringDrop (n : nat) (s : string) : string :=
  match n, s with
  | n'.+1, String _ r => stringDrop n' r
  | _, _ => s
  end.

Fixpoint stringTake (n : nat) (s : string) : string :=
  match n, s with
  | n'.+1, String c r => String c (stringTake n' r)
  | _, _ => EmptyString
  end.

(** [s.substring(start, stop)] for [start <= stop], and [s.substring(start)];
    indices past the end stand for the end. *)
Definition substring (s : string) (start stop : nat) : string :=
  stringTake (stop - start) (stringDrop start s).

Definition substringFrom (s : string) (start : nat) : string :=
  stringDrop start s.

(** [formatCPF].  On a text of digits the pattern
    [(\d{3})(\d{3})(\d{3})(\d{2})] matches at the start as soon as there
    are eleven of them, and [replace] rewrites that first match only. *)
Definition formatCPF (val : string) : string :=
  let d := cleanPhone val in
  if 11 <= String.length d then
    (substring d 0 3 ++ "." ++ substring d 3 6 ++ "." ++ substring d 6 9
     ++ "-" ++ substring d 9 11 ++ substringFrom d 11)%string
  else d.

(** [formatPhone] of [generateDriverPDF] *)
Definition formatPhoneDriver (val : string) : string :=
  let d := cleanPhone val in
  if 10 < String.length d then
    ("+55 (" ++ substring d 0 2 ++ ") " ++ substring d 2 7 ++ "-"
     ++ substring d 7 11)%string
  else val.

(** [formatPhone] of [generateTeamPDF] *)
Definition formatPhoneTeam (phone : string) : string :=
  let cleaned := cleanPhone phone in
  if String.length cleaned == 11 then
    ("(" ++ substring cleaned 0 2 ++ ") " ++ substring cleaned 2 7 ++ "-"
     ++ substringFrom cleaned 7)%string
  else phone.

(** The link of the client's number: [`https://wa.me/55${cleanPhone(order.whatsapp)}`]. *)
Definition whatsappLink (whatsapp : string) : string :=
  ("https://wa.me/55" ++ cleanPhone whatsapp)%string.

End PdfGenerator.

(** ** components/PdfExportModal.tsx: the team sheet *)
Module PdfExportModal.






End PdfExportModal.

(** ** Vocabulary of the further properties *)

Import AppView OrderFormEdits.

(** The badge calls for attention. *)
Definition isUrgent (status : ServiceOrderCard.Status) : bool :=
  match status with
  | ServiceOrderCard.late | ServiceOrderCard.critical => true
  | _ => false
  end.

(** The second pass comes at most five hours after the first. *)
Definition laterWithinPause (p q : Host * seq ServiceOrder) : bool :=
  (Date_now q.1 - Date_now p.1 <=? FIVE_HOURS)%Z.

(** A view date as the navigation leaves it, in a year after 100. *)
Definition normalView (v : ViewDate) : bool :=
  (100 <? viewYear v)%Z && (0 <=? viewMonth v)%Z && (viewMonth v <=? 11)%Z.

(** A year of four digits and a month index. *)
Definition fourDigitMonth (year month : Z) : bool :=
  (1000 <=? year)%Z && (year <=? 9999)%Z && (0 <=? month)%Z && (month <=? 11)%Z.

(** [p] holds of the [n] integers from [from] on. *)
Fixpoint allFrom (n : nat) (from : Z) (p : Z -> bool) : bool :=
  if n is n'.+1 then p from && allFrom n' (from + 1) p else true.

(** The text holds decimal digits only. *)
Fixpoint allDigits (s : string) : bool :=
  match s with
  | String c r => Js.isDigit c && allDigits r
  | EmptyString => true
  end.

Definition hasId (id : string) (e : ExtraService) : bool :=
  String.eqb (extra_id e) id.

(** The entry [addGenericExtra] appends. *)
Definition newGenericExtra (newId : string) : ExtraService :=
  {| extra_id := newId; extra_type := other; extra_name := "";
     qty := 1%float; cost := 0%float |}.

(** One edit of the working set of extras: a write of a role input, or
    one of the three buttons and inputs of the generic extras. *)
Inductive ExtrasEdit :=
  | edit_role (w : RoleWrite)
  | edit_add (newId : string)
  | edit_update (id : string) (w : GenericWrite)
  | edit_remove (id : string).

Definition applyEdit (extras : seq ExtraService) (e : ExtrasEdit)
    : seq ExtraService :=
  match e with
  | edit_role w => applyWrite extras w
  | edit_add newId => addGenericExtra newId extras
  | edit_update id w => updateGenericExtra id w extras
  | edit_remove id => removeGenericExtra id extras
  end.

(** A note host and a text for the scenarios. *)
Definition noteHost : NoteHost :=
  {| noteNow := 1718031600000; noteISO := "2024-06-10T15:00:00.000Z" |}.

(** A number that [||] leaves as it is, or turns into the same [+0]:
    neither [NaN] nor [-0]. *)
Definition plainNumber (x : number) : bool :=
  ~~ is_nan x && (if classify x is NZero then false else true).

(** No milestone of the order is paid. *)
Definition nothingPaid (order : ServiceOrder) : bool :=
  [&& ~~ deposit (paymentStatus order), ~~ pickup (paymentStatus order)
    & ~~ delivery (paymentStatus order)].

(** An order as the gateway returns it, with its id and creation time. *)
Definition storedOrder : ServiceOrder :=
  {| id := "OS-2024-7"; clientName := "Bruno"; whatsapp := "11987654321";
     origin := "Campinas"; destination := "Santos"; isContractSigned := true;
     isPostedFretebras := false;
     paymentStatus := {| deposit := true; pickup := false; delivery := false |};
     isCostsPaid := false; progress := Stage20;
     financials :=
       {| totalValue := 1000%float; driverCost := 200%float;
          Types.extras :=
            [:: {| extra_id := "e1"; extra_type := helper;
                   extra_name := "Ajudantes"; qty := 2%float;
                   cost := 50%float |}] |};
     pickupDate := "2024-06-12"; deliveryForecast := "2024-06-14";
     notes := [:: {| note_id := "n1"; content := "ligar antes";
                     color := "#334155";
                     note_createdAt := "2024-06-01T10:05:00.000Z" |}];
     noteTags := "#334155"; createdAt := "2024-06-01T10:00:00.000Z" |}.

(** *** The gateway *)

Import SupabaseClient.

(** The requests of a list go out one after the other, up to the first
    that fails: what was sent, and the error if there was one. *)
Fixpoint sendEach (c : Client) (rs : seq Request) : seq Request * option string :=
  match rs with
  | [::] => ([::], None)
  | r :: rs' =>
      if error c r is Some e then ([:: r], Some e)
      else let rest := sendEach c rs' in (r :: rest.1, rest.2)
  end.

(** What a gateway function answers after the requests [rs]. *)
Definition outcomeOf (c : Client) (sent : seq Request) (rs : seq Request)
    : seq Request * (string + unit) :=
  let p := sendEach c rs in
  (sent ++ auth_getUser :: p.1, if p.2 is Some e then inl e else inr tt).

(** The requests of [createServiceOrder], for the user [userId]. *)
Definition createRequests (userId : string) (order : ServiceOrder) : seq Request :=
  insert_service_orders
    {| inserted_id := id order; inserted_user_id := userId;
       inserted_columns := SupabaseService.columnsOf order |}
  :: (if Types.extras (financials order) is [::] then [::]
      else [:: insert_extra_services (SupabaseService.extrasToInsert order)])
  ++ (if notes order is [::] then [::]
      else [:: insert_order_notes (SupabaseService.notesToInsert userId order)]).

(** The requests of [updateServiceOrder]. *)
Definition updateRequests (c : Client) (userId : string) (order : ServiceOrder)
    : seq Request :=
  [:: update_service_orders
        {| updated_columns := SupabaseService.columnsOf order;
           updated_at := nowISO c |} (id order);
      delete_extra_services (id order)]
  ++ (if Types.extras (financials order) is [::] then [::]
      else [:: insert_extra_services (SupabaseService.extrasToInsert order)])
  ++ delete_order_notes (id order)
  :: (if notes order is [::] then [::]
      else [:: insert_order_notes (SupabaseService.notesToInsert userId order)]).

(** The request takes rows away or rewrites one. *)
Definition isRemoval (r : Request) : bool :=
  match r with
  | delete_service_orders _ | delete_extra_services _ | delete_order_notes _
  | delete_transactions _ | update_service_orders _ _ => true
  | _ => false
  end.

Definition withCreatedAt (o : ServiceOrder) (t : string) : ServiceOrder :=
  {| id := id o; clientName := clientName o; whatsapp := whatsapp o;
     origin := origin o; destination := destination o;
     isContractSigned := isContractSigned o;
     isPostedFretebras := isPostedFretebras o;
     paymentStatus := paymentStatus o; isCostsPaid := isCostsPaid o;
     progress := progress o; financials := financials o;
     pickupDate := pickupDate o; deliveryForecast := deliveryForecast o;
     notes := notes o; noteTags := noteTags o; createdAt := t |}.

(** What the store holds of an extra and of a note the gateway inserted. *)
Definition extraStored (e : SelectedExtra) : InsertedExtra -> bool :=
  fun x =>
    [&& String.eqb (e_id e) (inserted_extra_id x),
        ServiceType_eqb (e_type e) (inserted_extra_type x),
        String.eqb (e_name e) (inserted_extra_name x),
        PrimFloat.Leibniz.eqb (e_qty e) (inserted_extra_qty x)
      & PrimFloat.Leibniz.eqb (e_cost e) (inserted_extra_cost x)].

Definition noteStored (n : SelectedNote) : InsertedNote -> bool :=
  fun x =>
    String.eqb (n_content n) (inserted_content x)
    && String.eqb (n_color n) (inserted_color x).

(** The row a select answers with holds what [createServiceOrder] sent
    for the order: the row of the order, its extras, its notes. *)
Definition holdsCreated (userId : string) (order : ServiceOrder)
    (o : SelectedOrder) : Prop :=
  [/\ o_id o = id order,
      o_columns o = SupabaseService.columnsOf order,
      all2 extraStored (o_extra_services o) (SupabaseService.extrasToInsert order)
    & all2 noteStored (o_order_notes o)
        (SupabaseService.notesToInsert userId order)].

(** A client that answers every request without error. *)
Definition signedIn : Client :=
  {| user := Some "u1"%string; error := fun _ => None; service_orders := [::];
     transactions_rows := [::]; monthly_goals := [::];
     nowISO := "2024-06-10T15:00:00.000Z" |}.

(** The row the store answers with for [storedOrder]. *)
Definition storedRow : SelectedOrder :=
  {| o_id := "OS-2024-7";
     o_columns := SupabaseService.columnsOf storedOrder;
     o_extra_services :=
       [:: {| e_id := "e1"; e_type := helper; e_name := "Ajudantes";
              e_qty := 2%float; e_cost := 50%float |}];
     o_order_notes :=
       [:: {| n_id := "7f3c"; n_content := "ligar antes"; n_color := "#334155";
              n_created_at := "2024-06-10T15:00:01.000Z" |}];
     o_created_at := "2024-06-10T15:00:00.500Z" |}.

(** A client on which the insertion of extras fails. *)
Definition extrasRejected : Client :=
  {| user := Some "u1"%string;
     error := fun r => if r is insert_extra_services _
                       then Some "23505"%string else None;
     service_orders := [::]; transactions_rows := [::]; monthly_goals := [::];
     nowISO := "2024-06-10T15:00:00.000Z" |}.

(** *** The handlers of App *)

(** The three selects of [fetchData]. *)
Definition selects : seq Request :=
  [:: select_service_orders; select_transactions; select_monthly_goals].

Definition fetchFails (c : Client) : bool := has (fun r => error c r) selects.

(** What the three selects answer with. *)
Definition fetchedOrders (c : Client) : seq ServiceOrder :=
  map SupabaseService.orderOfRow (service_orders c).

Definition fetchedTransactions (c : Client) : seq Transaction :=
  map SupabaseService.transactionOfRow (transactions_rows c).

Definition fetchedGoals (c : Client) : SupabaseService.Goals :=
  foldl (fun goals g => SupabaseService.setGoal (g_month_key g) (g_goal_value g) goals)
        SupabaseService.noGoals (monthly_goals c).

(** The part of the state that shows the form, the dialogs and the view. *)
Definition screenOf (s : AppData.State)
    : bool * bool * option ServiceOrder * option string * bool * AppView.ViewDate :=
  (AppData.isFormOpen s, AppData.isTransactionModalOpen s, AppData.editingOrder s,
   AppData.deleteId s, AppData.showSuccessToast s, AppData.viewDate s).

(** The lists and the goals. *)
Definition dataOf (s : AppData.State)
    : seq ServiceOrder * seq Transaction * SupabaseService.Goals :=
  (AppData.orders s, AppData.transactions s, AppData.monthlyGoals s).

(** The shape [handleCreate] and [handleUpdate] share: the gateway call,
    the refresh, the success toast; one alert if the call throws. *)
Definition saveHandler (save : SupabaseService.Gateway unit) (message : string)
    : AppData.Handler unit :=
  Async.tryCatch
    (AppData.await save ;;; AppData.fetchData ;;; AppData.triggerSaveSuccess)
    (fun _ => Async.modify (AppData.alert message)).

(** What a save leaves on the screen and in the lists, given what the
    gateway call answered from the state [s]. *)
Definition savedFrom (c : Client) (s : AppData.State) (message : string)
    (answer : seq Request * (string + unit)) (s' : AppData.State) : Prop :=
  match answer.2 with
  | inl _ =>
      [/\ AppData.sent s' = answer.1, screenOf s' = screenOf s,
          dataOf s' = dataOf s
        & AppData.alerts s' = rcons (AppData.alerts s) message]
  | inr _ =>
      [/\ AppData.sent s' = answer.1 ++ selects,
          AppData.isFormOpen s' = false /\ AppData.editingOrder s' = None,
          AppData.showSuccessToast s' = true
        & (dataOf s', AppData.alerts s')
          = if fetchFails c
            then (dataOf s,
                  rcons (AppData.alerts s)
                        "Erro ao carregar dados. Verifique sua conexão."%string)
            else ((fetchedOrders c, fetchedTransactions c, fetchedGoals c),
                  AppData.alerts s)]
  end.

(** The goal stored for the month of a view. *)
Definition goalOf (s : AppData.State) (view : ViewDate) : option number :=
  AppData.monthlyGoals s (currentMonthKey view).

Definition fourDigitView (view : ViewDate) : bool :=
  fourDigitMonth (viewYear view) (viewMonth view).

Definition sameMonth (v w : ViewDate) : bool :=
  (viewYear v =? viewYear w)%Z && (viewMonth v =? viewMonth w)%Z.

(** The widget's save wired to [handleSetGoal]: [onSetGoal={handleSetGoal}]. *)
Definition saveGoal (parseFloat : string -> number) (tempGoal : string)
    : AppData.Handler unit :=
  if (MonthlyGoalWidget.handleSave parseFloat tempGoal).1 is Some val
  then AppData.handleSetGoal val
  else Async.ret tt.

(** The outcome of [setMonthlyGoal] for the month shown. *)
Definition goalStored (c : Client) (s : AppData.State) (val : number) : bool :=
  if user c is Some userId
  then ~~ error c (upsert_monthly_goals userId (currentMonthKey (AppData.viewDate s)) val)
  else false.

(** June 2024 on the screen. *)
Definition juneView : AppData.State :=
  AppData.initialState {| viewYear := 2024; viewMonth := 5 |}.

(** The modal's submit wired to [handleAddTransaction]:
    [onSubmit={handleAddTransaction}]. *)
Definition submitTransaction (parseFloat : string -> number)
    (h : TransactionModal.ModalHost) (m : TransactionModal.State)
    : AppData.Handler unit :=
  if (TransactionModal.handleSubmit parseFloat h m).1.2 is Some newTransaction
  then AppData.handleAddTransaction newTransaction
  else Async.ret tt.

(** The description or the amount of the modal is blank. *)
Definition blankEntry (m : TransactionModal.State) : bool :=
  String.eqb (TransactionModal.form_description m) ""
  || String.eqb (TransactionModal.form_amount m) "".

(** The request stores a transaction of negative amount. *)
Definition storesNegativeAmount (r : Request) : bool :=
  if r is insert_transactions row then (inserted_amount row <? 0)%float
  else false.

(** The modal as it opens on 10 June 2024, and an expense typed into it. *)
Definition modalHost : TransactionModal.ModalHost :=
  {| TransactionModal.modalNow := 1718031600000;
     TransactionModal.modalToday := "2024-06-10" |}.

Definition fuelExpense : TransactionModal.State :=
  {| TransactionModal.form_type := expense;
     TransactionModal.form_description := "combustivel";
     TransactionModal.form_amount := "-50";
     TransactionModal.form_date := "2024-06-10" |}.

(** *** The documents *)


(** The steps of the timeline shown as completed. *)
Definition completedSteps (progress : ProgressStage) : seq (string * bool) :=
  [seq (step.1.1, step.1.2) | step <- OrderTimeline.render (stageValue progress)].

(** *** From the form to the store *)

(** The save button wired to the handlers of App:
    [onSubmit={editingOrder ? handleUpdate : handleCreate}]. *)
Definition saveDraft (h : SubmitHost) (s : State) : AppData.Handler unit :=
  let finalOrder := handleSubmit h s in
  if initialData (props s) is Some _ then AppData.handleUpdate finalOrder
  else AppData.handleCreate finalOrder.

(** The client answers every request without error. *)
Definition answersAll (c : Client) : Prop := forall r : Request, error c r = None.

(** A draft with a client, a helper and a note, typed into a new form. *)
Definition typedDraft : State :=
  onRoleChange 1718031600000 helper field_qty 2%float
    (onClientNameChange "Bruno" (setProps newOrderProps (mount closedProps))).

(** * Properties *)

(** ** Monthly aggregation *)

Lemma sumNumbers_cat xs ys :
  sumNumbers (xs ++ ys) = foldl (fun acc x => (acc + x)%float) (sumNumbers xs) ys.
Proof. by rewrite /sumNumbers foldl_cat. Qed.

(** The loop over the month's orders keeps two independent running sums. *)
Lemma monthOrders_loop (s : seq ServiceOrder) (a b : number) :
  foldl (fun acc order =>
           let received := calculateReceivedAmount order in
           let cashIn := (acc.1 + received)%float in
           let cashOut :=
             if isCostsPaid order
             then (acc.2 + calculateCosts (financials order))%float
             else acc.2 in
           (cashIn, cashOut)) (a, b) s =
  (foldl (fun acc x => (acc + x)%float) a (map calculateReceivedAmount s),
   foldl (fun acc x => (acc + x)%float) b
         [seq calculateCosts (financials o) | o <- s & isCostsPaid o]).
Proof.
elim: s a b => [|o s IH] a b //=.
by rewrite IH; case: (isCostsPaid o).
Qed.

Lemma monthTransactions_loop (s : seq Transaction) (a b : number) :
  foldl (fun acc t =>
           let cashIn :=
             if tx_type t is income then (acc.1 + amount t)%float else acc.1 in
           let cashOut :=
             if tx_type t is expense then (acc.2 + amount t)%float else acc.2 in
           (cashIn, cashOut)) (a, b) s =
  (foldl (fun acc x => (acc + x)%float) a [seq amount t | t <- s & isIncome t],
   foldl (fun acc x => (acc + x)%float) b [seq amount t | t <- s & isExpense t]).
Proof.
elim: s a b => [|t s IH] a b //=.
by rewrite IH /isIncome /isExpense; case: (tx_type t).
Qed.

(** C1. The monthly net figure is cashIn minus cashOut: cashIn adds up, from
    left to right, [calculateReceivedAmount] of the orders whose pickupDate
    starts with the month key and then the amounts of that month's income
    transactions; cashOut adds up [calculateCosts] of those month orders
    whose costs are paid and then the amounts of that month's expense
    transactions.  The June 2024 scenario of the specification gives 350. *)
Theorem monthlyNet_is_cashIn_minus_cashOut
    (orders : seq ServiceOrder) (transactions : seq Transaction) (key : string) :
  let monthOrders := [seq o <- orders | Js.startsWith (pickupDate o) key] in
  let monthTransactions := [seq t <- transactions | Js.startsWith (date t) key] in
  let cashIn :=
    sumNumbers ([seq calculateReceivedAmount o | o <- monthOrders] ++
                [seq amount t | t <- monthTransactions & isIncome t]) in
  let cashOut :=
    sumNumbers ([seq calculateCosts (financials o) | o <- monthOrders & isCostsPaid o] ++
                [seq amount t | t <- monthTransactions & isExpense t]) in
  monthlyNet orders transactions key = (cashIn - cashOut)%float /\
  monthlyNet [:: juneOrder] [:: juneExpense] "2024-06" = 350%float /\
  monthlyRevenue [:: juneOrder] [:: juneExpense] 2024 5 = 350%float.
Proof.
split; last by split; vm_compute.
rewrite /monthlyNet monthOrders_loop monthTransactions_loop /=.
by rewrite !sumNumbers_cat.
Qed.

(** ** Received amount *)

Lemma calculateReceivedAmount_shares (order : ServiceOrder) :
  calculateReceivedAmount order = sumNumbers (milestoneShares order).
Proof.
rewrite /calculateReceivedAmount /milestoneShares /sumNumbers.
by case: (deposit _); case: (pickup _); case: (delivery _).
Qed.

Lemma calculateReceivedAmount_allPaid (order : ServiceOrder) :
  allPaid order ->
  calculateReceivedAmount order =
  let total := totalValue (financials order) in
  (0 + total * 0.20 + total * 0.40 + total * 0.40)%float.
Proof.
rewrite /allPaid /calculateReceivedAmount.
by case: (deposit _); case: (pickup _); case: (delivery _).
Qed.

Lemma sharesExactFrom_nth (n : nat) (t : Z) (k : nat) :
  sharesExactFrom n t -> k < n ->
  calculateReceivedAmount (paidInFull (numberOfZ (t + 5 * Z.of_nat k))) =
  numberOfZ (t + 5 * Z.of_nat k).
Proof.
elim: n t k => [|n IH] t k //= /andP [Ht Hn].
case: k => [_|k].
  have -> : (t + 5 * Z.of_nat 0 = t)%Z by lia.
  exact/FloatAxioms.Leibniz.eqb_spec.
have -> : (t + 5 * Z.of_nat k.+1 = (t + 5) + 5 * Z.of_nat k)%Z by lia.
by rewrite ltnS; apply: IH.
Qed.

Lemma sharesExact_to_1000000 : sharesExactFrom (Z.to_nat 200001) 0.
Proof. by vm_compute. Qed.

(** C4, as the code has it.  [calculateReceivedAmount] adds, from left to
    right and in double precision, one share per paid milestone:
    totalValue times 0.20 for the deposit and times 0.40 for the pickup
    and for the delivery, each share depending only on totalValue and its
    own flag.  With all three flags set the result is
    [0 + t * 0.20 + t * 0.40 + t * 0.40], which is totalValue itself for
    every whole total from 0 to 1,000,000 that is a multiple of 5 (1000 for
    one). *)
Theorem calculateReceivedAmount_fixed_shares :
  (forall order : ServiceOrder,
     calculateReceivedAmount order = sumNumbers (milestoneShares order)) /\
  (forall order : ServiceOrder, allPaid order ->
     calculateReceivedAmount order =
     let total := totalValue (financials order) in
     (0 + total * 0.20 + total * 0.40 + total * 0.40)%float) /\
  (forall (order : ServiceOrder) (z : Z), allPaid order ->
     (0 <= z <= 1000000)%Z -> (z mod 5 = 0)%Z ->
     totalValue (financials order) = numberOfZ z ->
     calculateReceivedAmount order = totalValue (financials order)) /\
  calculateReceivedAmount (paidInFull 1000%float) = 1000%float.
Proof.
split; first exact: calculateReceivedAmount_shares.
split; first exact: calculateReceivedAmount_allPaid.
split; last by vm_compute.
move=> order z Hpaid Hz Hmod Htotal.
have Hq : (0 <= z / 5 < 200001)%Z by Z.div_mod_to_equations; lia.
have Hk : z = (0 + 5 * Z.of_nat (Z.to_nat (z / 5)))%Z.
  by rewrite Z2Nat.id; Z.div_mod_to_equations; lia.
have Hlt : Z.to_nat (z / 5) < Z.to_nat 200001 by apply/ltP; lia.
have := sharesExactFrom_nth sharesExact_to_1000000 Hlt.
by rewrite -Hk !calculateReceivedAmount_allPaid //= Htotal.
Qed.

(** The witness of C4: a total of 1000 with all three milestones paid. *)
Lemma calculateReceivedAmount_fixed_shares_witness :
  calculateReceivedAmount (paidInFull 1000%float) =
  totalValue (financials (paidInFull 1000%float)).
Proof.
have [_ [_ [H _]]] := calculateReceivedAmount_fixed_shares.
by apply: (H (paidInFull 1000%float) 1000%Z).
Defined.

(** C4 as the specification words it does not hold in double precision:
    with all three milestones paid on a total of 3 the shares add up to
    3.0000000000000004. *)
Lemma calculateReceivedAmount_all_paid_of_3 :
  allPaid (paidInFull 3%float) /\
  calculateReceivedAmount (paidInFull 3%float) = 3.0000000000000004%float /\
  (calculateReceivedAmount (paidInFull 3%float)
     =? totalValue (financials (paidInFull 3%float)))%float = false.
Proof. by vm_compute. Qed.

(** ** Status counts *)

Lemma completed_not_active (p : ProgressStage) :
  (stageValue p =? 100)%Z = ~~ (stageValue p <? 100)%Z.
Proof. by case: p. Qed.

Lemma isOrderCritical_active (h : Host) (o : ServiceOrder) :
  isOrderCritical h o -> (stageValue (progress o) <? 100)%Z.
Proof.
rewrite /isOrderCritical -[(_ <? _)%Z]negbK -completed_not_active.
by case: (_ =? _)%Z.
Qed.

(** C10. The counters are counts of the order list itself: [all] is its
    length, [active] the number of its orders with progress < 100,
    [completed] the number with progress = 100.  Every order is active
    or completed and never both, so the two buckets take complementary
    selections of the list, each order in exactly one, and the two counts
    add up to the length of the list, which is [all].  The critical orders
    are counted among the active ones and are no bucket of the
    partition. *)
Theorem counts_active_plus_completed (h : Host) (orders : seq ServiceOrder) :
  let c := counts h orders in
  let active := fun o : ServiceOrder => (stageValue (progress o) <? 100)%Z in
  let completed := fun o : ServiceOrder => (stageValue (progress o) =? 100)%Z in
  let selection := [seq active o | o <- orders] in
  [/\ counts_all c = size orders,
      counts_active c + counts_completed c = size orders /\
      counts_active c + counts_completed c = counts_all c,
      counts_active c = seq.count active orders /\
      counts_completed c = seq.count completed orders,
      (forall o : ServiceOrder, active o (+) completed o) /\
      [seq o <- orders | active o] = mask selection orders /\
      [seq o <- orders | completed o] = mask [seq ~~ b | b <- selection] orders /\
      size selection = size orders
    & counts_critical c = seq.count (isOrderCritical h) orders /\
      counts_critical c <= counts_active c].
Proof.
move=> c active completed selection.
have Hsum : counts_active c + counts_completed c = size orders.
  rewrite /c /counts /= !size_filter -(count_predC active orders).
  by congr (_ + _); apply: eq_count => o /=; exact: completed_not_active.
split=> //.
- by rewrite /c /counts /= !size_filter.
- split; first by move=> o; rewrite /active /completed completed_not_active
                                   addbN negb_add eqxx.
  split; first by rewrite filter_mask.
  split; last by rewrite size_map.
  rewrite /selection -map_comp -filter_mask; apply: eq_filter => o.
  exact: completed_not_active.
- rewrite /c /counts /= !size_filter; split=> //.
  by apply: sub_count => o; apply: isOrderCritical_active.
Qed.

(** ** Criticality *)

Lemma ceilDiv_le (x d k : Z) :
  (0 < d)%Z -> (Js.ceilDiv x d <= k)%Z <-> (x <= k * d)%Z.
Proof.
move=> Hd; rewrite /Js.ceilDiv.
by split=> H; Z.div_mod_to_equations; nia.
Qed.

Lemma ceilDiv_mul (n d : Z) : (0 < d)%Z -> Js.ceilDiv (n * d) d = n.
Proof.
move=> Hd; rewrite /Js.ceilDiv -Z.mul_opp_l Z.div_mul; lia.
Qed.

Lemma isOrderCritical_completed (h : Host) (order : ServiceOrder) :
  stageValue (progress order) = 100%Z -> isOrderCritical h order = false.
Proof. by rewrite /isOrderCritical => ->. Qed.

Lemma isOrderCritical_open (h : Host) (order : ServiceOrder)
    (y m d target nowMidnight : Z) (rest : seq (option Z)) :
  stageValue (progress order) <> 100%Z ->
  map Js.Number (Js.split "-"%char (pickupDate order))
    = [:: Some y, Some m, Some d & rest] ->
  Js.Date_local (zone h) y (m - 1) d = Some target ->
  Js.Date_local (zone h) (getFullYear h) (getMonth h) (getDate h)
    = Some nowMidnight ->
  isOrderCritical h order
    = (Js.ceilDiv (target - nowMidnight) Js.msPerDay <=? 5)%Z.
Proof.
move=> /Z.eqb_neq Hp Hparts Ht Hn.
by rewrite /isOrderCritical Hp Hparts /= Ht Hn.
Qed.

(** In a zone without clock changes the difference counts calendar days. *)
Lemma isOrderCritical_fixedZone (offset : Z) (h : Host) (order : ServiceOrder)
    (y m d : Z) (rest : seq (option Z)) :
  zone h = Js.fixedZone offset ->
  stageValue (progress order) <> 100%Z ->
  map Js.Number (Js.split "-"%char (pickupDate order))
    = [:: Some y, Some m, Some d & rest] ->
  let targetDay := Js.localDay y (m - 1) d in
  let today := Js.localDay (getFullYear h) (getMonth h) (getDate h) in
  (Z.abs (targetDay * Js.msPerDay - offset) <= 8640000000000000)%Z ->
  (Z.abs (today * Js.msPerDay - offset) <= 8640000000000000)%Z ->
  isOrderCritical h order = (targetDay - today <=? 5)%Z.
Proof.
move=> Hz Hp Hparts targetDay today /Z.leb_le Ht /Z.leb_le Hn.
rewrite (@isOrderCritical_open h order y m d
           (targetDay * Js.msPerDay - offset)
           (today * Js.msPerDay - offset) rest) //.
- by rewrite /Js.Date_local Hz /= /Js.TimeClip -/targetDay Ht.
- by rewrite /Js.Date_local Hz /= /Js.TimeClip -/today Hn.
- have -> : (targetDay * Js.msPerDay - offset - (today * Js.msPerDay - offset)
             = (targetDay - today) * Js.msPerDay)%Z by lia.
  by rewrite ceilDiv_mul.
Qed.

(** C3. An order whose progress is 100 is never critical, whatever its
    pickupDate.  Otherwise, with [diffDays] the ceiling of the difference
    between the local midnight of the pickupDate and the local midnight of
    today, in days, the order is critical exactly when [diffDays <= 5],
    that is when the pickup midnight lies at most five days of 24 hours
    after today's: orders due today and overdue orders are critical.  With
    today at 2024-06-10 (in any zone of constant offset), a pickup on
    2024-06-15 is critical, one on 2024-06-16 is not, one on 2024-06-09 is,
    and a completed order picked up on 2024-06-10 is not. *)
Theorem isOrderCritical_iff_diffDays_le_5 :
  (forall (h : Host) (order : ServiceOrder),
     stageValue (progress order) = 100%Z -> isOrderCritical h order = false) /\
  (forall (h : Host) (order : ServiceOrder) (y m d target nowMidnight : Z)
          (rest : seq (option Z)),
     stageValue (progress order) <> 100%Z ->
     map Js.Number (Js.split "-"%char (pickupDate order))
       = [:: Some y, Some m, Some d & rest] ->
     Js.Date_local (zone h) y (m - 1) d = Some target ->
     Js.Date_local (zone h) (getFullYear h) (getMonth h) (getDate h)
       = Some nowMidnight ->
     let diffDays := Js.ceilDiv (target - nowMidnight) (1000 * 60 * 60 * 24) in
     (isOrderCritical h order <-> (diffDays <= 5)%Z) /\
     ((diffDays <= 5)%Z <-> (target - nowMidnight <= 5 * Js.msPerDay)%Z)) /\
  (forall offset now : Z, (Z.abs offset <= Js.msPerDay)%Z ->
     let h := hostOn offset 2024 5 10 now in
     [/\ isOrderCritical h (pickupOn "2024-06-15" Stage20) = true,
         isOrderCritical h (pickupOn "2024-06-16" Stage20) = false,
         isOrderCritical h (pickupOn "2024-06-09" Stage20) = true &
         isOrderCritical h (pickupOn "2024-06-10" Stage100) = false]).
Proof.
split; first exact: isOrderCritical_completed.
split.
  move=> h order y m d target nowMidnight rest Hp Hparts Ht Hn diffDays.
  rewrite (isOrderCritical_open Hp Hparts Ht Hn) -/diffDays.
  split; first by split=> /Z.leb_le.
  exact: ceilDiv_le.
move=> offset now Hoff h.
have Hday : forall pickupDay dd,
    map Js.Number (Js.split "-"%char pickupDay)
      = [:: Some 2024%Z; Some 6%Z; Some dd] ->
    (1 <= dd <= 31)%Z ->
    isOrderCritical h (pickupOn pickupDay Stage20)
      = (Js.localDay 2024 (6 - 1) dd - 19884 <=? 5)%Z.
  move=> pickupDay dd Hparts Hdd.
  have Hl : Js.localDay 2024 (6 - 1) dd = (19874 + dd)%Z.
    rewrite /Js.localDay /Js.MakeDay; set c := Js.daysFromCivil _ _ _.
    by have -> : c = 19875%Z by []; lia.
  rewrite (@isOrderCritical_fixedZone offset h _ 2024 6 dd [::]) //.
  - by rewrite Hl; move: Hoff; rewrite /Js.msPerDay; lia.
  - have -> : Js.localDay (getFullYear h) (getMonth h) (getDate h) = 19884%Z by [].
    by move: Hoff; rewrite /Js.msPerDay; lia.
split.
- by rewrite (Hday _ 15%Z).
- by rewrite (Hday _ 16%Z).
- by rewrite (Hday _ 9%Z).
- exact: isOrderCritical_completed.
Qed.

(** ** The alert and its five-hour pause *)

Lemma digitPrefix_string_of_uint (d : Decimal.uint) :
  Js.digitPrefix (NilEmpty.string_of_uint d) = NilEmpty.string_of_uint d.
Proof. by elim: d => //= d ->. Qed.

Lemma trimStart_string_of_uint (d : Decimal.uint) :
  Js.trimStart (NilEmpty.string_of_uint d) = NilEmpty.string_of_uint d.
Proof. by case: d. Qed.

Lemma parseInt_digits (d : Decimal.uint) :
  d <> Decimal.Nil ->
  Js.parseInt (NilEmpty.string_of_uint d) = Some (Z.of_uint d).
Proof.
move=> Hd; rewrite /Js.parseInt trimStart_string_of_uint.
have -> : match NilEmpty.string_of_uint d with
          | String "-"%char r => (true, r)
          | String "+"%char r => (false, r)
          | _ => (false, NilEmpty.string_of_uint d)
          end = (false, NilEmpty.string_of_uint d) by case: d {Hd}.
rewrite /= digitPrefix_string_of_uint.
have -> : NilZero.uint_of_string (NilEmpty.string_of_uint d) = Some d.
  by case: d Hd => //= *; rewrite NilEmpty.usu.
by [].
Qed.

(** What [toString] wrote, [parseInt] reads back. *)
Lemma parseInt_toString (n : Z) : Js.parseInt (Js.toString n) = Some n.
Proof.
case: n => [|p|p] //; rewrite /Js.toString /=.
- have Hnil := DecimalPos.Unsigned.to_uint_nonnil p.
  have -> : NilZero.string_of_uint (Pos.to_uint p)
            = NilEmpty.string_of_uint (Pos.to_uint p).
    by case: (Pos.to_uint p) Hnil.
  rewrite parseInt_digits // /Z.of_uint DecimalPos.Unsigned.of_to.
  by [].
- have Hnil := DecimalPos.Unsigned.to_uint_nonnil p.
  have -> : NilZero.string_of_uint (Pos.to_uint p)
            = NilEmpty.string_of_uint (Pos.to_uint p).
    by case: (Pos.to_uint p) Hnil.
  rewrite /Js.parseInt /= digitPrefix_string_of_uint.
  have -> : NilZero.uint_of_string (NilEmpty.string_of_uint (Pos.to_uint p))
            = Some (Pos.to_uint p).
    by case: (Pos.to_uint p) Hnil => //= *; rewrite NilEmpty.usu.
  by rewrite /Z.of_uint DecimalPos.Unsigned.of_to.
Qed.

Lemma toString_nonempty (n : Z) : Js.toString n <> EmptyString.
Proof.
case: n => [|p|p] //; rewrite /Js.toString /=.
by case: (Pos.to_uint p) (DecimalPos.Unsigned.to_uint_nonnil p).
Qed.

Lemma checkCriticalOrders_none (h : Host) (orders : seq ServiceOrder)
    (st : AlertState) :
  ~~ hasCritical h orders -> checkCriticalOrders h orders st = (st, [::]).
Proof. by rewrite /hasCritical /checkCriticalOrders => /negbTE ->. Qed.

Lemma checkCriticalOrders_paused (h : Host) (orders : seq ServiceOrder)
    (st : AlertState) (t : Z) :
  lastExpirationAlertTime st = Some (Js.toString t) ->
  (Date_now h - t <= FIVE_HOURS)%Z ->
  checkCriticalOrders h orders st = (st, [::]).
Proof.
move=> Hlast /Z.ltb_ge Hnow; rewrite /checkCriticalOrders Hlast.
case: (0 < _) => //.
case Hs: (Js.toString t) => [|c r]; first by case: (toString_nonempty Hs).
by rewrite -Hs parseInt_toString Hnow.
Qed.

Lemma checkCriticalOrders_first (h : Host) (orders : seq ServiceOrder)
    (st : AlertState) :
  hasCritical h orders -> lastExpirationAlertTime st = None ->
  checkCriticalOrders h orders st = (alertedAt h orders, [:: alertFor h orders]).
Proof. by rewrite /hasCritical /checkCriticalOrders => -> ->. Qed.

Lemma checkCriticalOrders_due (h : Host) (orders : seq ServiceOrder)
    (st : AlertState) (t : Z) :
  hasCritical h orders ->
  lastExpirationAlertTime st = Some (Js.toString t) ->
  (FIVE_HOURS < Date_now h - t)%Z ->
  checkCriticalOrders h orders st = (alertedAt h orders, [:: alertFor h orders]).
Proof.
rewrite /hasCritical /checkCriticalOrders => -> Hlast /Z.ltb_lt Hnow.
rewrite Hlast.
case Hs: (Js.toString t) => [|c r]; first by case: (toString_nonempty Hs).
by rewrite -Hs parseInt_toString Hnow.
Qed.

(** However many passes fall into the pause, none of them raises the alert
    or touches the stored time. *)
Lemma runPasses_paused (passes : seq (Host * seq ServiceOrder))
    (st : AlertState) (t : Z) :
  lastExpirationAlertTime st = Some (Js.toString t) ->
  all (withinPause t) passes ->
  runPasses passes st = (st, [::]).
Proof.
move=> Hlast; elim: passes => [|[h orders] passes IH] //= /andP [Hh Hall].
have Hle : (Date_now h - t <= FIVE_HOURS)%Z by apply/Z.leb_le.
rewrite (checkCriticalOrders_paused orders Hlast Hle) /=.
by rewrite IH.
Qed.

Lemma runPasses_cat (p1 p2 : seq (Host * seq ServiceOrder)) (st : AlertState) :
  runPasses (p1 ++ p2) st =
  ((runPasses p2 (runPasses p1 st).1).1,
   (runPasses p1 st).2 ++ (runPasses p2 (runPasses p1 st).1).2).
Proof.
elim: p1 st => [|[h orders] p1 IH] st /=; first by case: (runPasses p2 st).
by rewrite IH /= catA.
Qed.

(** C6. A pass that finds critical orders less than five hours after the
    alert was last raised (the time kept under [lastExpirationAlertTime])
    raises nothing and leaves the stored time alone; a pass that finds
    critical orders when no alert was raised yet, or more than five hours
    after the last one, raises exactly one alert, carrying the count and
    the client names, and stores the current time.  So after a first alert
    every pass within five hours is silent, and a later pass beyond the five
    hours, with orders still critical, raises the alert again. *)
Theorem checkCriticalOrders_five_hour_pause :
  (forall (h : Host) (orders : seq ServiceOrder) (st : AlertState) (t : Z),
     hasCritical h orders ->
     lastExpirationAlertTime st = Some (Js.toString t) ->
     (Date_now h - t < FIVE_HOURS)%Z ->
     checkCriticalOrders h orders st = (st, [::])) /\
  (forall (h : Host) (orders : seq ServiceOrder) (st : AlertState),
     hasCritical h orders ->
     (lastExpirationAlertTime st = None \/
      exists2 t, lastExpirationAlertTime st = Some (Js.toString t)
               & (FIVE_HOURS < Date_now h - t)%Z) ->
     checkCriticalOrders h orders st =
       ({| lastExpirationAlertTime := Some (Js.toString (Date_now h));
           urgentAlert := alertFor h orders |}, [:: alertFor h orders])) /\
  (forall (h1 h3 : Host) (orders1 orders3 : seq ServiceOrder)
          (between : seq (Host * seq ServiceOrder)) (st : AlertState),
     lastExpirationAlertTime st = None ->
     hasCritical h1 orders1 ->
     all (withinPause (Date_now h1)) between ->
     hasCritical h3 orders3 ->
     (FIVE_HOURS < Date_now h3 - Date_now h1)%Z ->
     runPasses ((h1, orders1) :: between ++ [:: (h3, orders3)]) st =
       (alertedAt h3 orders3, [:: alertFor h1 orders1; alertFor h3 orders3])).
Proof.
split; last split.
- move=> h orders st t _ Hlast Hnow.
  by apply: (checkCriticalOrders_paused _ Hlast); lia.
- move=> h orders st Hc [Hnone | [t Hlast Hnow]].
    exact: checkCriticalOrders_first.
  exact: (checkCriticalOrders_due Hc Hlast).
- move=> h1 h3 orders1 orders3 between st Hnone Hc1 Hall Hc3 Hnow /=.
  rewrite (checkCriticalOrders_first Hc1 Hnone) /= runPasses_cat.
  rewrite (@runPasses_paused between _ (Date_now h1)) //=.
  by rewrite (@checkCriticalOrders_due _ _ _ (Date_now h1)).
Qed.

(** ** The list view: filter and sort *)

Lemma mayPrecede_pickupNotAfter :
  {in wellDated &, mayPrecede =2 pickupNotAfter}.
Proof.
move=> a b; rewrite !unfold_in /mayPrecede /pickupNotAfter /comparePickup /pickupTime.
case: (Js.Date_parse _) => // x _; case: (Js.Date_parse _) => // y _.
by apply/idP/idP => /Z.leb_le H; apply/Z.leb_le; lia.
Qed.

Lemma mayPrecede_total : {in wellDated &, total mayPrecede}.
Proof.
move=> a b Ha Hb; rewrite !mayPrecede_pickupNotAfter //.
move: Ha Hb; rewrite !unfold_in /pickupNotAfter.
case: (pickupTime a) => // x _; case: (pickupTime b) => // y _.
by apply/orP; case: (Z.le_gt_cases x y) => H; [left | right]; apply/Z.leb_le; lia.
Qed.

Lemma mayPrecede_trans : {in wellDated & &, transitive mayPrecede}.
Proof.
move=> b a c Hb Ha Hc; rewrite !mayPrecede_pickupNotAfter //.
move: Ha Hb Hc; rewrite !unfold_in /pickupNotAfter.
case: (pickupTime a) => // x _; case: (pickupTime b) => // y _.
case: (pickupTime c) => // z _.
by move=> /Z.leb_le H1 /Z.leb_le H2; apply/Z.leb_le; lia.
Qed.

(** Orders of one pickupDate are in order already, whichever way they
    stand. *)
Lemma sameDate_sorted (d : string) (s : seq ServiceOrder) :
  all wellDated s -> all (fun o => String.eqb (pickupDate o) d) s ->
  sorted mayPrecede s.
Proof.
move=> Hw Hd; apply: pairwise_sorted.
elim: s Hw Hd => [|a s IH] //= /andP [Ha Hw] /andP [Hda Hd].
rewrite IH // andbT.
elim: s Hw Hd {IH} => [|b s IH] //= /andP [Hb Hw] /andP [Hdb Hd].
rewrite IH // andbT mayPrecede_pickupNotAfter //.
move: Ha; rewrite /wellDated /pickupNotAfter /pickupTime.
move/String.eqb_spec: Hda => ->; move/String.eqb_spec: Hdb => ->.
by case: (Js.Date_parse d) => // x _; apply/Z.leb_le; lia.
Qed.

Lemma all_filter_keep (T : Type) (P a : pred T) (s : seq T) :
  all P s -> all P (filter a s).
Proof.
by elim: s => [|x s IH] //= /andP [Hx Hs]; case: (a x) => /=; rewrite ?Hx IH.
Qed.

(** C7. Whatever filter is selected, the list shown is sorted by ascending
    pickupDate and holds exactly the orders that pass the filter; the sort
    is stable, so the orders of any one pickupDate stand in the list shown
    as they stood in the unfiltered list.  The pickup dates are calendar
    dates in the form [YYYY-MM-DD], as the specification requires of them. *)
Theorem filteredOrders_sorted_and_stable
    (h : Host) (orders : seq ServiceOrder) (selected : Filter) :
  all wellDated orders ->
  let shown := filteredOrders h orders selected in
  [/\ sorted pickupNotAfter shown,
      forall p : pred ServiceOrder,
        seq.count p shown = seq.count p (filter (matchesFilter h selected) orders)
    & forall d : string,
        [seq o <- shown | String.eqb (pickupDate o) d] =
        [seq o <- orders | String.eqb (pickupDate o) d & matchesFilter h selected o]].
Proof.
move=> Horders shown.
have Hshown : shown = sort mayPrecede (filter (matchesFilter h selected) orders) by [].
have Hw : all wellDated (filter (matchesFilter h selected) orders).
  exact: all_filter_keep.
rewrite {}Hshown {shown}; split.
- rewrite -(eq_in_sorted mayPrecede_pickupNotAfter); first by rewrite all_sort.
  exact: (sort_sorted_in mayPrecede_total).
- by move=> p; rewrite count_sort.
- move=> d; rewrite (filter_sort_in mayPrecede_total mayPrecede_trans) //.
  rewrite (sorted_sort_in mayPrecede_trans).
  + exact: all_filter_keep.
  + apply: (@sameDate_sorted d); first exact: all_filter_keep.
    exact: filter_all.
  + by rewrite -filter_predI.
Qed.

(** ** Role entries of the draft *)

Lemma ServiceType_eqb_refl (type : ServiceType) : ServiceType_eqb type type.
Proof. by case: type. Qed.

Lemma ServiceType_eqb_eq (a b : ServiceType) : ServiceType_eqb a b -> a = b.
Proof. by case: a; case: b. Qed.

Lemma role_of_others (type : ServiceType) (s : seq ExtraService) :
  [seq e <- [seq e <- s | ~~ isRole type e] | isRole type e] = [::].
Proof.
by elim: s => [|e s IH] //=; case H: (isRole type e) => //=; rewrite H.
Qed.

Lemma others_of_others (type : ServiceType) (s : seq ExtraService) :
  [seq e <- [seq e <- s | ~~ isRole type e] | ~~ isRole type e]
  = [seq e <- s | ~~ isRole type e].
Proof. by rewrite filter_id. Qed.

(** A negative number is below 0, is not [NaN], and [Math.max] answers 0. *)
Lemma Math_max_negative (value : number) :
  (value <? 0)%float = true -> Js.Math_max 0%float value = 0%float.
Proof.
rewrite /Js.Math_max /is_nan !FloatAxioms.eqb_spec !FloatAxioms.ltb_spec.
have -> : Prim2SF 0%float = S754_zero false by [].
case: (Prim2SF value) => [s|s||s m e] //=; case: s => //= _.
by rewrite /SFeqb /= Z.compare_refl Pos.compare_cont_refl.
Qed.

Lemma updateRole_unfold (now : Z) (extras : seq ExtraService)
    (type : ServiceType) (field : RoleField) (value : number) :
  updateRole now extras type field value =
  let others := [seq e <- extras | ~~ isRole type e] in
  if (0 <? nextQty extras type field value)%float
     || (0 <? nextCost extras type field value)%float
  then others ++
       [:: {| extra_id := ("auto-" ++ typeText type ++ "-" ++ Js.toString now)%string;
              extra_type := type;
              extra_name :=
                match findRole type with
                | Some c => if label c is EmptyString then typeText type else label c
                | None => typeText type
                end;
              qty := nextQty extras type field value;
              cost := nextCost extras type field value |}]
  else others.
Proof. by rewrite /updateRole /nextQty /nextCost; case: field. Qed.

Lemma updateRole_others (now : Z) (extras : seq ExtraService)
    (type type' : ServiceType) (field : RoleField) (value : number) :
  type' <> type ->
  [seq e <- updateRole now extras type field value | isRole type' e]
  = [seq e <- extras | isRole type' e].
Proof.
move=> Hne; rewrite updateRole_unfold /=.
have Hothers : [seq e <- [seq e <- extras | ~~ isRole type e] | isRole type' e]
               = [seq e <- extras | isRole type' e].
  rewrite -filter_predI; apply: eq_filter => e /=.
  rewrite /isRole; move: (extra_type e) => t.
  by case: t; case: type Hne; case: type' => //= Hne; case: Hne.
case: ifP => _ //; rewrite filter_cat Hothers /= /isRole /=.
have -> : ServiceType_eqb type type' = false.
  by case: type Hne {Hothers}; case: type' => //= Hne; case: Hne.
by rewrite cats0.
Qed.

Lemma updateRole_role (now : Z) (extras : seq ExtraService)
    (type : ServiceType) (field : RoleField) (value : number) :
  [seq e <- updateRole now extras type field value | isRole type e] =
  if (0 <? nextQty extras type field value)%float
     || (0 <? nextCost extras type field value)%float
  then [:: {| extra_id := ("auto-" ++ typeText type ++ "-" ++ Js.toString now)%string;
              extra_type := type;
              extra_name :=
                match findRole type with
                | Some c => if label c is EmptyString then typeText type else label c
                | None => typeText type
                end;
              qty := nextQty extras type field value;
              cost := nextCost extras type field value |}]
  else [::].
Proof.
rewrite updateRole_unfold /=; case: ifP => _; last exact: role_of_others.
by rewrite filter_cat role_of_others /= /isRole /= ServiceType_eqb_refl.
Qed.

Lemma roleCount_updateRole (now : Z) (extras : seq ExtraService)
    (type type' : ServiceType) (field : RoleField) (value : number) :
  roleCount type' extras <= 1 ->
  roleCount type' (updateRole now extras type field value) <= 1.
Proof.
rewrite /roleCount -!size_filter.
case Htype: (ServiceType_eqb type' type).
  rewrite (ServiceType_eqb_eq Htype) updateRole_role => _.
  by case: ifP.
rewrite updateRole_others //.
by move=> H; rewrite H ServiceType_eqb_refl in Htype.
Qed.

Lemma getRoleData_items (extras : seq ExtraService) (type : ServiceType) :
  getRoleData extras type =
  let items := [seq e <- extras | isRole type e] in
  {| totalQty := foldl (fun acc curr => (acc + qty curr)%float) 0%float items;
     unitCost :=
       match items with
       | first :: _ => cost first
       | [::] => orZero (omap defaultCost (findRole type))
       end |}.
Proof. by []. Qed.

Lemma roleCount_writes (writes : seq RoleWrite) (extras : seq ExtraService)
    (type : ServiceType) :
  roleCount type extras <= 1 ->
  roleCount type (foldl applyWrite extras writes) <= 1.
Proof.
elim: writes extras => [|w writes IH] extras //= H.
by apply: IH; apply: roleCount_updateRole.
Qed.

Lemma totalQty_after_zero_qty (now : Z) (extras : seq ExtraService)
    (type : ServiceType) :
  totalQty (getRoleData (updateRole now extras type field_qty 0%float) type)
  = 0%float.
Proof. by rewrite getRoleData_items updateRole_role; case: ifP. Qed.

Lemma unitCost_after_zero_cost (now : Z) (extras : seq ExtraService)
    (type : ServiceType) :
  unitCost (getRoleData (updateRole now extras type field_cost 0%float) type)
  = 0%float.
Proof.
rewrite getRoleData_items updateRole_role; case: ifP => _ //=.
by case: type.
Qed.

Lemma zero_qty_then_cost (now1 now2 : Z) (extras : seq ExtraService)
    (type : ServiceType) :
  roleCount type
    (updateRole now2 (updateRole now1 extras type field_qty 0%float)
       type field_cost 0%float) = 0.
Proof.
rewrite /roleCount -size_filter updateRole_role /nextQty /nextCost.
by rewrite totalQty_after_zero_qty.
Qed.

Lemma zero_cost_then_qty (now1 now2 : Z) (extras : seq ExtraService)
    (type : ServiceType) :
  roleCount type
    (updateRole now2 (updateRole now1 extras type field_cost 0%float)
       type field_qty 0%float) = 0.
Proof.
rewrite /roleCount -size_filter updateRole_role /nextQty /nextCost.
by rewrite unitCost_after_zero_cost.
Qed.

(** C5. After a write of [updateRole] for a role the extras hold at most
    one entry of that role, and the entries of the other types are the
    ones that were there.  When the resulting quantity or the resulting
    unit cost is above 0, the role's only entry carries exactly these two
    values, replacing whatever entries the role had; when both are 0 the
    role has no entry left.  A negative input is taken as 0.  So a role
    that has at most one entry keeps at most one through any series of
    writes, as every role does on a new draft;
    quantity 3, then cost 0, then cost 50 leaves one entry with quantity 3
    and cost 50; and setting quantity and cost to 0, in either order,
    removes the role's entry. *)
Theorem updateRole_keeps_one_entry_per_role :
  (forall (now : Z) (extras : seq ExtraService) (type : ServiceType)
          (field : RoleField) (value : number),
     let result := updateRole now extras type field value in
     let newQty := nextQty extras type field value in
     let newCost := nextCost extras type field value in
     [/\ roleCount type result <= 1,
         [seq e <- result | ~~ isRole type e] = [seq e <- extras | ~~ isRole type e],
         (0 <? newQty)%float || (0 <? newCost)%float ->
           exists entry : ExtraService,
             [/\ [seq e <- result | isRole type e] = [:: entry],
                 qty entry = newQty & cost entry = newCost]
       & newQty = 0%float -> newCost = 0%float -> roleCount type result = 0]) /\
  (forall (extras : seq ExtraService) (type : ServiceType) (field : RoleField)
          (value : number),
     (value <? 0)%float = true ->
     (if field is field_qty then nextQty extras type field value
      else nextCost extras type field value) = 0%float) /\
  (forall (writes : seq RoleWrite) (extras : seq ExtraService) (type : ServiceType),
     roleCount type extras <= 1 ->
     roleCount type (foldl applyWrite extras writes) <= 1) /\
  (forall (writes : seq RoleWrite) (type : ServiceType),
     roleCount type (foldl applyWrite [::] writes) <= 1) /\
  (forall now1 now2 now3 : Z,
     updateRole now3
       (updateRole now2 (updateRole now1 [::] helper field_qty 3%float)
          helper field_cost 0%float)
       helper field_cost 50%float
     = [:: {| extra_id := ("auto-helper-" ++ Js.toString now3)%string;
              extra_type := helper; extra_name := "Ajudantes";
              qty := 3%float; cost := 50%float |}]) /\
  (forall (now1 now2 : Z) (extras : seq ExtraService) (type : ServiceType),
     roleCount type
       (updateRole now2 (updateRole now1 extras type field_qty 0%float)
          type field_cost 0%float) = 0 /\
     roleCount type
       (updateRole now2 (updateRole now1 extras type field_cost 0%float)
          type field_qty 0%float) = 0).
Proof.
split; [|split; [|split; [|split; [|split]]]].
- move=> now extras type field value result newQty newCost.
  have Hrole := updateRole_role now extras type field value.
  split.
  + by rewrite /roleCount -size_filter Hrole; case: ifP.
  + rewrite /result updateRole_unfold /=; case: ifP => _.
      by rewrite filter_cat others_of_others /= /isRole /= ServiceType_eqb_refl cats0.
    exact: others_of_others.
  + rewrite -/(nextQty _ _ _ _) => Hpos; rewrite /result Hrole Hpos.
    by eexists; split; first reflexivity.
  + move=> Hq Hc; rewrite /roleCount -size_filter Hrole.
    by rewrite -/newQty -/newCost Hq Hc.
- move=> extras type field value Hneg.
  by case: field; rewrite /nextQty /nextCost Math_max_negative.
- by move=> writes extras type; apply: roleCount_writes.
- by move=> writes type; apply: roleCount_writes.
- by move=> now1 now2 now3.
- move=> now1 now2 extras type; split.
    exact: zero_qty_then_cost.
  exact: zero_cost_then_qty.
Qed.

(** ** The draft in the form *)

Lemma ObjRef_eqb_refl (r : ObjRef) : ObjRef_eqb r r.
Proof. by case: r => //= k. Qed.

Lemma stageValue_inj (p q : ProgressStage) : stageValue p = stageValue q -> p = q.
Proof. by case: p; case: q. Qed.

Lemma withProgress_id (o : ServiceOrder) : withProgress o (progress o) = o.
Proof. by case: o. Qed.

(** The progress effect stores the derived stage; the rest of the draft
    stays. *)
Lemma syncEffect_formData (rendered : ServiceOrder) (s : State) :
  progress rendered = progress (formData s) ->
  formData (syncEffect rendered s)
  = withProgress (formData s) (calculateProgress rendered).
Proof.
rewrite /syncEffect => Hp; case: Z.eqb_spec => [/stageValue_inj H|_] //=.
by rewrite -H Hp withProgress_id.
Qed.

Lemma syncEffect_props (rendered : ServiceOrder) (s : State) :
  props (syncEffect rendered s) = props s.
Proof. by rewrite /syncEffect; case: (_ =? _)%Z. Qed.

Lemma syncEffect_ref (rendered : ServiceOrder) (s : State) :
  paymentStatusRef (syncEffect rendered s) = paymentStatusRef s.
Proof. by rewrite /syncEffect; case: (_ =? _)%Z. Qed.

Lemma syncEffect_literals (rendered : ServiceOrder) (s : State) :
  literals (syncEffect rendered s) = literals s.
Proof. by rewrite /syncEffect; case: (_ =? _)%Z. Qed.

Lemma initEffect_props (p : Props) (s : State) : props (initEffect p s) = props s.
Proof. by rewrite /initEffect; case: (initialData p) => [[k o]|]. Qed.

Lemma initEffect_literals (p : Props) (s : State) :
  literals (initEffect p s) = literals s.
Proof. by rewrite /initEffect; case: (initialData p) => [[k o]|]. Qed.

Lemma commitEffects_props (s : State) : props (commitEffects s) = props s.
Proof.
rewrite /commitEffects /=.
by do 2![case: ifP => _]; rewrite ?syncEffect_props ?initEffect_props.
Qed.

Lemma commitEffects_literals (s : State) : literals (commitEffects s) = literals s.
Proof.
rewrite /commitEffects /=.
by do 2![case: ifP => _]; rewrite ?syncEffect_literals ?initEffect_literals.
Qed.

(** A round in which the first effect has nothing to do. *)
Lemma commitEffects_seeded (s : State) :
  initDeps s = Some (initDepsOf (props s)) ->
  commitEffects s =
  let s2 :=
    if (if syncDeps s is Some r then ~~ ObjRef_eqb r (paymentStatusRef s) else true)
    then syncEffect (formData s) s else s in
  {| props := props s2; formData := formData s2;
     paymentStatusRef := paymentStatusRef s2; extras := extras s2;
     initDeps := Some (initDepsOf (props s));
     syncDeps := Some (paymentStatusRef s);
     literals := literals s2 |}.
Proof. by rewrite /commitEffects => ->; rewrite eqxx. Qed.

Lemma commitEffects_atRest (s : State) :
  initDeps s = Some (initDepsOf (props s)) ->
  syncDeps s = Some (paymentStatusRef s) ->
  commitEffects s = s.
Proof.
move=> Hi Hs; rewrite (commitEffects_seeded Hi) Hs ObjRef_eqb_refl /= -Hi -Hs.
by case: s {Hi Hs}.
Qed.

Lemma commitEffects_ref (s : State) :
  initDeps s = Some (initDepsOf (props s)) ->
  paymentStatusRef (commitEffects s) = paymentStatusRef s.
Proof.
move=> Hi; rewrite (commitEffects_seeded Hi) /=.
by case: ifP => _; rewrite ?syncEffect_ref.
Qed.

Lemma commitEffects_initDeps (s : State) :
  initDeps (commitEffects s) = Some (initDepsOf (props (commitEffects s))).
Proof. by rewrite commitEffects_props. Qed.

(** Two rounds of effects bring the component to rest: a third round
    changes nothing. *)
Lemma commitEffects_settle (s : State) :
  commitEffects (settle s) = settle s.
Proof.
rewrite /settle; move: (commitEffects_initDeps s).
move: (commitEffects s) => s1 Hi1.
apply: commitEffects_atRest; first exact: commitEffects_initDeps.
by rewrite (commitEffects_ref Hi1).
Qed.

Lemma ObjRef_eqb_eq (a b : ObjRef) : ObjRef_eqb a b -> a = b.
Proof. by case: a => [|j|j]; case: b => [|k|k] //= /eqP ->. Qed.

Lemma initEffect_fresh (p : Props) (s : State) : literalsFresh (initEffect p s).
Proof. by rewrite /initEffect; case: (initialData p) => [[k o]|]. Qed.

Lemma commitEffects_fresh (s : State) :
  literalsFresh s -> literalsFresh (commitEffects s).
Proof.
rewrite /literalsFresh /commitEffects /= => H.
do 2![case: ifP => _]; rewrite ?syncEffect_ref ?syncEffect_literals //;
  exact: initEffect_fresh.
Qed.

(** After the effects have settled the component is at rest. *)
Lemma atRest_settle (s : State) : literalsFresh s -> atRest (settle s).
Proof.
move=> Hf; rewrite /atRest /settle.
move: (commitEffects_initDeps s) (commitEffects_fresh Hf).
move: (commitEffects s) => s1 Hi1 Hf1.
apply/and3P; split.
- by rewrite commitEffects_initDeps.
- by rewrite (commitEffects_ref Hi1) ObjRef_eqb_refl.
- exact: (commitEffects_fresh Hf1).
Qed.

Lemma atRest_mount (p : Props) : atRest (mount p).
Proof. exact: atRest_settle. Qed.

Lemma atRest_setProps (p : Props) (s : State) : atRest s -> atRest (setProps p s).
Proof. by case/and3P=> _ _ Hf; apply: atRest_settle. Qed.

Lemma atRest_onPaymentChange (key : PaymentKey) (checked : bool) (s : State) :
  atRest (onPaymentChange key checked s).
Proof. by apply: atRest_settle; rewrite /literalsFresh /=. Qed.

Lemma atRest_onClientNameChange (v : string) (s : State) :
  atRest s -> atRest (onClientNameChange v s).
Proof. by case/and3P=> _ _ Hf; apply: atRest_settle. Qed.

Lemma atRest_onRoleChange (now : Z) (type : ServiceType) (field : RoleField)
    (value : number) (s : State) :
  atRest s -> atRest (onRoleChange now type field value s).
Proof. by case/and3P=> _ _ Hf; apply: atRest_settle. Qed.

(** Between two events the form is at rest, whatever happened before. *)
Lemma atRest_formAfter (p : Props) (events : seq FormEvent) :
  atRest (formAfter p events).
Proof.
rewrite /formAfter; move: (atRest_mount p); move: (mount p) => s.
elim: events s => [|e events IH] s Hs //=; apply: IH.
case: e => [q|key checked|v|now type field value] /=.
- exact: atRest_setProps.
- exact: atRest_onPaymentChange.
- exact: atRest_onClientNameChange.
- exact: atRest_onRoleChange.
Qed.

(** A write of a payment flag: the draft gets the new flags and the stage
    derived from them. *)
Lemma onPaymentChange_formData (key : PaymentKey) (checked : bool) (s : State) :
  atRest s ->
  formData (onPaymentChange key checked s) =
  let written := withPaymentStatus (formData s) (writeFlag key checked (flagsOf s)) in
  withProgress written (calculateProgress written).
Proof.
case/and3P=> /eqP Hi Hs Hf.
rewrite /onPaymentChange /settle.
set s0 := {| props := _ |}.
have Hi0 : initDeps s0 = Some (initDepsOf (props s0)) by [].
have Hrun : (if syncDeps s0 is Some r then ~~ ObjRef_eqb r (paymentStatusRef s0)
             else true) = true.
  rewrite /s0 /=; case: (syncDeps s) Hs => [r|] // /ObjRef_eqb_eq ->.
  by case: (paymentStatusRef s) Hf => //= k; rewrite ltn_neqAle => /andP [].
rewrite commitEffects_atRest.
- exact: commitEffects_initDeps.
- by rewrite (commitEffects_ref Hi0).
- by rewrite (commitEffects_seeded Hi0) Hrun /= syncEffect_formData.
Qed.

(** C2. The derived progress depends on the three payment flags only and
    follows the priority delivery, pickup, deposit: 100, else 60, else 20,
    else the unset value 0; deposit and delivery paid with pickup unpaid
    gives 100.  A write of a payment flag in the form stores the stage
    derived from the flags as written, whatever progress was stored. *)
Theorem calculateProgress_priority_and_sync :
  (forall formData : ServiceOrder,
     stageValue (calculateProgress formData) =
     if delivery (paymentStatus formData) then 100%Z
     else if pickup (paymentStatus formData) then 60%Z
     else if deposit (paymentStatus formData) then 20%Z
     else 0%Z) /\
  (forall a b : ServiceOrder,
     paymentStatus a = paymentStatus b -> calculateProgress a = calculateProgress b) /\
  (forall formData : ServiceOrder,
     paymentStatus formData = {| deposit := true; pickup := false; delivery := true |} ->
     stageValue (calculateProgress formData) = 100%Z) /\
  (forall (s : State) (key : PaymentKey) (checked : bool),
     atRest s ->
     let s' := onPaymentChange key checked s in
     [/\ flagsOf s' = writeFlag key checked (flagsOf s),
         progress (formData s') = calculateProgress (formData s')
       & atRest s']) /\
  (forall (p : Props) (events : seq FormEvent) (key : PaymentKey) (checked : bool),
     let s := formAfter p events in
     let s' := onPaymentChange key checked s in
     flagsOf s' = writeFlag key checked (flagsOf s) /\
     progress (formData s') = calculateProgress (formData s')).
Proof.
split; [|split; [|split; [|split]]].
- by move=> fd; rewrite /calculateProgress; do 3![case: ifP => _ //].
- by move=> a b; rewrite /calculateProgress => ->.
- by move=> fd; rewrite /calculateProgress => ->.
- move=> s key checked Hs s'; split; last exact: atRest_onPaymentChange.
    by rewrite /flagsOf /s' onPaymentChange_formData.
  by rewrite /s' onPaymentChange_formData.
- move=> p events key checked s s'.
  have Hs : atRest s by apply: atRest_formAfter.
  by rewrite /flagsOf /s' (onPaymentChange_formData key checked Hs).
Qed.

(** Opening the form for a new order when the draft's [paymentStatus]
    object is [emptyOrder]'s own: the first effect seeds [emptyOrder] and
    the progress effect has no reason to run. *)
Lemma setProps_new_formData (s : State) :
  atRest s -> paymentStatusRef s = RefEmptyOrder ->
  initDepsOf (props s) <> initDepsOf newOrderProps ->
  formData (setProps newOrderProps s) = emptyOrder.
Proof.
case/and3P=> /eqP Hi Hs _ Hr Hne.
rewrite /setProps /settle.
set s0 := {| props := _ |}.
have H1 : commitEffects s0 =
          {| props := newOrderProps; formData := emptyOrder;
             paymentStatusRef := RefEmptyOrder; extras := [::];
             initDeps := Some (initDepsOf newOrderProps);
             syncDeps := Some RefEmptyOrder; literals := literals s |}.
  rewrite /commitEffects /s0 /= Hi Hr.
  have -> : (Some (initDepsOf (props s)) != Some (initDepsOf newOrderProps)) = true.
    by apply/negP => /eqP H; apply: Hne; apply: Some_inj.
  by case: (syncDeps s) Hs => [r|] // /ObjRef_eqb_eq ->; rewrite Hr.
by rewrite H1 commitEffects_atRest.
Qed.

(** Opening the form for a new order when the draft's [paymentStatus]
    object is another one, the one of an order or one a checkbox built:
    the first effect seeds [emptyOrder], which replaces that object, so
    the progress effect runs on the seeded draft and stores the stage
    derived from its flags, 0. *)
Lemma setProps_new_after_order (s : State) :
  atRest s -> paymentStatusRef s <> RefEmptyOrder ->
  initDepsOf (props s) <> initDepsOf newOrderProps ->
  formData (setProps newOrderProps s) = withProgress emptyOrder Stage0.
Proof.
case/and3P=> /eqP Hi Hs _ Hr Hne.
have Hsync : syncDeps s = Some (paymentStatusRef s).
  by case: (syncDeps s) Hs => [r|] // /ObjRef_eqb_eq ->.
have Hother : ObjRef_eqb (paymentStatusRef s) RefEmptyOrder = false.
  by case: (paymentStatusRef s) Hr.
rewrite /setProps /settle.
set s0 := {| props := _ |}.
have H1 : commitEffects s0 =
          {| props := newOrderProps; formData := emptyOrder;
             paymentStatusRef := RefEmptyOrder; extras := [::];
             initDeps := Some (initDepsOf newOrderProps);
             syncDeps := Some (paymentStatusRef s); literals := literals s |}.
  rewrite /commitEffects /s0 /= Hi Hsync ObjRef_eqb_refl /=.
  have -> // : (Some (initDepsOf (props s)) != Some (initDepsOf newOrderProps)) = true.
  by apply/negP => /eqP H; apply: Hne; apply: Some_inj.
by rewrite H1 commitEffects_seeded //= Hother.
Qed.

(** C8.  [emptyOrder], the seed of a new draft, has all status and payment
    flags false and progress 20, where the derivation rule gives 0, and
    the first effect seeds exactly it.  Whether the draft still shows 20
    once the effects have run depends on the [paymentStatus] object the
    form held before: when it was [emptyOrder]'s own (the first opening,
    and the opening after a saved edit) the draft is [emptyOrder], progress
    20; when it was any other (an edit closed without saving) the progress
    effect overwrites the seed and the draft shows progress 0, all flags
    false, before any edit. *)
Theorem new_draft_progress_depends_on_the_form_before :
  [/\ paymentStatus emptyOrder
        = {| deposit := false; pickup := false; delivery := false |} /\
      [/\ isContractSigned emptyOrder = false, isPostedFretebras emptyOrder = false,
          isCostsPaid emptyOrder = false, stageValue (progress emptyOrder) = 20%Z
        & stageValue (calculateProgress emptyOrder) = 0%Z],
      forall (s : State) (open : bool),
        let seeded := initEffect {| isOpen := open; initialData := None |} s in
        formData seeded = emptyOrder /\ extras seeded = [::],
      forall s : State,
        atRest s -> paymentStatusRef s = RefEmptyOrder ->
        initDepsOf (props s) <> initDepsOf newOrderProps ->
        formData (setProps newOrderProps s) = emptyOrder,
      forall s : State,
        atRest s -> paymentStatusRef s <> RefEmptyOrder ->
        initDepsOf (props s) <> initDepsOf newOrderProps ->
        let draft := formData (setProps newOrderProps s) in
        [/\ draft = withProgress emptyOrder Stage0,
            paymentStatus draft
            = {| deposit := false; pickup := false; delivery := false |},
            stageValue (progress draft) = 0%Z
          & (stageValue (progress draft) =? 20)%Z = false]
    & let opened := setProps (editProps true 1 existingOrder) (mount closedProps) in
      let firstOpening := setProps newOrderProps (mount closedProps) in
      let afterSavedEdit := setProps newOrderProps (setProps closedProps opened) in
      let afterClosedEdit :=
        setProps newOrderProps (setProps (editProps false 1 existingOrder) opened) in
      [/\ stageValue (progress (formData firstOpening)) = 20%Z,
          stageValue (progress (formData afterSavedEdit)) = 20%Z,
          stageValue (progress (formData afterClosedEdit)) = 0%Z
        & flagsOf afterClosedEdit
          = {| deposit := false; pickup := false; delivery := false |}]].
Proof.
split=> //; first exact: setProps_new_formData.
by move=> s Hs Hr Hne draft; rewrite /draft (setProps_new_after_order Hs Hr Hne).
Qed.

(** The witness of C8: the form opened on an order, closed without saving
    and opened for a new order. *)
Lemma new_draft_progress_depends_on_the_form_before_witness :
  let closedEdit :=
    setProps (editProps false 1 existingOrder)
      (setProps (editProps true 1 existingOrder) (mount closedProps)) in
  formData (setProps newOrderProps closedEdit) = withProgress emptyOrder Stage0 /\
  stageValue (progress (formData (setProps newOrderProps closedEdit))) = 0%Z.
Proof.
have [_ _ _ H _] := new_draft_progress_depends_on_the_form_before.
move=> closedEdit.
have Hrest : atRest closedEdit by [].
have Href : paymentStatusRef closedEdit <> RefEmptyOrder by [].
have Hdeps : initDepsOf (props closedEdit) <> initDepsOf newOrderProps by [].
by have [H1 _ H3 _] := H closedEdit Hrest Href Hdeps.
Defined.

(** ** Submission *)

(** C9, evaluated.  [handleSubmit] hands the draft to [onSubmit] whatever
    the client name is, and [onSubmit] starts with the gateway call.  A new
    form saved untouched sends an order without client name to
    [createServiceOrder]. *)
Theorem handleSubmit_reaches_gateway_without_name :
  (forall (h : SubmitHost) (s : State),
     clickSave h s =
       [:: (if initialData (props s) is Some _ then updateServiceOrder
            else createServiceOrder) (handleSubmit h s)] /\
     clientName (handleSubmit h s) = clientName (formData s)) /\
  (let s := setProps newOrderProps (mount closedProps) in
   clientName (formData s) = EmptyString /\
   clickSave submitHost s =
     [:: createServiceOrder
           {| id := "OS-2024-42"; clientName := ""; whatsapp := ""; origin := "";
              destination := ""; isContractSigned := false;
              isPostedFretebras := false;
              paymentStatus := {| deposit := false; pickup := false; delivery := false |};
              isCostsPaid := false; progress := Stage20;
              financials := {| totalValue := 0%float; driverCost := 0%float;
                               Types.extras := [::] |};
              pickupDate := ""; deliveryForecast := ""; notes := [::];
              noteTags := "#334155"; createdAt := "2024-06-10T12:00:00.000Z" |}]).
Proof.
split; last by [].
by move=> h s; rewrite /clickSave /onSubmit; case: (initialData _).
Qed.

(** ** Witnesses *)

(** The witness of C2: the delivery box ticked on a new draft. *)
Lemma calculateProgress_priority_and_sync_witness :
  let s := setProps newOrderProps (mount closedProps) in
  let s' := onPaymentChange key_delivery true s in
  [/\ flagsOf s' = writeFlag key_delivery true (flagsOf s),
      progress (formData s') = calculateProgress (formData s')
    & atRest s'].
Proof.
have [_ [_ [_ [H _]]]] := calculateProgress_priority_and_sync.
by apply: (H (setProps newOrderProps (mount closedProps)) key_delivery true).
Defined.

(** The witness of C3: a pickup five days ahead, seen from Sao Paulo. *)
Lemma isOrderCritical_iff_diffDays_le_5_witness :
  let diffDays :=
    Js.ceilDiv (1718420400000 - 1717988400000) (1000 * 60 * 60 * 24) in
  (isOrderCritical mondayNoon (pickupOn "2024-06-15" Stage20) <-> (diffDays <= 5)%Z) /\
  ((diffDays <= 5)%Z <-> (1718420400000 - 1717988400000 <= 5 * Js.msPerDay)%Z).
Proof.
have [_ [H _]] := isOrderCritical_iff_diffDays_le_5.
by apply: (H mondayNoon (pickupOn "2024-06-15" Stage20) 2024%Z 6%Z 15%Z
             1718420400000%Z 1717988400000%Z [::]).
Defined.

(** The witness of C5: a negative quantity typed for the helpers. *)
Lemma updateRole_keeps_one_entry_per_role_witness :
  nextQty [::] helper field_qty (-3)%float = 0%float.
Proof.
have [_ [H _]] := updateRole_keeps_one_entry_per_role.
by apply: (H [::] helper field_qty (-3)%float).
Defined.

(** The witness of C6: an alert at noon, a silent pass one hour later, and
    a second alert six hours after the first. *)
Lemma checkCriticalOrders_five_hour_pause_witness :
  runPasses [:: (mondayNoon, dueSoon); (oneHourLater, dueSoon);
                (sixHoursLater, dueSoon)] noAlertYet =
  (alertedAt sixHoursLater dueSoon,
   [:: alertFor mondayNoon dueSoon; alertFor sixHoursLater dueSoon]).
Proof.
have [_ [_ H]] := checkCriticalOrders_five_hour_pause.
by apply: (H mondayNoon sixHoursLater dueSoon dueSoon
             [:: (oneHourLater, dueSoon)] noAlertYet).
Defined.

(** The witness of C7: three orders of one pickupDate, one of them
    completed, under the filter of the active orders. *)
Lemma filteredOrders_sorted_and_stable_witness :
  let shown := filteredOrders mondayNoon listedOrders FilterActive in
  [/\ sorted pickupNotAfter shown,
      forall p : pred ServiceOrder,
        seq.count p shown
        = seq.count p (filter (matchesFilter mondayNoon FilterActive) listedOrders)
    & forall d : string,
        [seq o <- shown | String.eqb (pickupDate o) d] =
        [seq o <- listedOrders
           | String.eqb (pickupDate o) d & matchesFilter mondayNoon FilterActive o]].
Proof.
exact: (@filteredOrders_sorted_and_stable mondayNoon listedOrders FilterActive isT).
Defined.

(** * Further properties *)

(** ** The list view and its counters *)

(** X1. Each counter of the filter bar is the length of the list its
    filter shows. *)
Theorem counts_are_sizes_of_filteredOrders (h : Host) (orders : seq ServiceOrder) :
  [/\ size (filteredOrders h orders FilterAll) = counts_all (counts h orders),
      size (filteredOrders h orders FilterActive) = counts_active (counts h orders),
      size (filteredOrders h orders FilterCompleted)
        = counts_completed (counts h orders)
    & size (filteredOrders h orders FilterCritical)
        = counts_critical (counts h orders)].
Proof.
by split; rewrite /filteredOrders /Js.sortBy size_sort //= filter_predT.
Qed.

(** ** The countdown badge *)

(** X2. The countdown badge of a card and the criticality test agree: an
    order that is not completed is critical exactly when its badge reads
    late or critical, whatever its pickupDate; a completed order is never
    critical, whatever its badge. *)
Theorem isOrderCritical_agrees_with_countdown (h : Host) (order : ServiceOrder) :
  let status := (ServiceOrderCard.calculate h (pickupDate order)).1 in
  isOrderCritical h order
  = ~~ (stageValue (progress order) =? 100)%Z && isUrgent status.
Proof.
rewrite /isOrderCritical /ServiceOrderCard.calculate /=.
case: (stageValue (progress order) =? 100)%Z => //=.
case: (match nth None _ 0 with Some _ => _ | None => _ end) => [t|] //.
case: (Js.Date_local _ _ _ _) => [n|] //.
move: (Js.ceilDiv _ _) => diff.
case: (Z.ltb_spec diff 0) => H0 /=; first by apply/Z.leb_le; lia.
case: (Z.eqb_spec diff 0) => H1 /=; first by apply/Z.leb_le; lia.
case: (Z.leb_spec diff 5) => H5 //=.
by case: (diff <=? 10)%Z.
Qed.

(** ** The alert *)

Lemma checkCriticalOrders_cases (h : Host) (orders : seq ServiceOrder)
    (st : AlertState) :
  checkCriticalOrders h orders st = (st, [::]) \/
  checkCriticalOrders h orders st = (alertedAt h orders, [:: alertFor h orders]).
Proof.
rewrite /checkCriticalOrders; case: (0 < _); last by left.
case: (lastExpirationAlertTime st) => [[|c r]|]; try by right.
by case: (Js.parseInt _) => [t|]; [case: (_ <? _)%Z; [right | left] | left].
Qed.

(** X3. Passes that all fall within five hours of one another raise the
    alert once at most, whatever the orders, the stored time and the alert
    state they start from. *)
Theorem runPasses_one_alert_per_window
    (passes : seq (Host * seq ServiceOrder)) (st : AlertState) :
  pairwise laterWithinPause passes -> size (runPasses passes st).2 <= 1.
Proof.
elim: passes st => [|[h orders] passes IH] st //= /andP [Hall Hpw].
case: (checkCriticalOrders_cases h orders st) => -> /=; first exact: IH.
by rewrite (@runPasses_paused passes _ (Date_now h)).
Qed.

(** The witness of X3: the alert at noon and the pass one hour later. *)
Lemma runPasses_one_alert_per_window_witness :
  size (runPasses [:: (mondayNoon, dueSoon); (oneHourLater, dueSoon)] noAlertYet).2 <= 1.
Proof.
exact: (@runPasses_one_alert_per_window
          [:: (mondayNoon, dueSoon); (oneHourLater, dueSoon)] noAlertYet isT).
Defined.

(** X4. Dismissing the alert, by its close button or by the click that
    opens the critical filter, hides it and leaves the stored time alone:
    the passes of the running pause stay silent and the alert stays
    hidden.  A pass never hides an alert that is shown and never clears the
    stored time. *)
Theorem dismissUrgentAlert_keeps_the_pause :
  (forall (passes : seq (Host * seq ServiceOrder)) (st : AlertState) (t : Z),
     lastExpirationAlertTime st = Some (Js.toString t) ->
     all (withinPause t) passes ->
     runPasses passes (dismissUrgentAlert st) = (dismissUrgentAlert st, [::]) /\
     runPasses passes (handleUrgentAlertClick st).2
       = (dismissUrgentAlert st, [::]) /\
     show (urgentAlert (dismissUrgentAlert st)) = false) /\
  (forall (h : Host) (orders : seq ServiceOrder) (st : AlertState),
     let st' := (checkCriticalOrders h orders st).1 in
     (show (urgentAlert st) -> show (urgentAlert st')) /\
     (lastExpirationAlertTime st -> lastExpirationAlertTime st')).
Proof.
split.
  move=> passes st t Hlast Hall.
  by rewrite /handleUrgentAlertClick /= (@runPasses_paused passes _ t).
move=> h orders st /=.
by case: (checkCriticalOrders_cases h orders st) => ->.
Qed.

(** The witness of X4: the alert of noon dismissed, and the pass one hour
    later. *)
Lemma dismissUrgentAlert_keeps_the_pause_witness :
  let st := alertedAt mondayNoon dueSoon in
  runPasses [:: (oneHourLater, dueSoon)] (dismissUrgentAlert st)
    = (dismissUrgentAlert st, [::]) /\
  runPasses [:: (oneHourLater, dueSoon)] (handleUrgentAlertClick st).2
    = (dismissUrgentAlert st, [::]) /\
  show (urgentAlert (dismissUrgentAlert st)) = false.
Proof.
have [H _] := dismissUrgentAlert_keeps_the_pause.
by apply: (H [:: (oneHourLater, dueSoon)] (alertedAt mondayNoon dueSoon)
             (Date_now mondayNoon)).
Defined.

(** ** The month of the view *)

(** X5. The month navigation steps through the calendar: the next month
    of December is January of the next year, the previous month of January
    is December of the year before, and each button undoes the other. *)
Theorem month_navigation_round_trip (v : ViewDate) :
  normalView v ->
  [/\ handlePrevMonth (handleNextMonth v) = v,
      handleNextMonth (handlePrevMonth v) = v,
      handleNextMonth v
      = (if (viewMonth v =? 11)%Z
         then {| viewYear := viewYear v + 1; viewMonth := 0 |}
         else {| viewYear := viewYear v; viewMonth := viewMonth v + 1 |})
    & handlePrevMonth v
      = (if (viewMonth v =? 0)%Z
         then {| viewYear := viewYear v - 1; viewMonth := 11 |}
         else {| viewYear := viewYear v; viewMonth := viewMonth v - 1 |})].
Proof.
case: v => y m /andP [/andP [/Z.ltb_lt Hy /Z.leb_le Hm0] /Z.leb_le Hm11].
move: Hy Hm0 Hm11 => /= Hy Hm0 Hm11.
have Hnew (z k : Z) : (99 < z)%Z ->
    newDateFirstOfMonth z k
    = {| viewYear := z + k / 12; viewMonth := k mod 12 |}.
  move=> Hz; rewrite /newDateFirstOfMonth.
  have -> // : (0 <=? z)%Z && (z <=? 99)%Z = false.
  by apply/negP => /andP [_ /Z.leb_le]; lia.
have Hn (z k : Z) : handleNextMonth {| viewYear := z; viewMonth := k |}
                    = newDateFirstOfMonth z (k + 1) by [].
have Hp (z k : Z) : handlePrevMonth {| viewYear := z; viewMonth := k |}
                    = newDateFirstOfMonth z (k - 1) by [].
have Hnext : handleNextMonth {| viewYear := y; viewMonth := m |}
      = (if (m =? 11)%Z then {| viewYear := y + 1; viewMonth := 0 |}
         else {| viewYear := y; viewMonth := m + 1 |}).
  rewrite Hn Hnew; try lia.
  by case: (Z.eqb_spec m 11) => [->|Hne] //;
     congr Build_ViewDate; Z.div_mod_to_equations; lia.
have Hprev : handlePrevMonth {| viewYear := y; viewMonth := m |}
      = (if (m =? 0)%Z then {| viewYear := y - 1; viewMonth := 11 |}
         else {| viewYear := y; viewMonth := m - 1 |}).
  rewrite Hp Hnew; try lia.
  by case: (Z.eqb_spec m 0) => [->|Hne] //;
     congr Build_ViewDate; Z.div_mod_to_equations; lia.
split=> //.
- rewrite Hnext; case: (Z.eqb_spec m 11) => [->|Hne];
    rewrite Hp Hnew; try lia;
    by congr Build_ViewDate; Z.div_mod_to_equations; lia.
- rewrite Hprev; case: (Z.eqb_spec m 0) => [->|Hne];
    rewrite Hn Hnew; try lia;
    by congr Build_ViewDate; Z.div_mod_to_equations; lia.
Qed.

(** The witness of X5: December 2024. *)
Lemma month_navigation_round_trip_witness :
  let v := {| viewYear := 2024; viewMonth := 11 |} in
  [/\ handlePrevMonth (handleNextMonth v) = v,
      handleNextMonth (handlePrevMonth v) = v,
      handleNextMonth v = {| viewYear := 2025; viewMonth := 0 |}
    & handlePrevMonth v = {| viewYear := 2024; viewMonth := 10 |}].
Proof.
exact: (@month_navigation_round_trip {| viewYear := 2024; viewMonth := 11 |} isT).
Defined.

Lemma prefix_same_length (a b r : string) :
  String.length a = String.length b ->
  String.prefix b (a ++ r) = String.eqb a b.
Proof.
elim: a b => [|c a IH] [|c' b] //=; first by case: r.
move=> [Hlen]; rewrite (IH _ Hlen).
case: (ascii_dec c' c) => [->|Hne]; first by rewrite Ascii.eqb_refl.
by case: (Ascii.eqb_spec c c') => // Heq; case: Hne.
Qed.

Lemma append_inj_length (a a' b b' : string) :
  String.length a = String.length a' ->
  (a ++ b = a' ++ b')%string -> a = a' /\ b = b'.
Proof.
elim: a a' => [|c a IH] [|c' a'] //= [Hlen] [-> Heq].
by have [-> ->] := IH _ Hlen Heq.
Qed.

Lemma allFrom_spec (n : nat) (from : Z) (p : Z -> bool) (z : Z) :
  allFrom n from p -> (from <= z < from + Z.of_nat n)%Z -> p z.
Proof.
elim: n from => [|n IH] from /=; first by lia.
move=> /andP [Hp Hall] Hz.
case: (Z.eq_dec z from) => [->|Hne] //.
by apply: (IH (from + 1)%Z) => //; lia.
Qed.

Lemma toString_four_digits (y : Z) :
  (1000 <= y <= 9999)%Z -> String.length (Js.toString y) = 4.
Proof.
move=> Hy.
have Hall : allFrom (Z.to_nat 9000) 1000
              (fun z => String.length (Js.toString z) == 4) by vm_compute.
apply/eqP; apply: (allFrom_spec Hall).
by rewrite Z2Nat.id; lia.
Qed.

Lemma padded_month_inj (m m' : Z) :
  (0 <= m <= 11)%Z -> (0 <= m' <= 11)%Z ->
  Js.padStart2 (Js.toString (m + 1)) = Js.padStart2 (Js.toString (m' + 1)) ->
  m = m'.
Proof.
move=> Hm Hm' Heq.
have Hall : allFrom 12 0 (fun k => allFrom 12 0 (fun k' =>
              String.eqb (Js.padStart2 (Js.toString (k + 1)))
                         (Js.padStart2 (Js.toString (k' + 1)))
              ==> (k =? k')%Z)) by vm_compute.
have := allFrom_spec (allFrom_spec Hall (z := m) _) (z := m') _.
by rewrite Heq String.eqb_refl /= => H; apply/Z.eqb_eq/H; lia.
Qed.

Lemma monthKey_length (y m : Z) :
  fourDigitMonth y m -> String.length (monthKey y m) = 7.
Proof.
move=> /andP [/andP [/andP [/Z.leb_le Hy0 /Z.leb_le Hy1] /Z.leb_le Hm0]
              /Z.leb_le Hm1].
have Hpad : String.length (Js.padStart2 (Js.toString (m + 1))) = 2.
  have Hall : allFrom 12 0 (fun k => String.length
                (Js.padStart2 (Js.toString (k + 1))) == 2) by vm_compute.
  by apply/eqP; apply: (allFrom_spec Hall); lia.
rewrite /monthKey.
have := @toString_four_digits y (conj Hy0 Hy1).
case: (Js.toString y) => [|c1 [|c2 [|c3 [|c4 [|c5 r]]]]] //= _.
by rewrite Hpad.
Qed.

Lemma monthKey_eqb (y m y' m' : Z) :
  fourDigitMonth y m -> fourDigitMonth y' m' ->
  String.eqb (monthKey y m) (monthKey y' m') = (y =? y')%Z && (m =? m')%Z.
Proof.
move=> H H'.
move: (H) => /andP [/andP [/andP [/Z.leb_le Hy0 /Z.leb_le Hy1] /Z.leb_le Hm0]
                    /Z.leb_le Hm1].
move: (H') => /andP [/andP [/andP [/Z.leb_le Hy0' /Z.leb_le Hy1'] /Z.leb_le Hm0']
                     /Z.leb_le Hm1'].
have Hlen4 := toString_four_digits.
case: (Z.eqb_spec y y') => [<-|Hy] /=.
  case: (Z.eqb_spec m m') => [<-|Hm]; first exact: String.eqb_refl.
  apply/String.eqb_neq => Heq; apply: Hm.
  have [_ [_ Hmm]] : Js.toString y = Js.toString y /\ "-"%string = "-"%string /\
      Js.padStart2 (Js.toString (m + 1)) = Js.padStart2 (Js.toString (m' + 1)).
    move: Heq; rewrite /monthKey => /append_inj_length [] // _.
    by move=> /(@append_inj_length "-" "-") [].
  exact: padded_month_inj Hmm.
apply/String.eqb_neq => Heq; apply: Hy.
move: Heq; rewrite /monthKey => /append_inj_length [].
  by rewrite !Hlen4.
move=> Heq _; apply: Some_inj.
by rewrite -(parseInt_toString y) -(parseInt_toString y') Heq.
Qed.

(** X6. The key of the month view selects the orders of that month and no
    others: for years of four digits, a pickupDate that begins with the key
    of one month begins with the key of a view exactly when the view shows
    that year and month. *)
Theorem monthKey_selects_its_month (y m y' m' : Z) (rest : string) :
  fourDigitMonth y m -> fourDigitMonth y' m' ->
  Js.startsWith (monthKey y m ++ rest) (monthKey y' m')
  = (y =? y')%Z && (m =? m')%Z.
Proof.
move=> H H'; rewrite /Js.startsWith prefix_same_length ?monthKey_eqb //.
by rewrite !monthKey_length.
Qed.

(** The witness of X6: a pickup of June 2024 in the views of June and of
    July 2024. *)
Lemma monthKey_selects_its_month_witness :
  Js.startsWith (monthKey 2024 5 ++ "-18") (monthKey 2024 5) = true /\
  Js.startsWith (monthKey 2024 5 ++ "-18") (monthKey 2024 6) = false.
Proof.
split.
- exact: (@monthKey_selects_its_month 2024 5 2024 5 "-18" isT isT).
- exact: (@monthKey_selects_its_month 2024 5 2024 6 "-18" isT isT).
Defined.

(** ** The other edits of the order form *)

(** X7. [cleanPhone] keeps exactly the digits of the number typed, in
    their order: its result holds digits only, a text of digits comes back
    as it is and no other does, cleaning twice changes nothing, and the
    digits of two texts joined are the digits of each. *)
Theorem cleanPhone_keeps_exactly_the_digits (phone rest : string) :
  [/\ allDigits (cleanPhone phone),
      String.eqb (cleanPhone phone) phone = allDigits phone,
      cleanPhone (cleanPhone phone) = cleanPhone phone
    & cleanPhone (phone ++ rest) = (cleanPhone phone ++ cleanPhone rest)%string].
Proof.
have Hall (s : string) : allDigits (cleanPhone s).
  by elim: s => [|c s IH] //=; case Hc: (Js.isDigit c) => //=; rewrite Hc.
have Hid (s : string) : allDigits s -> cleanPhone s = s.
  by elim: s => [|c s IH] //= /andP [-> /IH ->].
split=> //.
- case Hd: (allDigits phone); first by rewrite Hid // String.eqb_refl.
  by apply/String.eqb_neq => Heq; move: (Hall phone); rewrite Heq Hd.
- exact: Hid.
- by elim: phone => [|c s IH] //=; case: (Js.isDigit c); rewrite /= IH.
Qed.

Lemma Math_max_not_negative (value : number) :
  (Js.Math_max 0%float value <? 0)%float = false.
Proof.
rewrite /Js.Math_max.
case Hn: (is_nan 0 || is_nan value) => //.
case H1: (0 <? value)%float.
  move: H1; rewrite !FloatAxioms.ltb_spec.
  have -> : Prim2SF 0%float = S754_zero false by [].
  by case: (Prim2SF value) => [s|s||s m e] //=; case: s.
by case H2: (value <? 0)%float.
Qed.

(** X8. An input of a generic extra changes the entries that carry its id
    and no other entry: every entry keeps its id, its type and its place,
    the entries of other ids are unchanged, and a cost or a quantity
    written is never negative. *)
Theorem updateGenericExtra_touches_its_entry (id : string) (w : GenericWrite)
    (prev : seq ExtraService) :
  let result := updateGenericExtra id w prev in
  [/\ [seq extra_id e | e <- result] = [seq extra_id e | e <- prev],
      [seq extra_type e | e <- result] = [seq extra_type e | e <- prev],
      [seq e <- result | ~~ hasId id e] = [seq e <- prev | ~~ hasId id e]
    & all (fun e => match w with
                    | write_name value => String.eqb (extra_name e) value
                    | write_cost _ => ~~ (cost e <? 0)%float
                    | write_qty _ => ~~ (qty e <? 0)%float
                    end)
          [seq e <- result | hasId id e]].
Proof.
have Hid (e : ExtraService) : extra_id (writeGeneric w e) = extra_id e.
  by case: w.
rewrite /updateGenericExtra /hasId /=; split.
- by rewrite -map_comp; apply: eq_map => e /=; case: ifP.
- by rewrite -map_comp; apply: eq_map => e /=; case: ifP => //; case: w {Hid}.
- elim: prev => [|e prev IH] //=.
  case He: (String.eqb (extra_id e) id) => /=; last by rewrite He /= IH.
  by rewrite Hid He /= IH.
- elim: prev => [|e prev IH] //=.
  case He: (String.eqb (extra_id e) id) => /=; last by rewrite He.
  rewrite Hid He /= IH andbT.
  case: w {Hid IH} => [value|value|value] /=.
  + exact: String.eqb_refl.
  + by rewrite Math_max_not_negative.
  + by rewrite Math_max_not_negative.
Qed.

(** X9. The add button appends one generic extra of quantity 1 and cost 0;
    with an id no entry has yet, its inputs write to that entry alone and
    its delete button restores the list as it was.  The delete button
    leaves no entry of its id and keeps the others in their order. *)
Theorem addGenericExtra_then_remove (newId : string) (extras : seq ExtraService) :
  ~~ has (hasId newId) extras ->
  [/\ removeGenericExtra newId (addGenericExtra newId extras) = extras,
      forall w : GenericWrite,
        updateGenericExtra newId w (addGenericExtra newId extras)
        = extras ++ [:: writeGeneric w (newGenericExtra newId)],
      forall id : string, ~~ has (hasId id) (removeGenericExtra id extras)
    & forall id : string,
        [seq e <- removeGenericExtra id extras | ~~ hasId id e]
        = [seq e <- extras | ~~ hasId id e]].
Proof.
move=> Hfresh; split.
- rewrite /removeGenericExtra /addGenericExtra filter_cat /= String.eqb_refl /=.
  rewrite cats0; apply/all_filterP.
  by move: Hfresh; rewrite -all_predC.
- move=> w; rewrite /updateGenericExtra /addGenericExtra map_cat /=.
  rewrite String.eqb_refl; congr cat.
  elim: extras Hfresh => [|e extras IH] //=.
  by rewrite negb_or /hasId => /andP [/negbTE -> /IH ->].
- by move=> id; rewrite -all_predC; exact: filter_all.
- by move=> id; rewrite /removeGenericExtra -filter_predI;
     apply: eq_filter => e /=; rewrite /hasId andbb.
Qed.

(** The witness of X9: a first generic extra on an empty list. *)
Lemma addGenericExtra_then_remove_witness :
  removeGenericExtra "k3j9x2a1b" (addGenericExtra "k3j9x2a1b" [::]) = [::].
Proof.
by have [H _ _ _] := @addGenericExtra_then_remove "k3j9x2a1b" [::] isT.
Defined.

Lemma roleCount_applyEdit (extras : seq ExtraService) (e : ExtrasEdit)
    (type : ServiceType) :
  ~~ ServiceType_eqb other type ->
  roleCount type extras <= 1 -> roleCount type (applyEdit extras e) <= 1.
Proof.
move=> Htype; case: e => [w|newId|id w|id] /=.
- exact: roleCount_updateRole.
- move: Htype; rewrite /roleCount /addGenericExtra count_cat /= /isRole /=.
  by case: type => //= _; rewrite !addn0.
- rewrite /roleCount /updateGenericExtra count_map.
  rewrite (@eq_count _ _ (isRole type)) // => x /=.
  by rewrite /isRole; case: ifP => //; case: w.
- apply: leq_trans; rewrite /roleCount /removeGenericExtra.
  by rewrite count_filter; apply: sub_count => x /andP [].
Qed.

(** X10. Through any series of edits of the extras, by the role inputs and
    by the add, edit and delete controls of the generic extras, a fixed
    role that has at most one entry keeps at most one; so does every fixed
    role of a draft that starts without extras. *)
Theorem extras_edits_keep_one_entry_per_role (edits : seq ExtrasEdit)
    (extras : seq ExtraService) (type : ServiceType) :
  ~~ ServiceType_eqb other type ->
  roleCount type extras <= 1 ->
  roleCount type (foldl applyEdit extras edits) <= 1.
Proof.
move=> Htype; elim: edits extras => [|e edits IH] extras //= H.
by apply: IH; apply: roleCount_applyEdit.
Qed.

(** The witness of X10: helpers and a generic extra on a new draft. *)
Lemma extras_edits_keep_one_entry_per_role_witness :
  roleCount helper
    (foldl applyEdit [::]
       [:: edit_role {| write_now := 1; write_type := helper;
                        write_field := field_qty; write_value := 2%float |};
           edit_add "k3j9x2a1b";
           edit_update "k3j9x2a1b" (write_cost 80%float);
           edit_role {| write_now := 2; write_type := helper;
                        write_field := field_cost; write_value := 50%float |};
           edit_remove "k3j9x2a1b"]) <= 1.
Proof.
exact: (@extras_edits_keep_one_entry_per_role _ [::] helper isT isT).
Defined.

Lemma removeNote_notes (T : Type) (s : seq T) (k j : nat) :
  [seq p.1 | p <- zip s (iota k (size s)) & p.2 != j]
  = if j < k then s else take (j - k) s ++ drop (j - k).+1 s.
Proof.
elim: s k => [|x s IH] k /=; first by case: ifP.
case: (ltngtP j k) => [Hlt|Hgt|Heq] /=.
- by rewrite IH ltnS (ltnW Hlt).
- by rewrite -(subnSK Hgt) /= IH ltnS leqNgt Hgt.
- by rewrite -Heq subnn /= drop0 IH ltnS leqnn.
Qed.

(** X11. A note whose text is blank after trimming is not added; any other
    is appended with the trimmed text and the colour picked.  The delete
    button of a note removes the note at its place and keeps the others in
    their order.  Deleting the last place right after the add button
    restores the draft, whatever was typed; and the notes never touch the
    payment flags nor the progress. *)
Theorem addNote_then_removeNote (trim : string -> string) (h : NoteHost)
    (raw : string) (index : nat) (formData : ServiceOrder) :
  let added := addNote trim h raw formData in
  [/\ String.eqb (trim raw) "" -> added = formData,
      ~~ String.eqb (trim raw) "" ->
        exists note : OrderNote,
          [/\ notes added = notes formData ++ [:: note],
              content note = trim raw
            & color note = (if String.eqb (noteTags formData) ""
                            then "#334155"%string else noteTags formData)],
      notes (removeNote index formData)
        = take index (notes formData) ++ drop index.+1 (notes formData),
      removeNote (size (notes formData)) added = formData
    & paymentStatus added = paymentStatus formData /\
      progress added = progress formData /\
      paymentStatus (removeNote index formData) = paymentStatus formData /\
      progress (removeNote index formData) = progress formData].
Proof.
have Hrem (i : nat) (o : ServiceOrder) :
    notes (removeNote i o) = take i (notes o) ++ drop i.+1 (notes o).
  by rewrite /removeNote /= removeNote_notes ltn0 subn0.
have Hsame (o : ServiceOrder) : withNotes o (notes o) = o by case: o.
rewrite /=; split.
- by rewrite /addNote; case: (trim raw).
- rewrite /addNote; case: (trim raw) => [|c r] // _.
  eexists; split; [reflexivity | reflexivity | by case: (noteTags formData)].
- exact: Hrem.
- have Hdrop (T : Type) (s t : seq T) : size t <= 1 ->
      drop (size s).+1 (s ++ t) = [::].
    move=> Ht; apply: drop_oversize.
    by rewrite size_cat -addn1 leq_add2l.
  rewrite /addNote; case: (trim raw) => [|c r].
    rewrite /removeNote removeNote_notes ltn0 subn0 take_size.
    by rewrite (drop_oversize (leqnSn _)) cats0.
  rewrite /removeNote removeNote_notes ltn0 subn0 /=.
  by rewrite take_size_cat // Hdrop // cats0; case: formData.
- by rewrite /addNote; case: (trim raw).
Qed.

(** The witness of X11: a note typed after a blank, with the removal of
    leading blanks for [trim]. *)
Lemma addNote_then_removeNote_witness :
  let added := addNote Js.trimStart noteHost " ligar antes" existingOrder in
  (exists note : OrderNote,
     [/\ notes added = notes existingOrder ++ [:: note],
         content note = "ligar antes"%string
       & color note = "#334155"%string]) /\
  removeNote (size (notes existingOrder)) added = existingOrder.
Proof.
have [_ H _ H' _] :=
  @addNote_then_removeNote Js.trimStart noteHost " ligar antes" 0 existingOrder.
by split; [apply: H | apply: H'].
Defined.

(** ** The totals of the form and the order saved *)

Lemma orZero_plainNumber (x : number) : plainNumber x -> orZero (Some x) = x.
Proof.
rewrite /plainNumber /orZero => /andP [/negbTE -> /=].
rewrite classify_spec /is_zero FloatAxioms.eqb_spec.
have -> : Prim2SF PrimFloat.zero = S754_zero false by [].
case Hx: (Prim2SF x) => [s|s||s m e] //=; case: s Hx => //= Hx _.
by apply: Prim2SF_inj; rewrite Hx.
Qed.

Lemma Math_max_plainNumber (value : number) :
  ~~ is_nan value -> plainNumber (Js.Math_max 0%float value).
Proof.
move=> Hnan; rewrite /Js.Math_max (negbTE Hnan) /=.
case H1: (0 <? value)%float.
  rewrite /plainNumber Hnan /= classify_spec.
  move: H1; rewrite FloatAxioms.ltb_spec.
  have -> : Prim2SF 0%float = S754_zero false by [].
  by case: (Prim2SF value) => [s|s||s m e] //=; case: s => //=; case: ifP.
by case H2: (value <? 0)%float.
Qed.

Lemma settle_same_paymentStatus (o : ServiceOrder) (s : State) :
  atRest s ->
  settle (setFormData o (paymentStatusRef s) s)
  = setFormData o (paymentStatusRef s) s.
Proof.
case/and3P=> /eqP Hi Hs _; rewrite /settle.
have Hrest : commitEffects (setFormData o (paymentStatusRef s) s)
             = setFormData o (paymentStatusRef s) s.
  apply: commitEffects_atRest => //=.
  by case: (syncDeps s) Hs => [r|] // /ObjRef_eqb_eq ->.
by rewrite !Hrest.
Qed.

(** X12. The driver cost input stores [Math.max(0, value)], never a
    negative cost.  With a numeric input and a total that is a plain number,
    the costs and the profit the form shows are those the helpers of the
    card compute from the order the save button sends. *)
Theorem form_totals_match_saved_order (h : SubmitHost) (value : number)
    (s : State) :
  atRest s -> ~~ is_nan value ->
  plainNumber (totalValue (financials (formData s))) ->
  let s' := onDriverCostChange value s in
  let saved := handleSubmit h s' in
  [/\ driverCost (financials saved) = Js.Math_max 0%float value,
      (driverCost (financials saved) <? 0)%float = false,
      currentCosts s' = calculateCosts (financials saved)
    & currentProfit s' = calculateProfit (financials saved)].
Proof.
move=> Hrest Hnan Htotal s' saved; rewrite /saved /s' {saved s'}.
rewrite /onDriverCostChange settle_same_paymentStatus //.
set s' := setFormData _ _ _.
have Hd : driverCost (financials (formData s')) = Js.Math_max 0%float value.
  by [].
have Ht : totalValue (financials (formData s'))
          = totalValue (financials (formData s)) by [].
rewrite /currentProfit /currentCosts /currentTotal /currentDriver
        /currentExtrasCost /calculateProfit /calculateCosts.
rewrite Hd Ht (orZero_plainNumber Htotal).
rewrite (orZero_plainNumber (Math_max_plainNumber Hnan)).
by split=> //; exact: Math_max_not_negative.
Qed.

(** The witness of X12: a driver cost of 250 typed into a new draft. *)
Lemma form_totals_match_saved_order_witness :
  let s' := onDriverCostChange 250%float (mount newOrderProps) in
  let saved := handleSubmit submitHost s' in
  [/\ driverCost (financials saved) = Js.Math_max 0%float 250%float,
      (driverCost (financials saved) <? 0)%float = false,
      currentCosts s' = calculateCosts (financials saved)
    & currentProfit s' = calculateProfit (financials saved)].
Proof.
exact: (@form_totals_match_saved_order submitHost 250%float
          (mount newOrderProps) isT isT isT).
Defined.

Lemma setProps_seeds_order (p : Props) (k : nat) (order : ServiceOrder)
    (s : State) :
  atRest s -> initialData p = Some (k, order) ->
  initDepsOf (props s) != initDepsOf p ->
  [/\ formData (setProps p s)
      = (if ObjRef_eqb (paymentStatusRef s) (RefInitialData k) then order
         else withProgress order (calculateProgress order)),
      extras (setProps p s) = Types.extras (financials order),
      props (setProps p s) = p
    & paymentStatusRef (setProps p s) = RefInitialData k].
Proof.
case/and3P=> /eqP Hi Hs _ Hp Hdeps.
have Hsync : syncDeps s = Some (paymentStatusRef s).
  by case: (syncDeps s) Hs => [r|] // /ObjRef_eqb_eq ->.
set s0 := {| props := p; formData := formData s;
             paymentStatusRef := paymentStatusRef s; extras := extras s;
             initDeps := initDeps s; syncDeps := syncDeps s;
             literals := literals s |}.
have H1 : commitEffects s0 =
          {| props := p; formData := order;
             paymentStatusRef := RefInitialData k;
             extras := Types.extras (financials order);
             initDeps := Some (initDepsOf p);
             syncDeps := Some (paymentStatusRef s); literals := literals s |}.
  rewrite /commitEffects /s0 /= Hi Hsync ObjRef_eqb_refl /= /initEffect Hp.
  have -> // : (Some (initDepsOf (props s)) != Some (initDepsOf p)) = true.
  by apply/negP => /eqP H; move/negP: Hdeps; apply; apply/eqP; apply: Some_inj.
rewrite /setProps /settle -/s0 H1 commitEffects_seeded //=.
case: (ObjRef_eqb _ _) => //=.
rewrite /syncEffect /=.
case: Z.eqb_spec => [/stageValue_inj H|_] //=.
by rewrite -H withProgress_id.
Qed.

(** X13. An existing order opened in the form and saved without an edit
    goes to [updateServiceOrder] with its id, its creation time, its
    extras and every other field as they were, and with the progress
    derived from its payment flags: the order itself when its progress was
    the derived one.  The form was at rest, closed or on another order,
    and the order object is not the one the draft was seeded from last. *)
Theorem edit_saved_untouched_sends_the_order (h : SubmitHost) (k : nat)
    (order : ServiceOrder) (s : State) :
  atRest s ->
  ~~ ObjRef_eqb (paymentStatusRef s) (RefInitialData k) ->
  initDepsOf (props s) != initDepsOf (editProps true k order) ->
  ~~ String.eqb (id order) "" -> ~~ String.eqb (createdAt order) "" ->
  let s' := setProps (editProps true k order) s in
  let derived := withProgress order (calculateProgress order) in
  [/\ formData s' = derived,
      extras s' = Types.extras (financials order),
      clickSave h s' = [:: updateServiceOrder derived]
    & progress order = calculateProgress order ->
      clickSave h s' = [:: updateServiceOrder order]].
Proof.
move=> Hrest Hfresh Hdeps Hid Hcreated s0 derived.
rewrite /derived /s0 {s0 derived}.
have [] := @setProps_seeds_order (editProps true k order) k order s Hrest
             (erefl _) Hdeps.
rewrite (negbTE Hfresh); move: (setProps _ _) => s' Hform Hextras Hprops _.
have Hsaved : handleSubmit h s' = withProgress order (calculateProgress order).
  have Hif (x d : string) :
      ~~ String.eqb x "" -> (if x is EmptyString then d else x) = x.
    by case: x.
  rewrite /handleSubmit Hform Hextras /= !Hif //.
  by case: order {Hdeps Hform Hextras Hprops Hid Hcreated}
       => ? ? ? ? ? ? ? ? ? ? [? ? ?] *.
split=> //.
- by rewrite /clickSave Hprops Hsaved.
- by move=> Hp; rewrite /clickSave Hprops Hsaved -Hp withProgress_id.
Qed.

(** The witness of X13: the form opened on an existing order after
    mounting closed. *)
Lemma edit_saved_untouched_sends_the_order_witness :
  clickSave submitHost (setProps (editProps true 1 storedOrder) (mount closedProps))
  = [:: updateServiceOrder storedOrder].
Proof.
have [_ _ _ H] :=
  @edit_saved_untouched_sends_the_order submitHost 1 storedOrder
     (mount closedProps) isT isT isT isT isT.
exact: H.
Defined.

(** X14. Closing the form without saving discards the edits: when the
    same order is opened again the draft is the order as it was stored,
    field by field, with the extras it was stored with, whatever was
    ticked or typed in between. *)
Theorem reopened_draft_is_the_stored_order (k : nat) (order : ServiceOrder)
    (s : State) :
  atRest s -> props s = editProps true k order ->
  let closed := setProps (editProps false k order) s in
  let reopened := setProps (editProps true k order) closed in
  formData reopened = order /\
  extras reopened = Types.extras (financials order).
Proof.
move=> Hrest Hprops closed0 reopened; rewrite /reopened /closed0 {reopened closed0}.
have Hd1 : initDepsOf (props s) != initDepsOf (editProps false k order).
  by rewrite Hprops /initDepsOf /= xpair_eqE andbF.
have [_ _ Hp Href] := @setProps_seeds_order (editProps false k order) k order s
                        Hrest (erefl _) Hd1.
move: (atRest_setProps (editProps false k order) Hrest) Hp Href.
move: (setProps _ s) => closed Hclosed Hp Href.
have Hd2 : initDepsOf (props closed) != initDepsOf (editProps true k order).
  by rewrite Hp /initDepsOf /= xpair_eqE andbF.
have [] := @setProps_seeds_order (editProps true k order) k order closed
             Hclosed (erefl _) Hd2.
by rewrite Href ObjRef_eqb_refl.
Qed.

(** The witness of X14: the pickup payment ticked and the name retyped on
    an order opened for editing. *)
Lemma reopened_draft_is_the_stored_order_witness :
  let s := onClientNameChange "Bruna"
             (onPaymentChange key_pickup true
                (setProps (editProps true 1 storedOrder) (mount closedProps))) in
  formData (setProps (editProps true 1 storedOrder)
              (setProps (editProps false 1 storedOrder) s)) = storedOrder /\
  extras (setProps (editProps true 1 storedOrder)
            (setProps (editProps false 1 storedOrder) s))
  = Types.extras (financials storedOrder).
Proof.
exact: (@reopened_draft_is_the_stored_order 1 storedOrder
          (onClientNameChange "Bruna"
             (onPaymentChange key_pickup true
                (setProps (editProps true 1 storedOrder) (mount closedProps))))
          isT (erefl _)).
Defined.

(** ** The gateway *)

Lemma createServiceOrder_outcome (order : ServiceOrder) (c : Client)
    (sent : seq Request) :
  SupabaseService.createServiceOrder order c sent
  = match user c with
    | None => (rcons sent auth_getUser, inl "User not authenticated"%string)
    | Some userId => outcomeOf c sent (createRequests userId order)
    end.
Proof.
rewrite /SupabaseService.createServiceOrder /outcomeOf /createRequests
        /Async.bind /SupabaseService.getUser /SupabaseService.send
        /SupabaseService.throwIf /Async.throw /Async.ret /=.
case: (user c) => [userId|] //.
case: (error c _) => [e|] /=; first by rewrite -!cats1 -!catA.
case: (Types.extras (financials order)) => [|x xs] /=;
  case: (notes order) => [|n ns] /=;
  repeat (case: (error c _) => [?|] /=); by rewrite -!cats1 -!catA.
Qed.

Lemma sendEach_has (p : pred Request) (c : Client) (rs : seq Request) :
  has p (sendEach c rs).1 -> has p rs.
Proof.
elim: rs => [|r rs IH] //=; case: (error c r) => [e|] /=.
  by rewrite orbF => ->.
by case/orP=> [->|/IH ->] //; rewrite orbT.
Qed.

Lemma outcomeOf_has (p : pred Request) (c : Client) (sent rs : seq Request) :
  has p (drop (size sent) (outcomeOf c sent rs).1) ->
  p auth_getUser || has p rs.
Proof.
rewrite /outcomeOf /= drop_size_cat //=.
by case/orP=> [->|/sendEach_has ->] //; rewrite orbT.
Qed.

(** X15. [createServiceOrder] asks for the user first and, with no user
    signed in, sends nothing else.  Otherwise it inserts the order, then
    its extras if it has any, then its notes if it has any, and stops at
    the first request that fails, whose error it throws.  It never deletes
    nor updates: when the extras are rejected the order has been inserted
    without them and stays so. *)
Theorem createServiceOrder_sends_in_order (order : ServiceOrder) (c : Client)
    (sent : seq Request) :
  let result := SupabaseService.createServiceOrder order c sent in
  [/\ result
      = match user c with
        | None => (rcons sent auth_getUser, inl "User not authenticated"%string)
        | Some userId => outcomeOf c sent (createRequests userId order)
        end,
      ~~ has isRemoval (drop (size sent) result.1)
    & forall (userId e : string) (x : ExtraService) (xs : seq ExtraService),
        let row := {| inserted_id := id order; inserted_user_id := userId;
                      inserted_columns := SupabaseService.columnsOf order |} in
        let rows := SupabaseService.extrasToInsert order in
        user c = Some userId ->
        Types.extras (financials order) = x :: xs ->
        error c (insert_service_orders row) = None ->
        error c (insert_extra_services rows) = Some e ->
        result = (sent ++ [:: auth_getUser; insert_service_orders row;
                              insert_extra_services rows], inl e)].
Proof.
rewrite /= createServiceOrder_outcome; split=> //.
- case: (user c) => [userId|].
    apply/negP => /outcomeOf_has.
    by rewrite /createRequests /=; case: (Types.extras _); case: (notes _).
  by rewrite -cats1 drop_size_cat.
- move=> userId e x xs Huser Hextras Horder Hrows.
  rewrite Huser /outcomeOf /createRequests Hextras.
  by rewrite [sendEach _ _]/= Horder Hrows.
Qed.

(** The witness of X15: the stored order created on a client that rejects
    the extras. *)
Lemma createServiceOrder_sends_in_order_witness :
  SupabaseService.createServiceOrder storedOrder extrasRejected [::]
  = ([:: auth_getUser;
         insert_service_orders
           {| inserted_id := "OS-2024-7"; inserted_user_id := "u1";
              inserted_columns := SupabaseService.columnsOf storedOrder |};
         insert_extra_services (SupabaseService.extrasToInsert storedOrder)],
     inl "23505"%string).
Proof.
have [_ _ H] := @createServiceOrder_sends_in_order storedOrder extrasRejected [::].
exact: (H "u1"%string "23505"%string _ _ (erefl _) (erefl _) (erefl _) (erefl _)).
Defined.

Lemma updateServiceOrder_outcome (order : ServiceOrder) (c : Client)
    (sent : seq Request) :
  SupabaseService.updateServiceOrder order c sent
  = match user c with
    | None => (rcons sent auth_getUser, inl "User not authenticated"%string)
    | Some userId => outcomeOf c sent (updateRequests c userId order)
    end.
Proof.
rewrite /SupabaseService.updateServiceOrder /outcomeOf /updateRequests
        /Async.bind /SupabaseService.getUser /SupabaseService.send
        /SupabaseService.throwIf /Async.throw /Async.ret /Async.client /=.
case: (user c) => [userId|] //.
case: (error c _) => [e|] /=; first by rewrite -!cats1 -!catA.
case: (error c _) => [e|] /=; first by rewrite -!cats1 -!catA.
case: (Types.extras (financials order)) => [|x xs] /=;
  case: (notes order) => [|n ns] /=;
  repeat (case: (error c _) => [?|] /=); by rewrite -!cats1 -!catA.
Qed.

(** X16. [updateServiceOrder] asks for the user first and, with no user
    signed in, sends nothing else.  Otherwise it updates the row of the
    order, deletes its extras and inserts the new ones if there are any,
    then deletes its notes and inserts the new ones if there are any,
    stopping at the first request that fails.  The old extras are deleted
    before the new ones go out: when their insertion is rejected the order
    is left without extras, and its notes have not been touched. *)
Theorem updateServiceOrder_deletes_then_inserts (order : ServiceOrder)
    (c : Client) (sent : seq Request) :
  let result := SupabaseService.updateServiceOrder order c sent in
  result
  = match user c with
    | None => (rcons sent auth_getUser, inl "User not authenticated"%string)
    | Some userId => outcomeOf c sent (updateRequests c userId order)
    end /\
  forall (userId e : string) (x : ExtraService) (xs : seq ExtraService),
    let row := {| updated_columns := SupabaseService.columnsOf order;
                  updated_at := nowISO c |} in
    let rows := SupabaseService.extrasToInsert order in
    user c = Some userId ->
    Types.extras (financials order) = x :: xs ->
    error c (update_service_orders row (id order)) = None ->
    error c (delete_extra_services (id order)) = None ->
    error c (insert_extra_services rows) = Some e ->
    result = (sent ++ [:: auth_getUser; update_service_orders row (id order);
                          delete_extra_services (id order);
                          insert_extra_services rows], inl e).
Proof.
rewrite /= updateServiceOrder_outcome; split=> //.
move=> userId e x xs Huser Hextras Horder Hdelete Hrows.
rewrite Huser /outcomeOf /updateRequests Hextras.
by rewrite [sendEach _ _]/= Horder Hdelete Hrows.
Qed.

(** The witness of X16: the stored order updated on a client that rejects
    the extras. *)
Lemma updateServiceOrder_deletes_then_inserts_witness :
  SupabaseService.updateServiceOrder storedOrder extrasRejected [::]
  = ([:: auth_getUser;
         update_service_orders
           {| updated_columns := SupabaseService.columnsOf storedOrder;
              updated_at := "2024-06-10T15:00:00.000Z" |} "OS-2024-7";
         delete_extra_services "OS-2024-7";
         insert_extra_services (SupabaseService.extrasToInsert storedOrder)],
     inl "23505"%string).
Proof.
have [_ H] :=
  @updateServiceOrder_deletes_then_inserts storedOrder extrasRejected [::].
exact: (H "u1"%string "23505"%string _ _ (erefl _) (erefl _) (erefl _)
          (erefl _) (erefl _)).
Defined.

Lemma extras_of_stored_rows (orderId : string) (es : seq SelectedExtra)
    (xs : seq ExtraService) :
  all2 extraStored es
    [seq {| inserted_extra_id := extra_id e; extra_service_order_id := orderId;
            inserted_extra_type := extra_type e;
            inserted_extra_name := extra_name e; inserted_extra_qty := qty e;
            inserted_extra_cost := cost e |} | e <- xs] ->
  [seq {| extra_id := e_id e; extra_type := e_type e; extra_name := e_name e;
          qty := e_qty e; cost := e_cost e |} | e <- es] = xs.
Proof.
elim: es xs => [|e es IH] [|x xs] //= /andP [Hx /IH ->].
case/and5P: Hx => /= /String.eqb_spec -> /ServiceType_eqb_eq ->
                  /String.eqb_spec -> /FloatAxioms.Leibniz.eqb_spec ->
                  /FloatAxioms.Leibniz.eqb_spec ->.
by case: x.
Qed.

Lemma notes_of_stored_rows (orderId userId : string) (ns : seq SelectedNote)
    (xs : seq OrderNote) :
  all2 noteStored ns
    [seq {| note_service_order_id := orderId; note_user_id := userId;
            inserted_content := content n; inserted_color := color n |}
    | n <- xs] ->
  [seq (n_content n, n_color n) | n <- ns]
  = [seq (content n, color n) | n <- xs].
Proof.
elim: ns xs => [|n ns IH] [|x xs] //= /andP [Hx /IH ->].
by case/andP: Hx => /= /String.eqb_spec -> /String.eqb_spec ->.
Qed.

(** X17. What [fetchServiceOrders] reads is what [createServiceOrder]
    wrote: from a row that holds the columns, the extras and the notes the
    gateway inserted for an order, the order read back is that order in
    every field, with its extras and the texts and colours of its notes in
    their order, except for the creation time and the ids and times of
    the notes, which are the store's. *)
Theorem fetched_order_is_the_order_created (userId : string)
    (order : ServiceOrder) (o : SelectedOrder) :
  holdsCreated userId order o ->
  let fetched := SupabaseService.orderOfRow o in
  [/\ withNotes (withCreatedAt fetched (createdAt order)) (notes order) = order,
      [seq (content n, color n) | n <- notes fetched]
      = [seq (content n, color n) | n <- notes order],
      createdAt fetched = o_created_at o
    & [seq (note_id n, note_createdAt n) | n <- notes fetched]
      = [seq (n_id n, n_created_at n) | n <- o_order_notes o]].
Proof.
case=> Hid Hcolumns Hextras Hnotes /=; split=> //.
- rewrite /withNotes /withCreatedAt /= Hid Hcolumns /=.
  rewrite (extras_of_stored_rows Hextras).
  by case: order {Hid Hcolumns Hextras Hnotes}
       => ? ? ? ? ? ? ? [? ? ?] ? ? [? ? ?] *.
- by rewrite -map_comp -(notes_of_stored_rows Hnotes).
- by rewrite -map_comp.
Qed.

(** The witness of X17: the stored order and its row. *)
Lemma fetched_order_is_the_order_created_witness :
  withNotes (withCreatedAt (SupabaseService.orderOfRow storedRow)
               (createdAt storedOrder)) (notes storedOrder) = storedOrder.
Proof.
have Hrow : holdsCreated "u1" storedOrder storedRow by split.
by have [H _ _ _] := fetched_order_is_the_order_created Hrow.
Defined.

(** ** The handlers of App *)

Lemma fetchData_outcome (c : Client) (s : AppData.State) :
  let s' := (AppData.fetchData c s).1 in
  [/\ (AppData.fetchData c s).2 = inr tt,
      AppData.isLoadingData s' = false,
      AppData.sent s' = AppData.sent s ++ selects,
      screenOf s' = screenOf s
    & (dataOf s', AppData.alerts s')
      = if fetchFails c
        then (dataOf s,
              rcons (AppData.alerts s)
                    "Erro ao carregar dados. Verifique sua conexão."%string)
        else ((fetchedOrders c, fetchedTransactions c, fetchedGoals c),
              AppData.alerts s)].
Proof.
rewrite /fetchFails /AppData.fetchData /Async.tryFinally /Async.tryCatch
        /Async.PromiseAll3 /Async.bind /AppData.await /Async.lift
        /SupabaseService.fetchServiceOrders /SupabaseService.fetchTransactions
        /SupabaseService.fetchMonthlyGoals /SupabaseService.send
        /SupabaseService.throwIf /Async.bind /Async.client /Async.modify
        /Async.ret /Async.throw /=.
case: (error c select_service_orders) => [e1|];
  case: (error c select_transactions) => [e2|];
  case: (error c select_monthly_goals) => [e3|] /=;
  by split; rewrite //= -!cats1 -!catA.
Qed.

(** X18. [fetchData] sends its three selects together and replaces the
    orders, the transactions and the goals all at once or not at all: when
    one of the selects fails the three keep what they held and one alert
    is shown.  It never throws, it always ends with the loading flag off,
    and it leaves the form, the dialogs and the view alone. *)
Theorem fetchData_all_or_nothing (c : Client) (s : AppData.State) :
  let s' := (AppData.fetchData c s).1 in
  [/\ (AppData.fetchData c s).2 = inr tt,
      AppData.isLoadingData s' = false,
      AppData.sent s' = AppData.sent s ++ selects,
      screenOf s' = screenOf s
    & (dataOf s', AppData.alerts s')
      = if fetchFails c
        then (dataOf s,
              rcons (AppData.alerts s)
                    "Erro ao carregar dados. Verifique sua conexão."%string)
        else ((fetchedOrders c, fetchedTransactions c, fetchedGoals c),
              AppData.alerts s)].
Proof. exact: fetchData_outcome. Qed.

Lemma saveHandler_outcome (save : SupabaseService.Gateway unit)
    (message : string) (c : Client) (s : AppData.State) :
  (saveHandler save message c s).2 = inr tt /\
  savedFrom c s message (save c (AppData.sent s)) (saveHandler save message c s).1.
Proof.
rewrite /saveHandler /savedFrom /Async.tryCatch /Async.bind /AppData.await
        /Async.lift.
move: fetchData_outcome; move: AppData.fetchData => fetch Hfetch.
case: (save c (AppData.sent s)) => sent' [e|[]]; first by [].
move: (Hfetch c (AppData.setSent sent' s)) => /=.
case: (fetch c _) => s1 r1 /= [-> Hloading Hsent Hscreen Hdata].
rewrite /AppData.triggerSaveSuccess /Async.bind /Async.modify /=.
by split=> //; split=> //; move: Hdata; case: (fetchFails c) => /= -[].
Qed.

(** X19. Saving an order.  When the gateway call throws, [handleCreate]
    and [handleUpdate] show their alert and change nothing else: the form
    stays open on its draft and the lists are not refreshed.  When it
    succeeds they refresh the lists, close the form, forget the order being
    edited and show the success toast, also when the refresh fails: then
    the lists keep what they held and the alert of the refresh is shown.
    Neither handler throws. *)
Theorem handleCreate_and_handleUpdate_outcome (order : ServiceOrder)
    (c : Client) (s : AppData.State) :
  [/\ (AppData.handleCreate order c s).2 = inr tt,
      savedFrom c s "Erro ao criar ordem."
        (SupabaseService.createServiceOrder order c (AppData.sent s))
        (AppData.handleCreate order c s).1,
      (AppData.handleUpdate order c s).2 = inr tt
    & savedFrom c s "Erro ao atualizar ordem."
        (SupabaseService.updateServiceOrder order c (AppData.sent s))
        (AppData.handleUpdate order c s).1].
Proof.
have [H1 H2] := saveHandler_outcome (SupabaseService.createServiceOrder order)
                  "Erro ao criar ordem." c s.
have [H3 H4] := saveHandler_outcome (SupabaseService.updateServiceOrder order)
                  "Erro ao atualizar ordem." c s.
by split.
Qed.

(** X20. Deleting an order takes two steps.  [confirmDelete] does
    nothing while no deletion has been asked for.  Once [onRequestDelete]
    has named an order, it sends the deletion of that order; if the store
    refuses, the dialog stays open on the same order, one alert is shown
    and nothing else changes; otherwise the lists are refreshed, the dialog
    and the form are closed and no order is being edited. *)
Theorem confirmDelete_after_request (id : string) (c : Client)
    (s : AppData.State) :
  (AppData.deleteId s = None -> AppData.confirmDelete c s = (s, inr tt)) /\
  (~~ String.eqb id "" ->
   let asked := (AppData.onRequestDelete id c s).1 in
   let s' := (AppData.confirmDelete c asked).1 in
   (AppData.confirmDelete c asked).2 = inr tt /\
   if error c (delete_service_orders id) is Some _ then
     [/\ AppData.sent s' = rcons (AppData.sent s) (delete_service_orders id),
         AppData.deleteId s' = Some id,
         (AppData.isFormOpen s', AppData.editingOrder s')
         = (AppData.isFormOpen s, AppData.editingOrder s),
         dataOf s' = dataOf s
       & AppData.alerts s' = rcons (AppData.alerts s) "Erro ao excluir ordem."%string]
   else
     [/\ AppData.sent s' = AppData.sent s ++ delete_service_orders id :: selects,
         AppData.deleteId s' = None,
         AppData.isFormOpen s' = false /\ AppData.editingOrder s' = None
       & (dataOf s', AppData.alerts s')
         = if fetchFails c
           then (dataOf s,
                 rcons (AppData.alerts s)
                       "Erro ao carregar dados. Verifique sua conexão."%string)
           else ((fetchedOrders c, fetchedTransactions c, fetchedGoals c),
                 AppData.alerts s)]).
Proof.
split; first by rewrite /AppData.confirmDelete => ->.
case: id => [|a r] // _.
rewrite /AppData.confirmDelete /AppData.onRequestDelete /Async.modify
        /Async.tryCatch /Async.bind /AppData.await /Async.lift
        /SupabaseService.deleteServiceOrder /SupabaseService.send
        /SupabaseService.throwIf /Async.bind /Async.throw /Async.ret.
move: fetchData_outcome; move: AppData.fetchData => fetch Hfetch.
rewrite [AppData.deleteId _]/=.
set asked := AppData.setDeleteId _ s.
case E: (error c _) => [e|]; first by rewrite /= E.
move: (Hfetch c (AppData.setSent
                   (rcons (AppData.sent s) (delete_service_orders (String a r)))
                   asked)) => /=; rewrite E /=.
case: (fetch c _) => s1 r1 /= [-> Hloading Hsent Hscreen Hdata].
rewrite /Async.modify /=; split=> //; split=> //.
by rewrite Hsent -cats1 -catA.
Qed.

(** The witness of X20: the deletion of the stored order on a client that
    answers without error. *)
Lemma confirmDelete_after_request_witness :
  let s := AppData.initialState {| viewYear := 2024; viewMonth := 5 |} in
  let s' := (AppData.confirmDelete signedIn
               (AppData.onRequestDelete "OS-2024-7" signedIn s).1).1 in
  AppData.sent s' = delete_service_orders "OS-2024-7" :: selects /\
  AppData.deleteId s' = None.
Proof.
have [_ H] := @confirmDelete_after_request "OS-2024-7" signedIn
                (AppData.initialState {| viewYear := 2024; viewMonth := 5 |}).
by have [_ [Hsent Hid _ _]] := H isT.
Defined.

Lemma positive_plainNumber (v : number) : (0 <? v)%float -> plainNumber v.
Proof.
rewrite /plainNumber /is_nan classify_spec FloatAxioms.eqb_spec
        FloatAxioms.ltb_spec.
have -> : Prim2SF 0%float = S754_zero false by [].
case: (Prim2SF v) => [s|s||s m e] //=; case: s => //= _.
by rewrite /SFeqb /= Z.compare_refl Pos.compare_cont_refl; case: ifP.
Qed.

(** X21. Saving a goal in the widget.  A text that does not read as a
    number above 0 sets no goal and sends nothing.  Otherwise the goal goes
    to the store under the key of the month shown; once stored it is the
    goal the widget shows for that month, and the goal of no other month
    changes; if the store refuses or no user is signed in, the goals stay
    as they were and one alert is shown.  The handler never throws and
    leaves the lists and the screen alone. *)
Theorem saveGoal_sets_the_month_shown (parseFloat : string -> number)
    (tempGoal : string) (c : Client) (s : AppData.State) (other : ViewDate) :
  fourDigitView (AppData.viewDate s) -> fourDigitView other ->
  let val := parseFloat tempGoal in
  let s' := (saveGoal parseFloat tempGoal c s).1 in
  [/\ (saveGoal parseFloat tempGoal c s).2 = inr tt,
      screenOf s' = screenOf s /\
      AppData.orders s' = AppData.orders s /\
      AppData.transactions s' = AppData.transactions s,
      ~~ sameMonth other (AppData.viewDate s) -> goalOf s' other = goalOf s other
    & [/\ (0 <? val)%float && goalStored c s val ->
           AppData.goalValue s' = val /\ AppData.alerts s' = AppData.alerts s,
           ~~ (0 <? val)%float -> s' = s
         & (0 <? val)%float && ~~ goalStored c s val ->
           AppData.monthlyGoals s' = AppData.monthlyGoals s /\
           AppData.alerts s' = rcons (AppData.alerts s) "Erro ao definir meta."%string]].
Proof.
move=> Hview Hother val s'; rewrite /s' {s'}.
rewrite /saveGoal /MonthlyGoalWidget.handleSave -/val /=.
have Hnan : (0 <? val)%float -> ~~ is_nan val.
  by move=> /positive_plainNumber /andP [].
case Hpos: (0 <? val)%float; last by rewrite andbF.
rewrite (Hnan Hpos) /=.
rewrite /goalStored /AppData.handleSetGoal /Async.tryCatch /Async.bind
        /AppData.await /Async.lift /SupabaseService.setMonthlyGoal
        /SupabaseService.getUser /SupabaseService.send /SupabaseService.throwIf
        /Async.bind /Async.throw /Async.ret /Async.modify /=.
case: (user c) => [userId|] /=; last by split.
case: (error c _) => [e|] /=; first by split.
split=> //.
- rewrite /goalOf /SupabaseService.setGoal /= => /negbTE Hne.
  by rewrite /currentMonthKey monthKey_eqb // -/(sameMonth _ _) Hne.
- split=> // _; split=> //.
  rewrite /AppData.goalValue /SupabaseService.setGoal /= String.eqb_refl.
  exact: (orZero_plainNumber (positive_plainNumber Hpos)).
Qed.

(** The witness of X21: a goal of 5000 typed for June 2024, the text being
    read as 5000. *)
Lemma saveGoal_sets_the_month_shown_witness :
  let s' := (saveGoal (fun _ => 5000%float) "5000" signedIn juneView).1 in
  AppData.goalValue s' = 5000%float /\
  goalOf s' {| viewYear := 2024; viewMonth := 6 |} = None.
Proof.
have [_ _ Hother [Hshown _ _]] :=
  @saveGoal_sets_the_month_shown (fun _ => 5000%float) "5000" signedIn juneView
     {| viewYear := 2024; viewMonth := 6 |} isT isT.
by split; [have [] := Hshown isT | rewrite Hother].
Defined.

(** ** The transaction modal and the goal bar *)

Lemma abs_not_negative (x : number) : (PrimFloat.abs x <? 0)%float = false.
Proof.
rewrite FloatAxioms.ltb_spec abs_spec.
have -> : Prim2SF 0%float = S754_zero false by [].
by case: (Prim2SF x) => [s|s||s m e].
Qed.

(** X22. A transaction entered in the modal.  With a blank description or
    a blank amount nothing is submitted, the fields stay and the modal
    stays open.  Otherwise the fields are reset and the modal is closed at
    once, whatever the store answers later, and the amount that goes to
    the store is never negative, whatever was typed: an expense is told by
    its type. *)
Theorem submitTransaction_amount_not_negative (parseFloat : string -> number)
    (h : TransactionModal.ModalHost) (m : TransactionModal.State)
    (c : Client) (s : AppData.State) :
  let r := TransactionModal.handleSubmit parseFloat h m in
  let s' := (submitTransaction parseFloat h m c s).1 in
  let requests := drop (size (AppData.sent s)) (AppData.sent s') in
  [/\ blankEntry m -> r = (m, None, false) /\ s' = s,
      ~~ blankEntry m ->
        r.1.1 = {| TransactionModal.form_type := TransactionModal.form_type m;
                   TransactionModal.form_description := "";
                   TransactionModal.form_amount := "";
                   TransactionModal.form_date := TransactionModal.modalToday h |}
        /\ r.2 = true,
      ~~ blankEntry m ->
        match user c with
        | Some userId =>
            take 2 requests
            = [:: auth_getUser;
                  insert_transactions
                    {| inserted_tx_id :=
                         ("TX-" ++ Js.toString (TransactionModal.modalNow h))%string;
                       tx_user_id := userId;
                       inserted_description := TransactionModal.form_description m;
                       inserted_amount :=
                         PrimFloat.abs (parseFloat (TransactionModal.form_amount m));
                       inserted_tx_type := TransactionModal.form_type m;
                       inserted_date := TransactionModal.form_date m;
                       inserted_category := None |}]
        | None => requests = [:: auth_getUser]
        end
    & ~~ has storesNegativeAmount requests].
Proof.
rewrite /= /submitTransaction /blankEntry /TransactionModal.handleSubmit.
case: (TransactionModal.form_description m) => [|a d] /=.
  by split=> //; rewrite drop_size.
case: (TransactionModal.form_amount m) => [|a' d'] /=.
  by split=> //; rewrite drop_size.
set val := PrimFloat.abs _.
have Hval : (val <? 0)%float = false by exact: abs_not_negative.
rewrite /AppData.handleAddTransaction /Async.tryCatch /Async.bind
        /AppData.await /Async.lift /SupabaseService.createTransaction
        /SupabaseService.getUser /SupabaseService.send /SupabaseService.throwIf
        /Async.bind /Async.throw /Async.ret /Async.modify.
move: fetchData_outcome; move: AppData.fetchData => fetch Hfetch.
case Huser: (user c) => [userId|] /=; last first.
  by split=> //; rewrite -cats1 drop_size_cat.
case E: (error c _) => [e|] /=.
  by split=> //; rewrite -!cats1 -catA drop_size_cat //= Hval.
match goal with |- context [fetch c ?x] => move: (Hfetch c x) end.
case: (fetch c _) => s1 r1 /= [-> Hloading Hsent Hscreen Hdata] /=.
by rewrite Hsent -!cats1 -!catA drop_size_cat //=; split=> //; rewrite Hval.
Qed.

(** The witness of X22: an expense typed with a minus sign, the text being
    read as -50. *)
Lemma submitTransaction_amount_not_negative_witness :
  (TransactionModal.handleSubmit (fun _ => (-50)%float) modalHost fuelExpense).2
  = true /\
  take 2 (AppData.sent
            (submitTransaction (fun _ => (-50)%float) modalHost fuelExpense
               signedIn juneView).1)
  = [:: auth_getUser;
        insert_transactions
          {| inserted_tx_id := "TX-1718031600000"; tx_user_id := "u1";
             inserted_description := "combustivel";
             inserted_amount := 50%float; inserted_tx_type := expense;
             inserted_date := "2024-06-10"; inserted_category := None |}].
Proof.
have [_ H1 H2 _] :=
  @submitTransaction_amount_not_negative (fun _ => (-50)%float) modalHost
     fuelExpense signedIn juneView.
by split; [have [] := H1 isT | exact: (H2 isT)].
Defined.

(** X23. The goal bar.  The percentage of the goal reached is never
    negative, whatever the revenue and the goal, also with no goal set
    and with a negative revenue; the width of the bar is never below 0 nor
    above 100; and once the target is met the bar is full. *)
Theorem barWidth_within_bounds (currentRevenue goalValue : number) :
  let width := MonthlyGoalWidget.barWidth currentRevenue goalValue in
  [/\ (MonthlyGoalWidget.percentage currentRevenue goalValue <? 0)%float = false,
      (width <? 0)%float = false,
      (100 <? width)%float = false
    & MonthlyGoalWidget.isTargetMet currentRevenue goalValue ->
      (100 <=? width)%float].
Proof.
rewrite /MonthlyGoalWidget.barWidth /MonthlyGoalWidget.isTargetMet /=.
have Hp := Math_max_not_negative
             (currentRevenue / MonthlyGoalWidget.orOne goalValue * 100)%float.
move: Hp; rewrite -/(MonthlyGoalWidget.percentage currentRevenue goalValue).
move: (MonthlyGoalWidget.percentage _ _) => p Hp.
rewrite /MonthlyGoalWidget.Math_min.
have Hleb : is_nan p -> (100 <=? p)%float = false.
  rewrite /is_nan FloatAxioms.eqb_spec FloatAxioms.leb_spec.
  case: (Prim2SF p) => [s|s||s m e] //=; case: s => //=.
  by rewrite /SFeqb /SFcompare Z.compare_refl Pos.compare_cont_refl.
case Hnan: (is_nan 100 || is_nan p).
  by split=> //; rewrite Hleb.
case H1: (100 <? p)%float; first by split.
case H2: (p <? 100)%float; first by split.
by split.
Qed.

(** The witness of X23: a revenue of 1200 for a goal of 1000. *)
Lemma barWidth_within_bounds_witness :
  (100 <=? MonthlyGoalWidget.barWidth 1200%float 1000%float)%float.
Proof.
have [_ _ _ H] := barWidth_within_bounds 1200%float 1000%float.
exact: H.
Defined.

(** ** What is still to be received *)

Lemma sub_zero (x : number) : (x - 0)%float = x.
Proof.
apply: Prim2SF_inj; rewrite sub_spec.
have -> : Prim2SF 0%float = S754_zero false by [].
by case: (Prim2SF x) => [s|s||s m e] //; case: s.
Qed.

(** X24. What is still to be received counts an order with no milestone
    paid for its whole value: over orders of which none has a payment
    yet, the pending total is the sum of their values, added from left to
    right. *)
Theorem globalPending_of_unpaid_orders (orders : seq ServiceOrder) :
  all nothingPaid orders ->
  globalPending orders
  = sumNumbers [seq totalValue (financials order) | order <- orders].
Proof.
rewrite /globalPending /sumNumbers.
elim: orders 0%float => [|order orders IH] acc //= /andP [Hpaid Hall].
rewrite (IH _ Hall); congr foldl; congr PrimFloat.add.
move: Hpaid; rewrite /nothingPaid /calculateReceivedAmount.
case: (deposit _); case: (pickup _); case: (delivery _) => //= _.
exact: sub_zero.
Qed.

(** The witness of X24: two orders without a payment. *)
Lemma globalPending_of_unpaid_orders_witness :
  globalPending
    [:: sampleOrder "Ana" "2024-06-05" 1000%float 200%float
          {| deposit := false; pickup := false; delivery := false |} false Stage0;
        sampleOrder "Caio" "2024-06-07" 700%float 70%float
          {| deposit := false; pickup := false; delivery := false |} false Stage0]
  = sumNumbers [:: 1000%float; 700%float].
Proof.
exact: (@globalPending_of_unpaid_orders
          [:: sampleOrder "Ana" "2024-06-05" 1000%float 200%float
                {| deposit := false; pickup := false; delivery := false |}
                false Stage0;
              sampleOrder "Caio" "2024-06-07" 700%float 70%float
                {| deposit := false; pickup := false; delivery := false |}
                false Stage0] isT).
Defined.

(** ** The card and the documents *)

(** X25. The timeline of a card whose progress is the one derived from
    the payment flags: the step Entrega is completed exactly when the
    delivery is paid, Coleta when the pickup or the delivery is, Reserva
    when any of the three is; a step is never completed before the steps
    that precede it. *)
Theorem timeline_follows_the_payments (order : ServiceOrder) :
  progress order = calculateProgress order ->
  let ps := paymentStatus order in
  completedSteps (progress order)
  = [:: ("Reserva"%string, [|| deposit ps, pickup ps | delivery ps]);
        ("Coleta"%string, pickup ps || delivery ps);
        ("Entrega"%string, delivery ps)] /\
  sorted (fun a b : string * bool => b.2 ==> a.2) (completedSteps (progress order)).
Proof.
move=> -> /=; rewrite /calculateProgress.
by case: (deposit _); case: (pickup _); case: (delivery _).
Qed.

(** The witness of X25: the stored order, with the deposit paid. *)
Lemma timeline_follows_the_payments_witness :
  completedSteps (progress storedOrder)
  = [:: ("Reserva"%string, true); ("Coleta"%string, false);
        ("Entrega"%string, false)].
Proof.
by have [H _] := @timeline_follows_the_payments storedOrder (erefl _).
Defined.

Lemma cleanPhone_allDigits (s : string) : allDigits (cleanPhone s).
Proof.
by elim: s => [|c s IH] //=; case Hc: (Js.isDigit c) => //=; rewrite Hc.
Qed.

Lemma cleanPhone_digits (s : string) : allDigits s -> cleanPhone s = s.
Proof. by elim: s => [|c s IH] //= /andP [-> /IH ->]. Qed.

Ltac digit_by_digit :=
  repeat (let H := fresh "Hdigit" in case/andP=> H; rewrite ?H /=).

(** X26. The formatting helpers of the documents keep the digits of what
    they format.  A CPF and the telephone of the team sheet come out with
    the digits they went in with, in the same order.  The telephone of the
    driver sheet, when it has more than ten digits, comes out as 55
    followed by its first eleven digits: for a number of eleven digits
    these are the digits of the WhatsApp link of that number. *)
Theorem pdf_formatting_keeps_the_digits (val : string) :
  let digits := PdfGenerator.cleanPhone in
  [/\ digits (PdfGenerator.formatCPF val) = digits val,
      digits (PdfGenerator.formatPhoneTeam val) = digits val,
      digits (PdfGenerator.formatPhoneDriver val)
      = (if 10 < String.length (digits val)
         then ("55" ++ PdfGenerator.stringTake 11 (digits val))%string
         else digits val)
    & String.length (digits val) = 11 ->
      PdfGenerator.whatsappLink val
      = ("https://wa.me/" ++ digits (PdfGenerator.formatPhoneDriver val))%string].
Proof.
move=> digits; rewrite /digits {digits}.
rewrite /PdfGenerator.formatCPF /PdfGenerator.formatPhoneTeam
        /PdfGenerator.formatPhoneDriver /PdfGenerator.whatsappLink
        /PdfGenerator.cleanPhone.
have [d Hd Hval] : exists2 d, allDigits d & cleanPhone val = d.
  by exists (cleanPhone val) => //; exact: cleanPhone_allDigits.
rewrite !Hval.
have Hid := cleanPhone_digits Hd.
have Hdriver : 10 < String.length d ->
    cleanPhone ("+55 (" ++ PdfGenerator.substring d 0 2 ++ ") "
                ++ PdfGenerator.substring d 2 7 ++ "-"
                ++ PdfGenerator.substring d 7 11)
    = ("55" ++ PdfGenerator.stringTake 11 d)%string.
  move: Hd {Hid Hval}.
  case: d => [|c1 [|c2 [|c3 [|c4 [|c5 [|c6 [|c7 [|c8 [|c9 [|c10 [|c11 r]]]]]]]]]]]
    //=.
  by digit_by_digit.
split.
- case Hlen: (11 <= String.length d) => //; move: Hd Hlen {Hid Hdriver Hval}.
  case: d => [|c1 [|c2 [|c3 [|c4 [|c5 [|c6 [|c7 [|c8 [|c9 [|c10 [|c11 r]]]]]]]]]]]
    //=.
  by digit_by_digit => Hr _; rewrite (cleanPhone_digits Hr).
- case Hlen: (String.length d == 11) => //; move: Hd Hlen {Hid Hdriver Hval}.
  by case: d => [|c1 [|c2 [|c3 [|c4 [|c5 [|c6 [|c7 [|c8 [|c9 [|c10 [|c11 [|c r]
       ]]]]]]]]]]] //=; digit_by_digit.
- by case Hlen: (10 < String.length d) => //; rewrite (Hdriver Hlen).
- move=> Hlen; have Hgt : 10 < String.length d by rewrite Hlen.
  rewrite Hgt (Hdriver Hgt).
  move: Hlen {Hd Hid Hdriver Hgt Hval}.
  by case: d => [|c1 [|c2 [|c3 [|c4 [|c5 [|c6 [|c7 [|c8 [|c9 [|c10 [|c11 [|c r]
       ]]]]]]]]]]].
Qed.

(** The witness of X26: a number typed with its punctuation. *)
Lemma pdf_formatting_keeps_the_digits_witness :
  PdfGenerator.whatsappLink "(11) 98765-4321"
  = ("https://wa.me/"
     ++ PdfGenerator.cleanPhone (PdfGenerator.formatPhoneDriver "(11) 98765-4321"))%string.
Proof.
have [_ _ _ H] := pdf_formatting_keeps_the_digits "(11) 98765-4321".
exact: H.
Defined.




(** ** From the form to the store *)

Lemma sendEach_answersAll (c : Client) (rs : seq Request) :
  answersAll c -> sendEach c rs = (rs, None).
Proof. by move=> Hc; elim: rs => [|r rs IH] //=; rewrite Hc IH. Qed.

(** X28. What the save button stores for a new order, on a client that
    answers without error for the user signed in: the requests are the
    user, the insertion of the draft's row under the id [handleSubmit]
    gave it, of the extras of the working set of the form if there are
    any, of the notes if there are any, then the three selects of the
    refresh; the creation time [handleSubmit] stamped is not sent.
    Afterwards the form is closed and the success toast is shown. *)
Theorem saveDraft_stores_the_draft (h : SubmitHost) (s : State) (c : Client)
    (userId : string) (app : AppData.State) :
  answersAll c -> user c = Some userId -> initialData (props s) = None ->
  let finalOrder := handleSubmit h s in
  let app' := (saveDraft h s c app).1 in
  [/\ AppData.sent app'
      = AppData.sent app
        ++ auth_getUser :: createRequests userId finalOrder ++ selects,
      createRequests userId finalOrder
      = createRequests userId (withCreatedAt finalOrder ""),
      SupabaseService.columnsOf finalOrder = SupabaseService.columnsOf (formData s)
      /\ Types.extras (financials finalOrder) = extras s
      /\ notes finalOrder = notes (formData s)
    & [/\ AppData.isFormOpen app' = false, AppData.editingOrder app' = None
        & AppData.showSuccessToast app' = true]].
Proof.
move=> Hc Huser Hnew finalOrder app'.
have [_] := saveHandler_outcome (SupabaseService.createServiceOrder finalOrder)
              "Erro ao criar ordem." c app.
have -> : saveHandler (SupabaseService.createServiceOrder finalOrder)
            "Erro ao criar ordem." c app = saveDraft h s c app.
  by rewrite /saveDraft Hnew.
rewrite -/app' /savedFrom createServiceOrder_outcome Huser /outcomeOf
        (sendEach_answersAll _ Hc) /=.
case=> Hsent [Hopen Hediting] Htoast _; split=> //.
by rewrite Hsent -catA.
Qed.

(** The witness of X28: a client and two helpers typed into a new form. *)
Lemma saveDraft_stores_the_draft_witness :
  AppData.sent (saveDraft submitHost typedDraft signedIn juneView).1
  = auth_getUser
    :: createRequests "u1" (handleSubmit submitHost typedDraft) ++ selects.
Proof.
have Hc : answersAll signedIn by [].
by have [H _ _ _] :=
  @saveDraft_stores_the_draft submitHost typedDraft signedIn "u1" juneView
     Hc (erefl _) (erefl _).
Defined.
